(** * noa-assistant: the GPT assistant's tool-calling turn

    A shallow embedding of [src/assistant/gpt_assistant.py]: the history
    pruner, the context formatter, the tool argument sanitizer, the tool
    dispatcher, the photo tool and the turn orchestrator, followed by the
    properties proved about them.

    Conventions.
    - A Python [dict] is an association list in insertion order ([dict]);
      assignment to an existing key keeps the key's position.
    - A Python value that may be [None] is an [option].
    - Code that can raise returns a [result]. *)

From Stdlib Require Import String Ascii List ZArith Lia Bool Arith.
From Stdlib Require Strings.Byte.
Import ListNotations.

Local Open Scope string_scope.
Local Open Scope nat_scope.
Local Open Scope list_scope.

Notation "s1 +:+ s2" := (String.append s1 s2)
  (at level 60, right associativity) : string_scope.
Delimit Scope string_scope with string.

(* ================================================================== *)
(** * Part I: the program                                              *)
(* ================================================================== *)

(** ** Python containers *)

(** The newline character of Python's ["\n"]. *)
Definition nl : string := String "010"%char EmptyString.

Definition dict (V : Type) : Type := list (string * V).

(** [d[k] = v] *)
Fixpoint dict_set {V} (k : string) (v : V) (d : dict V) : dict V :=
  match d with
  | [] => [(k, v)]
  | (k', v') :: t =>
      if String.eqb k' k then (k', v) :: t else (k', v') :: dict_set k v t
  end.

(** [d.get(k)] *)
Fixpoint dict_get {V} (k : string) (d : dict V) : option V :=
  match d with
  | [] => None
  | (k', v') :: t => if String.eqb k' k then Some v' else dict_get k t
  end.

(** [k in d] *)
Definition dict_mem {V} (k : string) (d : dict V) : bool :=
  match dict_get k d with Some _ => true | None => false end.

(** [if k in d: del d[k]] *)
Fixpoint dict_del {V} (k : string) (d : dict V) : dict V :=
  match d with
  | [] => []
  | (k', v') :: t => if String.eqb k' k then t else (k', v') :: dict_del k t
  end.

(** [list(d.keys())] *)
Definition dict_keys {V} (d : dict V) : list string := map fst d.

(** [d.update(e)]: the entries of [e] are assigned in [e]'s order. *)
Definition dict_update {V} (d e : dict V) : dict V :=
  fold_left (fun acc kv => dict_set (fst kv) (snd kv) acc) e d.

(** [del l[i]] *)
Fixpoint del_at {A} (i : nat) (l : list A) : list A :=
  match l, i with
  | [], _ => []
  | _ :: t, O => t
  | h :: t, S j => h :: del_at j t
  end.

(** ** Messages *)

(** Modelled from the spec: [models.Role] and [models.Message] are imported
    by the source but not part of it; the spec's data model gives a message
    a role among system, user, assistant and tool, and a text content. *)
Inductive Role : Type := SYSTEM | USER | ASSISTANT | TOOL.

Record Message : Type := mkMessage { role : Role; content : string }.

Definition Role_eqb (r1 r2 : Role) : bool :=
  match r1, r2 with
  | SYSTEM, SYSTEM | USER, USER | ASSISTANT, ASSISTANT | TOOL, TOOL => true
  | _, _ => false
  end.

(** ** History pruner: [GPTAssistant._prune_history] *)

(** The variables of the [while] loop. *)
Record PruneState : Type := mkPrune {
  ps_history : list Message;
  ps_i : nat;
  assistant_messages_remaining : nat;
  user_messages_remaining : nat
}.

(** One execution of the loop body, entered with [i < len(message_history)]. *)
Definition prune_body (s : PruneState) : PruneState :=
  let h := ps_history s in
  let i := ps_i s in
  let a := assistant_messages_remaining s in
  let u := user_messages_remaining s in
  match nth_error h i with
  | None => s
  | Some m =>
      match role m with
      | ASSISTANT =>
          if a =? 0 then mkPrune (del_at i h) i a u
          else mkPrune h (i + 1) (a - 1) u
      | USER =>
          if u =? 0 then mkPrune (del_at i h) i a u
          else mkPrune h (i + 1) a (u - 1)
      | _ => mkPrune h (i + 1) a u
      end
  end.

(** The [while i < len(message_history)] loop; [None] when the fuel runs
    out before the guard fails. *)
Fixpoint prune_loop (fuel : nat) (s : PruneState) : option (list Message) :=
  if ps_i s <? length (ps_history s) then
    match fuel with
    | O => None
    | S fuel' => prune_loop fuel' (prune_body s)
    end
  else Some (ps_history s).

Definition _prune_history (message_history : list Message)
  : option (list Message) :=
  let reversed := rev message_history in
  match prune_loop (length reversed) (mkPrune reversed 0 3 5) with
  | Some pruned => Some (rev pruned)
  | None => None
  end.

(** *** Vocabulary for the pruner's properties *)

Definition has_role (r : Role) (m : Message) : bool := Role_eqb (role m) r.

Definition other_role (m : Message) : bool :=
  negb (has_role USER m) && negb (has_role ASSISTANT m).

Definition count_role (r : Role) (l : list Message) : nat :=
  length (filter (has_role r) l).

(** The last [n] elements of a list. *)
Definition most_recent {A} (n : nat) (l : list A) : list A :=
  skipn (length l - n) l.

(** [Subseq l1 l2]: [l1] is [l2] with some elements removed, the others
    in their original order. *)
Inductive Subseq {A} : list A -> list A -> Prop :=
| Subseq_nil : Subseq [] []
| Subseq_keep x l1 l2 : Subseq l1 l2 -> Subseq (x :: l1) (x :: l2)
| Subseq_drop x l1 l2 : Subseq l1 l2 -> Subseq l1 (x :: l2).

(** The loop, read as one pass over the reversed history with the two
    budgets: what the index-and-delete loop computes (lemma
    [prune_loop_scan]). *)
Fixpoint scan (l : list Message) (a u : nat) : list Message :=
  match l with
  | [] => []
  | m :: t =>
      match role m with
      | ASSISTANT =>
          match a with O => scan t a u | S a' => m :: scan t a' u end
      | USER =>
          match u with O => scan t a u | S u' => m :: scan t a u' end
      | _ => m :: scan t a u
      end
  end.

(** ** Context formatter: [GPTAssistant._create_context_system_message] *)

Definition CONTEXT_SYSTEM_MESSAGE_PREFIX : string :=
  "## Additional context about the user:".

Definition TIME_DISCLAIMER : string :=
  "If asked, tell user you don't know current date or time because clock is broken".

Definition LOCATION_DISCLAIMER : string :=
  "You do not know user's location and if asked, tell them so".

(** [x if x is not None and len(x) > 0 else fallback] *)
Definition present_or (x : option string) (fallback : string) : string :=
  match x with
  | Some s => if 0 <? String.length s then s else fallback
  | None => fallback
  end.

(** The value stored under the fixed key ["current_time"]. *)
Definition fixed_current_time (local_time : option string) : string :=
  present_or local_time TIME_DISCLAIMER.

(** The value stored under the fixed key ["location"]. *)
Definition fixed_location (location : option string) : string :=
  present_or location LOCATION_DISCLAIMER.

(** A learned context: [Dict[str,str]]; a value may still be [None], which
    the final comprehension filters out. *)
Definition LearnedContext : Type := dict (option string).

(** The dictionary [context] once the learned context has been merged. *)
Definition merged_context (local_time location : option string)
    (learned_context : option LearnedContext) : dict (option string) :=
  let context : dict (option string) := [] in
  let context :=
    dict_set "current_time" (Some (fixed_current_time local_time)) context in
  let context :=
    dict_set "location" (Some (fixed_location location)) context in
  match learned_context with
  | Some lc => dict_update context lc
  | None => context
  end.

(** [for key, value in context.items() if value is not None] *)
Fixpoint context_items (context : dict (option string))
  : list (string * string) :=
  match context with
  | [] => []
  | (key, Some value) :: t => (key, value) :: context_items t
  | (_, None) :: t => context_items t
  end.

(** [f"<{key}>{value}</{key}>"] *)
Definition tag (kv : string * string) : string :=
  ("<" +:+ fst kv +:+ ">" +:+ snd kv +:+ "</" +:+ fst kv +:+ ">")%string.

Definition _create_context_system_message (local_time location : option string)
    (learned_context : option LearnedContext) : string :=
  (CONTEXT_SYSTEM_MESSAGE_PREFIX
   +:+ String.concat nl
         (map tag
            (context_items
               (merged_context local_time location learned_context))))%string.

(** The value emitted inside the tag [<key>] of the block built from the
    given inputs ([None]: no such tag). *)
Definition emitted_in_tag (key : string) (local_time location : option string)
    (learned_context : option LearnedContext) : option string :=
  dict_get key
    (context_items (merged_context local_time location learned_context)).

(** The keys of a learned context ([None] has none). *)
Definition learned_keys (learned_context : option LearnedContext)
  : list string :=
  match learned_context with
  | Some lc => dict_keys lc
  | None => []
  end.

(** ** Python values and exceptions *)

Definition bytes : Type := list Byte.byte.

(** The values a tool-argument dictionary ([Dict[str, Any]]) holds: what
    [json.loads] can produce, the values the sanitizer injects, and
    references to the objects it passes on without copying (the two
    service handles and the two shared accumulators of the turn). *)
#[local] Set Warnings "-register-all".
Inductive Value : Type :=
| VNone
| VBool (b : bool)
| VInt (z : Z)
| VFloat (literal : string)
| VStr (s : string)
| VList (l : list Value)
| VDict (d : list (string * Value))
| VBytes (b : bytes)
| VContext (learned_context : LearnedContext)
| VVision
| VWebSearch
| VTokenUsageByModel
| VCapabilitiesUsed.

(** [type(v) == str] *)
Definition is_str (v : Value) : bool :=
  match v with VStr _ => true | _ => false end.

(** [type(v) == bool] *)
Definition is_bool (v : Value) : bool :=
  match v with VBool _ => true | _ => false end.

(** The exceptions the modelled code can raise or let through.
    [BackendError] stands for whatever a backend raises;
    [LoopFuelExhausted] is not a Python exception: it marks a run of the
    pruner's loop cut short by the model's fuel, which never happens
    ([_prune_history_scan]). *)
Inductive Exception : Type :=
| IndexError
| KeyError (key : string)
| AttributeError
| TypeError
| ValueError (message : string)
| AssertionError
| BackendError (detail : string)
| LoopFuelExhausted.

Inductive result (A : Type) : Type :=
| Ok (a : A)
| Raise (e : Exception).
Arguments Ok {A} a.
Arguments Raise {A} e.

(** ** The tool catalogue *)

Definition DUMMY_SEARCH_TOOL_NAME : string := "general_knowledge_search".
Definition SEARCH_TOOL_NAME : string := "search".
Definition PHOTO_TOOL_NAME : string := "analyze_photo".
Definition QUERY_PARAM_NAME : string := "query".
Definition PHOTO_TOOL_WEB_SEARCH_PARAM_NAME : string :=
  "google_reverse_image_search".
Definition PHOTO_TOOL_TRANSLATION_PARAM_NAME : string := "translate".

(** One entry of a tool's ["properties"]. *)
Record ParamSpec : Type := mkParam {
  param_type : string;
  param_description : string
}.

(** One entry of [TOOLS] (its ["function"] object; ["type"] is always
    ["function"] and the parameters' ["type"] always ["object"]). *)
Record ToolDescription : Type := mkTool {
  tool_name : string;
  tool_description : string;
  tool_properties : dict ParamSpec;
  tool_required : list string
}.

Definition TOOLS : list ToolDescription :=
  [ mkTool DUMMY_SEARCH_TOOL_NAME
      "Trivial and general knowledge that would be expected to exist in Wikipedia or an encyclopedia"
      [ (QUERY_PARAM_NAME, mkParam "string" "search query") ]
      [ QUERY_PARAM_NAME ];
    mkTool SEARCH_TOOL_NAME
      "Provides up to date information on news, retail products, current events, and esoteric knowledge"
      [ (QUERY_PARAM_NAME, mkParam "string" "search query") ]
      [ QUERY_PARAM_NAME ];
    mkTool PHOTO_TOOL_NAME
      ("Analyzes or describes the photo you have from the user's current perspective."
       +:+ nl +:+
       "Use this tool if user refers to something not identifiable from conversation context, such as with a demonstrative pronoun.")
      [ (QUERY_PARAM_NAME,
         mkParam "string"
           "User's query to answer, describing what they want answered, expressed as a command that NEVER refers to the photo or image itself");
        (PHOTO_TOOL_WEB_SEARCH_PARAM_NAME,
         mkParam "boolean"
           "True ONLY if user wants to look up facts about contents of photo online (simply identifying what is in the photo does not count), otherwise always false");
        (PHOTO_TOOL_TRANSLATION_PARAM_NAME,
         mkParam "boolean" "Translation of something in user's view required") ]
      [ QUERY_PARAM_NAME; PHOTO_TOOL_WEB_SEARCH_PARAM_NAME;
        PHOTO_TOOL_TRANSLATION_PARAM_NAME ] ].

(** A [ChatCompletionMessageToolCall]: its [id], [function.name] and
    [function.arguments] (the raw JSON text). *)
Record ToolCall : Type := mkToolCall {
  call_id : string;
  function_name : string;
  function_arguments : string
}.

(** ** Tool argument sanitizer: [prepare_tool_arguments] *)

(** [x if x else "unknown"]: [None] and the empty string are falsy. *)
Definition location_or_unknown (location : option string) : string :=
  match location with
  | Some l => if 0 <? String.length l then l else "unknown"
  | None => "unknown"
  end.

(** [del args[param_name]]: a missing key raises [KeyError]. *)
Definition del_argument (param_name : string) (args : dict Value)
  : result (dict Value) :=
  if dict_mem param_name args then Ok (dict_del param_name args)
  else Raise (KeyError param_name).

(** [function_parameters[param_name]["type"] == expected and
    type(args[param_name]) != ...]: the argument is read only when the
    declared type is the expected one. *)
Definition type_mismatch (declared expected : string)
    (has_type : Value -> bool) (param_name : string) (args : dict Value)
  : result bool :=
  if (declared =? expected)%string then
    match dict_get param_name args with
    | Some v => Ok (negb (has_type v))
    | None => Raise (KeyError param_name)
    end
  else Ok false.

(** One pass of the body of [for param_name in list(args.keys())]. *)
Definition sanitize_param (function_parameters : dict ParamSpec)
    (param_name : string) (args : dict Value) : result (dict Value) :=
  match dict_get param_name function_parameters with
  | None => del_argument param_name args
  | Some spec =>
      match type_mismatch (param_type spec) "string" is_str param_name args
      with
      | Raise e => Raise e
      | Ok true => del_argument param_name args
      | Ok false =>
          match type_mismatch (param_type spec) "boolean" is_bool param_name
                  args with
          | Raise e => Raise e
          | Ok true => del_argument param_name args
          | Ok false =>
              if negb ((param_type spec =? "string")%string
                       || (param_type spec =? "boolean")%string)
              then Raise (ValueError ("Unsupported tool parameter type: "
                                      +:+ param_type spec))
              else Ok args
          end
      end
  end.

(** The [for] loop over the snapshot [list(args.keys())]. *)
Fixpoint sanitize_params (function_parameters : dict ParamSpec)
    (param_names : list string) (args : dict Value) : result (dict Value) :=
  match param_names with
  | [] => Ok args
  | param_name :: rest =>
      match sanitize_param function_parameters param_name args with
      | Ok args' => sanitize_params function_parameters rest args'
      | Raise e => Raise e
      end
  end.

(** The keys injected for the photo tool only. *)
Definition inject_photo_arguments (image_bytes : option bytes)
    (local_time : option string) (learned_context : option LearnedContext)
    (args : dict Value) : dict Value :=
  let args :=
    dict_set "image_bytes"
      (match image_bytes with Some b => VBytes b | None => VNone end) args in
  let args := dict_set "vision" VVision args in
  let args := dict_set "web_search" VWebSearch args in
  let args :=
    dict_set "local_time"
      (match local_time with Some t => VStr t | None => VNone end) args in
  let args :=
    dict_set "learned_context"
      (match learned_context with Some lc => VContext lc | None => VNone end)
      args in
  let args := dict_set "token_usage_by_model" VTokenUsageByModel args in
  let args := dict_set "capabilities_used" VCapabilitiesUsed args in
  args.

Section Sanitizer.

(** [json.loads] of the standard library: [None] when it raises. *)
Variable json_loads : string -> option Value.

Definition prepare_tool_arguments (tool_call : ToolCall)
    (user_message : string) (image_bytes : option bytes)
    (location local_time : option string)
    (learned_context : option LearnedContext) : result (dict Value) :=
  match filter (fun description =>
                  (tool_name description =? function_name tool_call)%string)
               TOOLS with
  | [] => Raise IndexError
  | function_description :: _ =>
      let function_parameters := tool_properties function_description in
      let parsed :=
        match json_loads (function_arguments tool_call) with
        | Some v => v
        | None => VDict []
        end in
      match parsed with
      | VDict args =>
          match sanitize_params function_parameters (dict_keys args) args with
          | Raise e => Raise e
          | Ok args =>
              let args :=
                dict_set "location" (VStr (location_or_unknown location))
                  args in
              let args :=
                dict_set QUERY_PARAM_NAME
                  (match dict_get QUERY_PARAM_NAME args with
                   | Some v => v
                   | None => VStr user_message
                   end) args in
              let args :=
                if (function_name tool_call =? PHOTO_TOOL_NAME)%string
                then inject_photo_arguments image_bytes local_time
                       learned_context args
                else args in
              Ok args
          end
      | _ => Raise AttributeError
      end
  end.

End Sanitizer.

(** *** Vocabulary for the sanitizer's properties *)

(** The parameter schema of the tool called [name], if catalogued. *)
Definition declared_parameters (name : string) : option (dict ParamSpec) :=
  match filter (fun description => (tool_name description =? name)%string)
               TOOLS with
  | [] => None
  | description :: _ => Some (tool_properties description)
  end.

(** The keys the sanitizer sets itself for the tool called [name]. *)
Definition injected_keys (name : string) : list string :=
  if (name =? PHOTO_TOOL_NAME)%string
  then [ "location"; "image_bytes"; "vision"; "web_search"; "local_time";
         "learned_context"; "token_usage_by_model"; "capabilities_used" ]
  else [ "location" ].

(** The arguments the sanitizer adds to the validated ones. *)
Definition with_injected (name user_message : string)
    (image_bytes : option bytes) (location local_time : option string)
    (learned_context : option LearnedContext) (args : dict Value)
  : dict Value :=
  let args := dict_set "location" (VStr (location_or_unknown location)) args in
  let args :=
    dict_set QUERY_PARAM_NAME
      (match dict_get QUERY_PARAM_NAME args with
       | Some v => v
       | None => VStr user_message
       end) args in
  if (name =? PHOTO_TOOL_NAME)%string
  then inject_photo_arguments image_bytes local_time learned_context args
  else args.

(** An argument the loop keeps: declared, and of the declared type. *)
Definition well_typed (function_parameters : dict ParamSpec)
    (kv : string * Value) : bool :=
  match dict_get (fst kv) function_parameters with
  | None => false
  | Some spec =>
      if (param_type spec =? "string")%string then is_str (snd kv)
      else if (param_type spec =? "boolean")%string then is_bool (snd kv)
      else true
  end.

(** Every declared type is one the loop supports. *)
Definition supported_schema (function_parameters : dict ParamSpec) : bool :=
  forallb (fun kv => (param_type (snd kv) =? "string")%string
                     || (param_type (snd kv) =? "boolean")%string)
          function_parameters.

(** The double quote character, for writing JSON texts. *)
Definition dq : string := String "034"%char EmptyString.

(** [json.loads] on the payloads used in the examples below. *)
Definition loads_examples (raw : string) : option Value :=
  if (raw =? "{" +:+ dq +:+ "query" +:+ dq +:+ ": 42}")%string
  then Some (VDict [("query", VInt 42)])
  else if (raw =? "{" +:+ dq +:+ "query" +:+ dq +:+ ": " +:+ dq
                  +:+ "weather in Paris" +:+ dq +:+ ", " +:+ dq +:+ "foo"
                  +:+ dq +:+ ": " +:+ dq +:+ "bar" +:+ dq +:+ "}")%string
  then Some (VDict [("query", VStr "weather in Paris"); ("foo", VStr "bar")])
  else if (raw =? "{" +:+ dq +:+ "translate" +:+ dq +:+ ": " +:+ dq
                  +:+ "true" +:+ dq +:+ "}")%string
  then Some (VDict [("translate", VStr "true")])
  else if (raw =? "[]")%string then Some (VList [])
  else if (raw =? "{}")%string then Some (VDict [])
  else None.

(** ** Prompts *)

Definition SYSTEM_MESSAGE : string := "
You are Noa, a smart personal AI assistant inside the user's AR smart glasses that answers all user
queries and questions. You have access to a photo from the smart glasses camera of what the user was
seeing at the time they spoke.

Make your responses short (one or two sentences) and precise. Respond without any preamble when giving
translations, just translate directly. When analyzing the user's view, speak as if you can actually
see and never make references to the photo or image you analyzed.
".

Definition VISION_PHOTO_DESCRIPTION_SYSTEM_MESSAGE : string := "
You are Noa, a smart personal AI assistant inside the user's AR smart glasses that answers all user
queries and questions. You have access to a photo from the smart glasses camera of what the user was
seeing at the time they spoke but you NEVER mention the photo or image and instead respond as if you
are actually seeing.

The camera is unfortunately VERY low quality but the user is counting on you to interpret the
blurry, pixelated images. NEVER comment on image quality. Do your best with images.

Make your responses short (one or two sentences) and precise. Respond without any preamble when giving
translations, just translate directly. When analyzing the user's view, speak as if you can actually
see and never make references to the photo or image you analyzed.
".

Definition VISION_GENERATE_REVERSE_IMAGE_SEARCH_QUERY_FROM_PHOTO_SYSTEM_MESSAGE
  : string := "
you are photo tool, with help of photo and user's query, make a short (1 SENTENCE) and concise google search query that can be searched on internet with google reverse image search to answer the user.
".

Definition HALLUCINATED_TOOL_ERROR : string :=
  "Error: you hallucinated a tool that doesn't exist. Tell user you had trouble interpreting the request and ask them to rephrase it.".

Definition NO_PHOTO_ERROR : string :=
  "Error: no photo supplied. Tell user: I think you're referring to something you can see. Can you provide a photo?".

(** ** Capabilities, token usage, debug records *)

(** Modelled from the spec: [models.Capability] is imported by the source
    but not part of it; the members are the four the source names. *)
Inductive Capability : Type :=
| ASSISTANT_KNOWLEDGE
| WEB_SEARCH
| VISION
| REVERSE_IMAGE_SEARCH.

(** Modelled from the spec: [models.TokenUsage], a per-model accumulator
    of input, output and total tokens. *)
Record TokenUsage : Type := mkUsage {
  input_tokens : Z;
  output_tokens : Z;
  total_tokens : Z
}.

(** Modelled from the spec: [models.accumulate_token_usage] is imported by
    the source but not part of it; the spec has the mapping from model
    identifier to [TokenUsage] mutated additively by every completion
    call. *)
Definition accumulate_token_usage (token_usage_by_model : dict TokenUsage)
    (model : string) (input output total : Z) : dict TokenUsage :=
  match dict_get model token_usage_by_model with
  | Some u =>
      dict_set model
        (mkUsage (input_tokens u + input) (output_tokens u + output)
           (total_tokens u + total))
        token_usage_by_model
  | None => dict_set model (mkUsage input output total) token_usage_by_model
  end.

(** The dictionaries appended to [tools_used]. *)
Inductive DebugRecord : Type :=
| ContextRecord (learned_context : LearnedContext)
| ToolRecord (tool : string) (tool_args : dict Value) (tool_time : Z)
    (search_result : option string)
| HallucinatedRecord (tool : string).

Definition create_hallucinated_tool_info_object (function_name : string)
  : DebugRecord :=
  HallucinatedRecord function_name.

(** ** The completion backend's messages *)

(** [choices[0].message] of a completion response. *)
Record CompletionMessage : Type := mkCompletionMessage {
  message_content : option string;
  tool_calls : option (list ToolCall)
}.

Record CompletionUsage : Type := mkCompletionUsage {
  prompt_tokens : Z;
  completion_tokens : Z;
  usage_total_tokens : Z
}.

Record CompletionResponse : Type := mkCompletionResponse {
  first_choice : CompletionMessage;
  usage : CompletionUsage
}.

(** What [message_history] holds in the course of a turn: [Message]
    objects, the first response's message, then one dictionary per tool
    call. *)
Inductive HistoryEntry : Type :=
| PlainMessage (m : Message)
| ResponseMessage (m : CompletionMessage)
| ToolMessage (tool_call_id name tool_content : string).

Record CompletionRequest : Type := mkRequest {
  request_model : string;
  request_messages : list HistoryEntry;
  request_tools : option (list ToolDescription);
  request_tool_choice : option string
}.

(** A [WebSearchResult], as far as the source reads it. *)
Record WebSearchResult : Type := mkSearchResult {
  summary : string;
  search_provider_metadata : option string
}.

(** The keyword arguments of [web_search.search_web]; [None] for
    [use_photo] and [image_bytes] when the caller leaves them out. *)
Record SearchArguments : Type := mkSearch {
  search_query : string;
  search_use_photo : option bool;
  search_image_bytes : option bytes;
  search_location : option string
}.

(** What a tool handler returns: [str | WebSearchResult]. *)
Inductive ToolOutput : Type :=
| Text (s : string)
| Search (r : WebSearchResult).

(** The [AssistantResponse] handed back to the caller. *)
Record AssistantResponse : Type := mkResponse {
  response_token_usage_by_model : dict TokenUsage;
  response_capabilities_used : list Capability;
  response : option string;
  debug_tools : string
}.

(** [s.strip(c)] for a one-character [c]. *)
Fixpoint lstrip_char (c : ascii) (s : string) : string :=
  match s with
  | String a t => if Ascii.eqb a c then lstrip_char c t else s
  | EmptyString => EmptyString
  end.

Fixpoint string_rev (s : string) : string :=
  match s with
  | EmptyString => EmptyString
  | String a t => (string_rev t +:+ String a EmptyString)%string
  end.

Definition strip_char (c : ascii) (s : string) : string :=
  string_rev (lstrip_char c (string_rev (lstrip_char c s))).

(** [bool(x)] for an optional string. *)
Definition truthy (x : option string) : bool :=
  match x with
  | Some s => 0 <? String.length s
  | None => false
  end.

(** The photo tool's parameters that arrive as keyword arguments. *)
Record PhotoArguments : Type := mkPhoto {
  photo_query : string;
  photo_google_reverse_image_search : bool;
  photo_translate : bool;
  photo_image_bytes : option bytes;
  photo_local_time : option string;
  photo_location : option string;
  photo_learned_context : option LearnedContext
}.

(** Binding [**function_args] to [handle_photo_tool]'s parameters; the two
    flags default to [False].  [None]: the call raises [TypeError]. *)
Definition photo_arguments (function_args : dict Value)
  : option PhotoArguments :=
  match dict_get QUERY_PARAM_NAME function_args,
        dict_get "vision" function_args,
        dict_get "web_search" function_args,
        dict_get "token_usage_by_model" function_args,
        dict_get "capabilities_used" function_args with
  | Some (VStr query), Some VVision, Some VWebSearch,
    Some VTokenUsageByModel, Some VCapabilitiesUsed =>
      Some (mkPhoto query
              (match dict_get PHOTO_TOOL_WEB_SEARCH_PARAM_NAME function_args with
               | Some (VBool b) => b
               | _ => false
               end)
              (match dict_get PHOTO_TOOL_TRANSLATION_PARAM_NAME function_args with
               | Some (VBool b) => b
               | _ => false
               end)
              (match dict_get "image_bytes" function_args with
               | Some (VBytes b) => Some b
               | _ => None
               end)
              (match dict_get "local_time" function_args with
               | Some (VStr t) => Some t
               | _ => None
               end)
              (match dict_get "location" function_args with
               | Some (VStr l) => Some l
               | _ => None
               end)
              (match dict_get "learned_context" function_args with
               | Some (VContext lc) => Some lc
               | _ => None
               end))
  | _, _, _, _, _ => None
  end.

(** ** The turn: shared accumulators, backends, effects *)

(** The containers a turn shares between the orchestrator and the tool
    handlers, which all mutate them in place. *)
Record Store : Type := mkStore {
  token_usage_by_model : dict TokenUsage;
  capabilities_used : list Capability;
  tools_used : list DebugRecord
}.

Definition empty_store : Store := mkStore [] [] [].

Section Turn.

(** The state of everything outside the program: the three backends and
    the clock. *)
Variable World : Type.

(** [json.loads] and [json.dumps] of the standard library. *)
Variable json_loads : string -> option Value.
Variable json_dumps : list DebugRecord -> string.

(** The string a [Capability] member stands for ([", ".join] is applied
    to a list of them). *)
Variable capability_value : Capability -> string.

(** [timeit.default_timer()], in milliseconds (the source rounds elapsed
    times to three decimals of a second). *)
Variable default_timer : World -> Z.

(** [client.chat.completions.create] *)
Record Client : Type := mkClient {
  chat_completions_create :
    CompletionRequest -> World -> result CompletionResponse * World
}.

(** [vision.query_image(system_message, query, image_bytes,
    token_usage_by_model)]: it answers with a text and may add to the
    token usage it is handed. *)
Record Vision : Type := mkVision {
  query_image :
    string -> string -> bytes -> dict TokenUsage -> World ->
    result string * dict TokenUsage * World
}.

(** [web_search.search_web(...)] *)
Record WebSearch : Type := mkWebSearch {
  search_web : SearchArguments -> World -> result WebSearchResult * World
}.

(** A computation over the shared store and the world that may raise. *)
Definition M (A : Type) : Type := Store -> World -> result A * Store * World.

Definition ret {A} (a : A) : M A := fun st w => (Ok a, st, w).

Definition raise {A} (e : Exception) : M A := fun st w => (Raise e, st, w).

Definition bind {A B} (c : M A) (k : A -> M B) : M B :=
  fun st w =>
    match c st w with
    | (Ok a, st', w') => k a st' w'
    | (Raise e, st', w') => (Raise e, st', w')
    end.

Notation "x <- c1 ;; c2" := (bind c1 (fun x => c2))
  (at level 61, c1 at next level, right associativity).
Notation "c1 ;; c2" := (bind c1 (fun _ => c2))
  (at level 61, right associativity).

Definition lift_result {A} (r : result A) : M A :=
  match r with
  | Ok a => ret a
  | Raise e => raise e
  end.

(** [capabilities_used.append(c)] *)
Definition append_capability (c : Capability) : M unit :=
  fun st w =>
    (Ok tt,
     mkStore (token_usage_by_model st) (capabilities_used st ++ [c])
       (tools_used st),
     w).

(** [tools_used.append(record)] *)
Definition append_tool_used (record : DebugRecord) : M unit :=
  fun st w =>
    (Ok tt,
     mkStore (token_usage_by_model st) (capabilities_used st)
       (tools_used st ++ [record]),
     w).

Definition read_timer : M Z := fun st w => (Ok (default_timer w), st, w).

Definition call_query_image (vision : Vision)
    (system_message query : string) (image_bytes : bytes) : M string :=
  fun st w =>
    match query_image vision system_message query image_bytes
            (token_usage_by_model st) w with
    | (r, usage', w') =>
        (r, mkStore usage' (capabilities_used st) (tools_used st), w')
    end.

Definition call_search_web (web_search : WebSearch)
    (arguments : SearchArguments) : M WebSearchResult :=
  fun st w =>
    match search_web web_search arguments w with
    | (r, w') => (r, st, w')
    end.

Definition call_completion (client : Client) (request : CompletionRequest)
  : M CompletionResponse :=
  fun st w =>
    match chat_completions_create client request w with
    | (r, w') => (r, st, w')
    end.

(** ** Photo tool: [handle_photo_tool] *)

(** The shared accumulators the source takes as parameters are the store;
    the closing [print] only writes to standard output. *)

Definition handle_photo_tool (query : string) (vision : Vision)
    (web_search : WebSearch) (google_reverse_image_search translate : bool)
    (image_bytes : option bytes) (local_time location : option string)
    (learned_context : option LearnedContext) : M ToolOutput :=
  let extra_context :=
    (nl +:+ nl +:+
     _create_context_system_message local_time location learned_context)%string
  in
  match image_bytes with
  | None => ret (Text NO_PHOTO_ERROR)
  | Some image =>
      if length image =? 0 then ret (Text NO_PHOTO_ERROR)
      else if google_reverse_image_search && negb translate then
        append_capability REVERSE_IMAGE_SEARCH ;;
        let system_prompt :=
          (VISION_GENERATE_REVERSE_IMAGE_SEARCH_QUERY_FROM_PHOTO_SYSTEM_MESSAGE
           +:+ extra_context)%string in
        vision_response <-
          call_query_image vision system_prompt query image ;;
        found <-
          call_search_web web_search
            (mkSearch (strip_char "034"%char vision_response) (Some true)
               (Some image) location) ;;
        ret (Search found)
      else
        append_capability VISION ;;
        let system_prompt :=
          (VISION_PHOTO_DESCRIPTION_SYSTEM_MESSAGE +:+ extra_context)%string
        in
        response <- call_query_image vision system_prompt query image ;;
        ret (Text response)
  end.

(** ** The other handlers *)

(** [handle_general_knowledge_tool]: it ignores its arguments. *)
Definition handle_general_knowledge_tool (query : string)
    (location : option string) : M ToolOutput :=
  ret (Text "").

(** Each handler as called with [**function_args]. *)

Definition search_web_kwargs (web_search : WebSearch)
    (function_args : dict Value) : M ToolOutput :=
  match dict_get QUERY_PARAM_NAME function_args,
        dict_get "location" function_args with
  | Some (VStr query), Some (VStr location) =>
      found <-
        call_search_web web_search
          (mkSearch query None None (Some location)) ;;
      ret (Search found)
  | _, _ => raise TypeError
  end.

Definition handle_photo_tool_kwargs (vision : Vision)
    (web_search : WebSearch) (function_args : dict Value) : M ToolOutput :=
  match photo_arguments function_args with
  | Some a =>
      handle_photo_tool (photo_query a) vision web_search
        (photo_google_reverse_image_search a) (photo_translate a)
        (photo_image_bytes a) (photo_local_time a) (photo_location a)
        (photo_learned_context a)
  | None => raise TypeError
  end.

Definition handle_general_knowledge_tool_kwargs
    (function_args : dict Value) : M ToolOutput :=
  match dict_get QUERY_PARAM_NAME function_args,
        dict_get "location" function_args with
  | Some (VStr query), Some (VStr location) =>
      handle_general_knowledge_tool query (Some location)
  | _, _ => raise TypeError
  end.

(** ** Debug records: [create_debug_tool_info_object] *)

(** The loop body's effect on one value: bytes become a placeholder,
    a list is joined ([capabilities_used] is the turn's shared list). *)
Definition sanitize_debug_value (capabilities : list Capability)
    (value : Value) : result Value :=
  match value with
  | VBytes _ => Ok (VStr "<bytes>")
  | VCapabilitiesUsed =>
      Ok (VStr (String.concat ", " (map capability_value capabilities)))
  | VList l =>
      if forallb is_str l
      then Ok (VStr (String.concat ", "
                       (map (fun v => match v with VStr s => s | _ => "" end)
                            l)))
      else Raise TypeError
  | _ => Ok value
  end.

Fixpoint sanitize_debug_args (capabilities : list Capability)
    (function_args : dict Value) : result (dict Value) :=
  match function_args with
  | [] => Ok []
  | (arg_name, value) :: rest =>
      match sanitize_debug_value capabilities value with
      | Raise e => Raise e
      | Ok value' =>
          match sanitize_debug_args capabilities rest with
          | Raise e => Raise e
          | Ok rest' => Ok ((arg_name, value') :: rest')
          end
      end
  end.

Definition create_debug_tool_info_object (function_name : string)
    (function_args : dict Value) (tool_time : Z)
    (search_result : option string) : M DebugRecord :=
  fun st w =>
    match sanitize_debug_args (capabilities_used st) function_args with
    | Raise e => (Raise e, st, w)
    | Ok function_args =>
        let function_args := dict_del "vision" function_args in
        let function_args := dict_del "web_search" function_args in
        let function_args := dict_del "token_usage_by_model" function_args in
        let function_args := dict_del "prompt" function_args in
        (Ok (ToolRecord function_name function_args tool_time
               (if truthy search_result then search_result else None)),
         st, w)
    end.

(** ** Tool dispatcher: [handle_tool] *)

(** The table [tool_functions], looked up with [.get]. *)
Definition tool_functions (vision : Vision) (web_search : WebSearch)
    (name : string) : option (dict Value -> M ToolOutput) :=
  if (name =? SEARCH_TOOL_NAME)%string
  then Some (search_web_kwargs web_search)
  else if (name =? PHOTO_TOOL_NAME)%string
  then Some (handle_photo_tool_kwargs vision web_search)
  else if (name =? DUMMY_SEARCH_TOOL_NAME)%string
  then Some handle_general_knowledge_tool_kwargs
  else None.

Definition handle_tool (tool_call : ToolCall) (user_message : string)
    (image_bytes : option bytes) (location local_time : option string)
    (web_search : WebSearch) (vision : Vision)
    (learned_context : option LearnedContext) : M string :=
  let function_name := function_name tool_call in
  match tool_functions vision web_search function_name with
  | None => ret HALLUCINATED_TOOL_ERROR
  | Some function_to_call =>
      function_args <-
        lift_result
          (prepare_tool_arguments json_loads tool_call user_message
             image_bytes location local_time learned_context) ;;
      tool_start_time <- read_timer ;;
      function_response <- function_to_call function_args ;;
      tool_stop_time <- read_timer ;;
      let total_tool_time := (tool_stop_time - tool_start_time)%Z in
      (if (function_name =? SEARCH_TOOL_NAME)%string
       then append_capability WEB_SEARCH
       else if (function_name =? DUMMY_SEARCH_TOOL_NAME)%string
       then append_capability ASSISTANT_KNOWLEDGE
       else ret tt) ;;
      record <-
        create_debug_tool_info_object function_name function_args
          total_tool_time
          (match function_response with
           | Search found => search_provider_metadata found
           | Text _ => None
           end) ;;
      append_tool_used record ;;
      ret (match function_response with
           | Search found => summary found
           | Text s => s
           end)
  end.

(** ** Turn orchestrator: [GPTAssistant.send_to_assistant] *)

(** The history up to the pruning: copy, system message in front unless
    the client sent one, the user's message at the end. *)
Definition prepare_history (prompt : string)
    (message_history : option (list Message)) : option (list Message) :=
  let user_message := mkMessage USER prompt in
  let system_message := mkMessage SYSTEM SYSTEM_MESSAGE in
  let message_history :=
    match message_history with
    | None | Some [] => [ system_message ]
    | Some (first :: rest) =>
        if Role_eqb (role first) SYSTEM then first :: rest
        else system_message :: first :: rest
    end in
  _prune_history (message_history ++ [ user_message ]).

(** [model if model is not None else "gpt-3.5-turbo-1106"] *)
Definition model_or_default (model : option string) : string :=
  match model with
  | Some m => m
  | None => "gpt-3.5-turbo-1106"
  end.

(** [learned_context = {}]: the extraction call is commented out. *)
Definition turn_learned_context : LearnedContext := [].

(** The first completion request. *)
Definition first_request (model : string) (message_history : list Message)
    (location_address local_time : option string) : CompletionRequest :=
  let extra_context_message :=
    mkMessage SYSTEM
      (_create_context_system_message local_time location_address
         (Some turn_learned_context)) in
  mkRequest model
    (map PlainMessage (message_history ++ [ extra_context_message ]))
    (Some TOOLS) (Some "auto").

(** [await asyncio.gather] over [tool_handlers]: the handlers are started in
    the order of the tool calls and their results are returned in that
    order; here each one runs to its end before the next starts. *)
Fixpoint gather_tools (first_tool_calls : list ToolCall) (prompt : string)
    (image_bytes : option bytes) (location_address local_time : option string)
    (web_search : WebSearch) (vision : Vision)
    (learned_context : option LearnedContext) : M (list string) :=
  match first_tool_calls with
  | [] => ret []
  | tool_call :: rest =>
      tool_output <-
        handle_tool tool_call prompt image_bytes location_address
          local_time web_search vision learned_context ;;
      tool_outputs <-
        gather_tools rest prompt image_bytes location_address local_time
          web_search vision learned_context ;;
      ret (tool_output :: tool_outputs)
  end.

(** The tool-role messages of [for i in range(len(tool_outputs))]. *)
Fixpoint tool_messages (first_tool_calls : list ToolCall)
    (tool_outputs : list string) : result (list HistoryEntry) :=
  match tool_outputs, first_tool_calls with
  | [], _ => Ok []
  | _ :: _, [] => Raise IndexError
  | tool_output :: outputs, tool_call :: calls =>
      match tool_messages calls outputs with
      | Ok messages =>
          Ok (ToolMessage (call_id tool_call) (function_name tool_call)
                tool_output :: messages)
      | Raise e => Raise e
      end
  end.

Definition accumulate_usage (model : string) (u : CompletionUsage) : M unit :=
  fun st w =>
    (Ok tt,
     mkStore
       (accumulate_token_usage (token_usage_by_model st) model
          (prompt_tokens u) (completion_tokens u) (usage_total_tokens u))
       (capabilities_used st) (tools_used st),
     w).

(** The tool round: run the tools, then ask for the final response. *)
Definition tool_round (client : Client) (model prompt : string)
    (image_bytes : option bytes) (location_address local_time : option string)
    (web_search : WebSearch) (vision : Vision)
    (message_history : list HistoryEntry)
    (first_response_message : CompletionMessage)
    (first_tool_calls : list ToolCall) : M (option string) :=
  let message_history :=
    message_history ++ [ ResponseMessage first_response_message ] in
  tool_outputs <-
    gather_tools first_tool_calls prompt image_bytes location_address
      local_time web_search vision (Some turn_learned_context) ;;
  messages <- lift_result (tool_messages first_tool_calls tool_outputs) ;;
  let message_history := message_history ++ messages in
  second_response <-
    call_completion client (mkRequest model message_history None None) ;;
  accumulate_usage model (usage second_response) ;;
  ret (message_content (first_choice second_response)).

(** The turn from the first completion response on. *)
Definition after_first_completion (client : Client) (model prompt : string)
    (image_bytes : option bytes) (location_address local_time : option string)
    (web_search : WebSearch) (vision : Vision)
    (message_history : list HistoryEntry)
    (first_response : CompletionResponse) : M AssistantResponse :=
  let first_response_message := first_choice first_response in
  accumulate_usage model (usage first_response) ;;
  append_tool_used (ContextRecord turn_learned_context) ;;
  final <-
    match tool_calls first_response_message with
    | Some (tool_call :: rest) =>
        tool_round client model prompt image_bytes location_address
          local_time web_search vision message_history
          first_response_message (tool_call :: rest)
    | Some [] | None => ret (message_content first_response_message)
    end ;;
  (fun st w =>
     let capabilities :=
       if length (capabilities_used st) =? 0
       then capabilities_used st ++ [ ASSISTANT_KNOWLEDGE ]
       else capabilities_used st in
     (Ok (mkResponse (token_usage_by_model st) capabilities final
            (json_dumps (tools_used st))),
      mkStore (token_usage_by_model st) capabilities (tools_used st),
      w)).

(** The whole turn, on a fresh store.  The timer readings at both ends
    only feed a [print]. *)
Definition send_to_assistant (client : Client) (prompt : string)
    (image_bytes : option bytes) (message_history : option (list Message))
    (location_address local_time : option string) (model : option string)
    (web_search : WebSearch) (vision : Vision) (w : World)
  : result AssistantResponse * World :=
  let model := model_or_default model in
  match prepare_history prompt message_history with
  | None => (Raise LoopFuelExhausted, w)
  | Some message_history =>
      let request :=
        first_request model message_history location_address local_time in
      let turn :=
        first_response <- call_completion client request ;;
        after_first_completion client model prompt image_bytes
          location_address local_time web_search vision
          (request_messages request) first_response in
      match turn empty_store w with
      | (r, _, w') => (r, w')
      end
  end.

End Turn.

Arguments chat_completions_create {World}.
Arguments query_image {World}.
Arguments search_web {World}.
Arguments ret {World A}.
Arguments raise {World A}.
Arguments bind {World A B}.

(** ** A recording world, for running the turn on examples *)

(** The world is the list of the backend calls made so far. *)
Inductive BackendCall : Type :=
| CompletionCall (request : CompletionRequest)
| VisionCall (system_message query : string) (image_bytes : bytes)
| SearchCall (arguments : SearchArguments).

Definition Trace : Type := list BackendCall.

Definition completion_calls (w : Trace) : nat :=
  length (filter (fun c => match c with CompletionCall _ => true | _ => false end)
            w).

(** A client that answers its n-th request with the n-th response of a
    script, and fails once the script is over. *)
Definition scripted_client (script : list CompletionResponse) : Client Trace :=
  mkClient Trace
    (fun request w =>
       (match nth_error script (completion_calls w) with
        | Some r => Ok r
        | None => Raise (BackendError "no more responses")
        end,
        w ++ [ CompletionCall request ])).

(** A vision backend with one fixed answer, charging nothing. *)
Definition recording_vision (answer : string) : Vision Trace :=
  mkVision Trace
    (fun system_message query image_bytes usage w =>
       (Ok answer, usage, w ++ [ VisionCall system_message query image_bytes ])).

(** A search backend with one fixed result. *)
Definition recording_web_search (found : WebSearchResult) : WebSearch Trace :=
  mkWebSearch Trace
    (fun arguments w => (Ok found, w ++ [ SearchCall arguments ])).

(** A clock that counts the backend calls. *)
Definition trace_timer (w : Trace) : Z := Z.of_nat (length w).

(** A stand-in for [json.dumps]: the number of records. *)
Definition dumps_examples (records : list DebugRecord) : string :=
  match length records with
  | 0 => "[]"
  | 1 => "[1 record]"
  | _ => "[several records]"
  end.

(** A stand-in for the members' values. *)
Definition capability_names (c : Capability) : string :=
  match c with
  | ASSISTANT_KNOWLEDGE => "assistant_knowledge"
  | WEB_SEARCH => "web_search"
  | VISION => "vision"
  | REVERSE_IMAGE_SEARCH => "reverse_image_search"
  end.

(** *** Vocabulary for the dispatcher's and the turn's properties *)

(** The names of the table [tool_functions]. *)
Definition known_tool_names : list string :=
  [ SEARCH_TOOL_NAME; PHOTO_TOOL_NAME; DUMMY_SEARCH_TOOL_NAME ].

(** A debug record of the photo tool shows the learned context the tool
    was called with; this one says it was the empty dictionary. *)
Definition photo_context_empty (record : DebugRecord) : Prop :=
  match record with
  | ToolRecord tool tool_args _ _ =>
      tool = PHOTO_TOOL_NAME ->
      dict_get "learned_context" tool_args = Some (VContext [])
  | _ => True
  end.

(** A response without tool calls: the field is [None] or empty. *)
Definition no_tool_calls (m : CompletionMessage) : bool :=
  match tool_calls m with
  | Some (_ :: _) => false
  | Some [] | None => true
  end.

(** The debug trace of a turn run with an empty learned context: it opens
    with the record of that context, and every record of the photo tool
    shows it. *)
Definition trace_context_empty (st : Store) : Prop :=
  exists trace,
    tools_used st = ContextRecord [] :: trace
    /\ Forall photo_context_empty trace.

Section TurnVocabulary.

Variable World : Type.

(** [c] maintains the invariant [I] of the store, however it ends. *)
Definition keeps {A} (I : Store -> Prop) (c : M World A) : Prop :=
  forall st w r st' w', c st w = (r, st', w') -> I st -> I st'.

(** Every value [c] returns satisfies [Q]. *)
Definition returns {A} (c : M World A) (Q : A -> Prop) : Prop :=
  forall st w a st' w', c st w = (Ok a, st', w') -> Q a.

(** [c] leaves [tools_used] alone. *)
Definition same_tools_used {A} (c : M World A) : Prop :=
  forall st w r st' w', c st w = (r, st', w') -> tools_used st' = tools_used st.

End TurnVocabulary.

Arguments keeps {World A}.
Arguments returns {World A}.
Arguments same_tools_used {World A}.

(** ** Learned context extraction: [GPTAssistant._extract_learned_context]

    The function is not called (its call in [send_to_assistant] is
    commented out).  Its two pure steps are modelled: the choice of the
    messages sent to the completion backend, and the parsing of the
    backend's answer. *)

Definition LEARNED_CONTEXT_KEY_DESCRIPTIONS : dict string :=
  [ ("UserName", "User's name");
    ("DOB", "User's date of birth");
    ("Food", "Foods and drinks user has expressed interest in") ].

Definition LEARNED_CONTEXT_EXTRACTION_SYSTEM_MESSAGE : string :=
  ("
Given a transcript of what the user said, look for any of the following information being revealed:

" +:+ String.concat nl
        (map (fun kd => fst kd +:+ ": " +:+ snd kd)
             LEARNED_CONTEXT_KEY_DESCRIPTIONS)
  +:+ "

Make sure to list them in this format:

KEY=VALUE

If nothing was found, just say " +:+ dq +:+ "END" +:+ dq +:+
". ONLY PRODUCE ITEMS WHEN THE USER HAS ACTUALLY REVEALED THEM.
")%string.

(** [for i in range(len(message_history) - 1, -1, -1)]: [remaining] indices
    are still to be visited, the next one being [remaining - 1]; the loop
    breaks once two messages are collected. *)
Fixpoint collect_user_messages (message_history : list Message)
    (remaining : nat) (messages : list Message) : list Message :=
  match remaining with
  | O => messages
  | S i =>
      if 2 <=? length messages then messages
      else
        match nth_error message_history i with
        | Some m =>
            collect_user_messages message_history i
              (if Role_eqb (role m) USER then messages ++ [ m ] else messages)
        | None => messages
        end
  end.

(** The messages sent to the completion backend. *)
Definition extraction_messages (message_history : list Message)
  : list Message :=
  let messages :=
    collect_user_messages message_history (length message_history) [] in
  rev (messages
       ++ [ mkMessage SYSTEM LEARNED_CONTEXT_EXTRACTION_SYSTEM_MESSAGE ]).

(** [s.split(c)] for a one-character separator. *)
Fixpoint split_char (c : ascii) (s : string) : list string :=
  match s with
  | EmptyString => [ EmptyString ]
  | String a t =>
      if Ascii.eqb a c then EmptyString :: split_char c t
      else
        match split_char c t with
        | head :: rest => String a head :: rest
        | [] => [ String a EmptyString ]
        end
  end.

(** The body of [for line in lines]. *)
Definition parse_learned_line (learned_context : LearnedContext)
    (line : string) : LearnedContext :=
  match split_char "="%char line with
  | [ key; value ] =>
      if dict_mem key LEARNED_CONTEXT_KEY_DESCRIPTIONS
      then dict_set key (Some value) learned_context
      else learned_context
  | _ => learned_context
  end.

(** The dictionary built from [lines], the result of
    [response.choices[0].message.content.splitlines()]. *)
Definition parse_learned_context (lines : list string) : LearnedContext :=
  fold_left parse_learned_line lines [].

(** *** Vocabulary for the further properties *)

(** The number of occurrences of a character in a string. *)
Fixpoint count_char (c : ascii) (s : string) : nat :=
  match s with
  | EmptyString => 0
  | String a t => (if Ascii.eqb a c then 1 else 0) + count_char c t
  end.

(** The keys [create_debug_tool_info_object] deletes. *)
Definition stripped_debug_keys : list string :=
  [ "vision"; "web_search"; "token_usage_by_model"; "prompt" ].

(** A value the debug loop leaves as it is and that is not a list. *)
Definition plain_value (v : Value) : bool :=
  match v with
  | VBytes _ | VCapabilitiesUsed | VList _ => false
  | _ => true
  end.

(** A record of a tool whose name is among [names]. *)
Definition tool_record_of (names : list string) (record : DebugRecord)
  : Prop :=
  match record with
  | ToolRecord tool _ _ _ => In tool names
  | _ => False
  end.

(** The tool message answering [tool_call] with [tool_output]. *)
Definition tool_message_for (pair : ToolCall * string) : HistoryEntry :=
  ToolMessage (call_id (fst pair)) (function_name (fst pair)) (snd pair).

(** The call's name is in the dispatcher's table. *)
Definition known_call (tool_call : ToolCall) : bool :=
  existsb (String.eqb (function_name tool_call)) known_tool_names.

(** The tool calls of a completion message ([None]: none). *)
Definition requested_calls (m : CompletionMessage) : list ToolCall :=
  match tool_calls m with
  | Some calls => calls
  | None => []
  end.

(** *** Inputs of the runs shown with the further properties *)

(** The payload [{"query": "weather in Paris", "foo": "bar"}]. *)
Definition weather_payload : string :=
  ("{" +:+ dq +:+ "query" +:+ dq +:+ ": " +:+ dq +:+ "weather in Paris"
   +:+ dq +:+ ", " +:+ dq +:+ "foo" +:+ dq +:+ ": " +:+ dq +:+ "bar" +:+ dq
   +:+ "}")%string.

(** The payload [{"translate": "true"}]. *)
Definition translate_payload : string :=
  ("{" +:+ dq +:+ "translate" +:+ dq +:+ ": " +:+ dq +:+ "true" +:+ dq
   +:+ "}")%string.

(** A completion backend that first asks for a web search, then answers. *)
Definition weather_script : list CompletionResponse :=
  [ mkCompletionResponse
      (mkCompletionMessage None
         (Some [ mkToolCall "call_1" SEARCH_TOOL_NAME weather_payload ]))
      (mkCompletionUsage 60 10 70);
    mkCompletionResponse (mkCompletionMessage (Some "It is sunny.") None)
      (mkCompletionUsage 90 6 96) ].

(* ================================================================== *)
(** * Part II: properties                                              *)
(* ================================================================== *)

#[local] Arguments String.eqb !s1 !s2 : simpl nomatch.

(** ** Dictionaries *)

Lemma dict_get_set_same {V} (k : string) (v : V) (d : dict V) :
  dict_get k (dict_set k v d) = Some v.
Proof.
  induction d as [|[k' v'] t IH]; simpl.
  - now rewrite String.eqb_refl.
  - destruct (String.eqb k' k) eqn:E; simpl; rewrite E; auto.
Qed.

Lemma dict_get_set_other {V} (k k0 : string) (v : V) (d : dict V) :
  k0 <> k -> dict_get k (dict_set k0 v d) = dict_get k d.
Proof.
  intros Hne. induction d as [|[k' v'] t IH]; simpl.
  - destruct (String.eqb_spec k0 k); congruence.
  - destruct (String.eqb_spec k' k0) as [->|]; simpl.
    + destruct (String.eqb_spec k0 k); congruence.
    + destruct (String.eqb_spec k' k); auto.
Qed.

(** ** The history pruner *)

Lemma nth_error_middle {A} (pre : list A) (m : A) (t : list A) :
  nth_error (pre ++ m :: t) (length pre) = Some m.
Proof. induction pre; simpl; auto. Qed.

Lemma del_at_middle {A} (pre : list A) (m : A) (t : list A) :
  del_at (length pre) (pre ++ m :: t) = pre ++ t.
Proof. induction pre; simpl; congruence. Qed.

(** With fuel for every remaining element the loop ends, and the part of
    the list from index [i] on is replaced by its [scan]. *)
Lemma prune_loop_scan (rest : list Message) :
  forall (pre : list Message) (a u fuel : nat),
    length rest <= fuel ->
    prune_loop fuel (mkPrune (pre ++ rest) (length pre) a u)
    = Some (pre ++ scan rest a u).
Proof.
  induction rest as [|m t IH]; intros pre a u fuel Hfuel.
  - destruct fuel; simpl; rewrite app_nil_r, Nat.ltb_irrefl; reflexivity.
  - destruct fuel as [|fuel]; [simpl in Hfuel; lia|].
    assert (Hguard : (length pre <? length (pre ++ m :: t)) = true).
    { apply Nat.ltb_lt. rewrite length_app. simpl. lia. }
    simpl in Hfuel.
    cbn [prune_loop ps_i ps_history]. rewrite Hguard.
    unfold prune_body; cbn [ps_i ps_history assistant_messages_remaining
                              user_messages_remaining].
    rewrite nth_error_middle, del_at_middle.
    assert (Hnext : forall a' u',
               prune_loop fuel (mkPrune (pre ++ m :: t) (length pre + 1) a' u')
               = Some (pre ++ m :: scan t a' u')).
    { intros a' u'.
      replace (pre ++ m :: t) with ((pre ++ [m]) ++ t)
        by (rewrite <- app_assoc; reflexivity).
      replace (length pre + 1) with (length (pre ++ [m]))
        by (rewrite length_app; reflexivity).
      rewrite IH by lia. rewrite <- app_assoc. reflexivity. }
    simpl scan.
    destruct (role m).
    + apply Hnext.
    + destruct u as [|u']; simpl.
      * apply IH; lia.
      * rewrite Nat.sub_0_r. apply Hnext.
    + destruct a as [|a']; simpl.
      * apply IH; lia.
      * rewrite Nat.sub_0_r. apply Hnext.
    + apply Hnext.
Qed.

(** The pruner always returns, and what it returns is the reversed scan of
    the reversed history. *)
Lemma _prune_history_scan (message_history : list Message) :
  _prune_history message_history
  = Some (rev (scan (rev message_history) 3 5)).
Proof.
  unfold _prune_history.
  rewrite (prune_loop_scan (rev message_history) [] 3 5) by lia.
  reflexivity.
Qed.

Lemma scan_count_assistant (l : list Message) : forall a u,
  filter (has_role ASSISTANT) (scan l a u)
  = firstn a (filter (has_role ASSISTANT) l).
Proof.
  induction l as [|m t IH]; intros a u; simpl.
  - now rewrite firstn_nil.
  - unfold has_role at 2. destruct (role m) eqn:R; simpl.
    + unfold has_role at 1; rewrite R; simpl; apply IH.
    + destruct u; simpl; [apply IH|].
      unfold has_role at 1; rewrite R; simpl; apply IH.
    + destruct a; simpl; [rewrite IH; reflexivity|].
      unfold has_role at 1; rewrite R; simpl. now rewrite IH.
    + unfold has_role at 1; rewrite R; simpl; apply IH.
Qed.

Lemma scan_count_user (l : list Message) : forall a u,
  filter (has_role USER) (scan l a u)
  = firstn u (filter (has_role USER) l).
Proof.
  induction l as [|m t IH]; intros a u; simpl.
  - now rewrite firstn_nil.
  - unfold has_role at 2. destruct (role m) eqn:R; simpl.
    + unfold has_role at 1; rewrite R; simpl; apply IH.
    + destruct u; simpl; [rewrite IH; reflexivity|].
      unfold has_role at 1; rewrite R; simpl. now rewrite IH.
    + destruct a; simpl; [apply IH|].
      unfold has_role at 1; rewrite R; simpl; apply IH.
    + unfold has_role at 1; rewrite R; simpl; apply IH.
Qed.

Lemma scan_other (l : list Message) : forall a u,
  filter other_role (scan l a u) = filter other_role l.
Proof.
  induction l as [|m t IH]; intros a u; simpl; auto.
  unfold other_role at 2, has_role. destruct (role m) eqn:R; simpl.
  - unfold other_role at 1, has_role; rewrite R; simpl; now rewrite IH.
  - destruct u; simpl; [apply IH|].
    unfold other_role at 1, has_role; rewrite R; simpl; apply IH.
  - destruct a; simpl; [apply IH|].
    unfold other_role at 1, has_role; rewrite R; simpl; apply IH.
  - unfold other_role at 1, has_role; rewrite R; simpl; now rewrite IH.
Qed.

Lemma scan_Subseq (l : list Message) : forall a u, Subseq (scan l a u) l.
Proof.
  induction l as [|m t IH]; intros a u; simpl; [constructor|].
  destruct (role m); [| destruct u | destruct a |];
    (apply Subseq_keep || apply Subseq_drop); apply IH.
Qed.

(** Scanning again with budgets at least as large changes nothing. *)
Lemma scan_scan (l : list Message) : forall a u a' u',
  a <= a' -> u <= u' -> scan (scan l a u) a' u' = scan l a u.
Proof.
  induction l as [|m t IH]; intros a u a' u' Ha Hu; simpl; auto.
  destruct (role m) eqn:R.
  - simpl; rewrite R; f_equal; auto.
  - destruct u as [|u0]; [auto|].
    destruct u' as [|u1]; [lia|].
    simpl; rewrite R; f_equal; apply IH; lia.
  - destruct a as [|a0]; [auto|].
    destruct a' as [|a1]; [lia|].
    simpl; rewrite R; f_equal; apply IH; lia.
  - simpl; rewrite R; f_equal; auto.
Qed.

Lemma Subseq_app {A} (l1 l2 k1 k2 : list A) :
  Subseq l1 l2 -> Subseq k1 k2 -> Subseq (l1 ++ k1) (l2 ++ k2).
Proof. induction 1; intros; simpl; auto; constructor; auto. Qed.

Lemma Subseq_rev {A} (l1 l2 : list A) :
  Subseq l1 l2 -> Subseq (rev l1) (rev l2).
Proof.
  induction 1; simpl.
  - constructor.
  - apply Subseq_app; auto. repeat constructor.
  - rewrite <- (app_nil_r (rev l1)). apply Subseq_app; auto.
    repeat constructor.
Qed.

Lemma filter_rev' {A} (f : A -> bool) (l : list A) :
  filter f (rev l) = rev (filter f l).
Proof.
  induction l as [|x t IH]; simpl; auto.
  rewrite filter_app, IH. simpl. destruct (f x); simpl; auto.
  now rewrite app_nil_r.
Qed.

Lemma rev_firstn_rev {A} (n : nat) (l : list A) :
  rev (firstn n (rev l)) = most_recent n l.
Proof.
  unfold most_recent. rewrite firstn_rev, rev_involutive. reflexivity.
Qed.

Lemma length_most_recent {A} (n : nat) (l : list A) :
  length (most_recent n l) <= n.
Proof. unfold most_recent. rewrite length_skipn. lia. Qed.

(** C3. For every message history the pruner returns a list with at most
    5 user messages and at most 3 assistant messages; the messages of the
    other roles (system, tool) are all retained; the result is the input
    with some messages removed and the others in their original order; and
    the retained user (assistant) messages are the last 5 (3) user
    (assistant) messages of the input. *)
Theorem prune_history_window (message_history : list Message) :
  exists pruned,
    _prune_history message_history = Some pruned /\
    count_role USER pruned <= 5 /\
    count_role ASSISTANT pruned <= 3 /\
    filter other_role pruned = filter other_role message_history /\
    Subseq pruned message_history /\
    filter (has_role USER) pruned
    = most_recent 5 (filter (has_role USER) message_history) /\
    filter (has_role ASSISTANT) pruned
    = most_recent 3 (filter (has_role ASSISTANT) message_history).
Proof.
  exists (rev (scan (rev message_history) 3 5)).
  assert (HU : filter (has_role USER) (rev (scan (rev message_history) 3 5))
               = most_recent 5 (filter (has_role USER) message_history)).
  { rewrite filter_rev', scan_count_user, filter_rev'.
    apply rev_firstn_rev. }
  assert (HA : filter (has_role ASSISTANT)
                 (rev (scan (rev message_history) 3 5))
               = most_recent 3 (filter (has_role ASSISTANT) message_history)).
  { rewrite filter_rev', scan_count_assistant, filter_rev'.
    apply rev_firstn_rev. }
  split; [apply _prune_history_scan|].
  split; [unfold count_role; rewrite HU; apply length_most_recent|].
  split; [unfold count_role; rewrite HA; apply length_most_recent|].
  split.
  { rewrite filter_rev', scan_other, filter_rev', rev_involutive.
    reflexivity. }
  split; [|split; assumption].
  rewrite <- (rev_involutive message_history) at 2.
  apply Subseq_rev, scan_Subseq.
Qed.

(** C8. The pruner is idempotent: it returns on every message history, and
    applied to its own output it returns that output. *)
Theorem prune_history_idempotent (message_history : list Message) :
  exists pruned,
    _prune_history message_history = Some pruned /\
    _prune_history pruned = Some pruned.
Proof.
  exists (rev (scan (rev message_history) 3 5)).
  split; [apply _prune_history_scan|].
  rewrite _prune_history_scan, rev_involutive, scan_scan by lia.
  reflexivity.
Qed.

(** The pruner on a history of seven user turns: the two oldest user
    messages and the oldest assistant message go, the system message
    stays. *)
Example prune_history_run :
  let u s := mkMessage USER s in
  let a s := mkMessage ASSISTANT s in
  _prune_history
    [mkMessage SYSTEM "sys"; u "1"; a "a1"; u "2"; a "a2"; u "3"; a "a3";
     u "4"; a "a4"; u "5"; u "6"; u "7"]
  = Some [mkMessage SYSTEM "sys"; a "a2"; u "3"; a "a3"; u "4"; a "a4";
          u "5"; u "6"; u "7"].
Proof. reflexivity. Qed.

(** ** The context formatter *)

Lemma dict_get_update_absent {V} (k : string) (e d : dict V) :
  ~ In k (dict_keys e) -> dict_get k (dict_update d e) = dict_get k d.
Proof.
  unfold dict_update. revert d.
  induction e as [|[k0 v0] t IH]; intros d Hnot; simpl; auto.
  simpl in Hnot. rewrite IH by tauto.
  apply dict_get_set_other. tauto.
Qed.

Lemma dict_get_context_items (k : string) (d : dict (option string)) (v : string) :
  dict_get k d = Some (Some v) -> dict_get k (context_items d) = Some v.
Proof.
  induction d as [|[k' [v'|]] t IH]; simpl; try discriminate.
  - destruct (String.eqb k' k); [congruence | auto].
  - destruct (String.eqb_spec k' k); [discriminate | auto].
Qed.

Lemma merged_context_fixed (k : string) (local_time location : option string)
    (learned_context : option LearnedContext) :
  ~ In k (learned_keys learned_context) ->
  dict_get k (merged_context local_time location learned_context)
  = dict_get k [("current_time", Some (fixed_current_time local_time));
                ("location", Some (fixed_location location))].
Proof.
  intros Hnot. unfold merged_context.
  destruct learned_context as [lc|]; [|reflexivity].
  now rewrite dict_get_update_absent.
Qed.




(** ** The tool argument sanitizer *)

Lemma dict_get_set {V} (k k0 : string) (v : V) (d : dict V) :
  dict_get k (dict_set k0 v d)
  = if String.eqb k0 k then Some v else dict_get k d.
Proof.
  destruct (String.eqb_spec k0 k) as [->|Hne].
  - apply dict_get_set_same.
  - now apply dict_get_set_other.
Qed.

Lemma dict_keys_set {V} (k k0 : string) (v : V) (d : dict V) :
  In k (dict_keys (dict_set k0 v d)) -> k = k0 \/ In k (dict_keys d).
Proof.
  induction d as [|[k' v'] t IH]; simpl.
  - intros [H|[]]; auto.
  - destruct (String.eqb_spec k' k0); simpl; intuition.
Qed.

Lemma dict_get_absent {V} (k : string) (d : dict V) :
  ~ In k (dict_keys d) -> dict_get k d = None.
Proof.
  induction d as [|[k' v'] t IH]; simpl; auto.
  intros Hnot. destruct (String.eqb_spec k' k); [tauto | apply IH; tauto].
Qed.

Lemma dict_get_In {V} (k : string) (v : V) (d : dict V) :
  dict_get k d = Some v -> In (k, v) d.
Proof.
  induction d as [|[k' v'] t IH]; simpl; [discriminate|].
  destruct (String.eqb_spec k' k) as [->|]; intros H.
  - left. congruence.
  - right. auto.
Qed.

Lemma dict_get_middle {V} (done rest : dict V) (k : string) (v : V) :
  ~ In k (dict_keys done) -> dict_get k (done ++ (k, v) :: rest) = Some v.
Proof.
  induction done as [|[k' v'] t IH]; simpl; intros Hnot.
  - now rewrite String.eqb_refl.
  - destruct (String.eqb_spec k' k); [tauto | apply IH; tauto].
Qed.

Lemma dict_del_middle {V} (done rest : dict V) (k : string) (v : V) :
  ~ In k (dict_keys done) ->
  dict_del k (done ++ (k, v) :: rest) = done ++ rest.
Proof.
  induction done as [|[k' v'] t IH]; simpl; intros Hnot.
  - now rewrite String.eqb_refl.
  - destruct (String.eqb_spec k' k); [tauto | f_equal; apply IH; tauto].
Qed.

Lemma dict_get_filter {V} (f : string * V -> bool) (k : string) (d : dict V) :
  NoDup (dict_keys d) ->
  dict_get k (filter f d)
  = match dict_get k d with
    | Some v => if f (k, v) then Some v else None
    | None => None
    end.
Proof.
  induction d as [|[k' v'] t IH]; simpl; auto.
  intros Hnd. inversion Hnd as [|? ? Hnotin Hnd']; subst.
  destruct (String.eqb_spec k' k) as [->|Hne].
  - destruct (f (k, v')); simpl.
    + now rewrite String.eqb_refl.
    + rewrite IH by assumption. now rewrite dict_get_absent.
  - destruct (f (k', v')); simpl; auto.
    destruct (String.eqb_spec k' k); [contradiction | auto].
Qed.

Lemma dict_keys_filter {V} (f : string * V -> bool) (k : string) (d : dict V) :
  In k (dict_keys (filter f d)) -> exists v, In (k, v) d /\ f (k, v) = true.
Proof.
  unfold dict_keys. rewrite in_map_iff. intros [[k' v] [Hk Hin]].
  simpl in Hk; subst k'. apply filter_In in Hin. eauto.
Qed.

Lemma supported_schema_type (function_parameters : dict ParamSpec)
    (k : string) (spec : ParamSpec) :
  supported_schema function_parameters = true ->
  dict_get k function_parameters = Some spec ->
  ((param_type spec =? "string")%string
   || (param_type spec =? "boolean")%string) = true.
Proof.
  unfold supported_schema. rewrite forallb_forall. intros Hall Hget.
  apply (Hall (k, spec)). now apply dict_get_In.
Qed.

Lemma del_argument_middle (done rest : dict Value) (k : string) (v : Value) :
  ~ In k (dict_keys done) ->
  del_argument k (done ++ (k, v) :: rest) = Ok (done ++ rest).
Proof.
  intros Hk. unfold del_argument, dict_mem.
  now rewrite dict_get_middle, dict_del_middle.
Qed.

(** One pass of the loop body on an argument not met before. *)
Lemma sanitize_param_middle (function_parameters : dict ParamSpec)
    (done rest : dict Value) (k : string) (v : Value) :
  supported_schema function_parameters = true ->
  ~ In k (dict_keys done) ->
  sanitize_param function_parameters k (done ++ (k, v) :: rest)
  = Ok (if well_typed function_parameters (k, v)
        then done ++ (k, v) :: rest
        else done ++ rest).
Proof.
  intros Hschema Hk. unfold sanitize_param, well_typed, type_mismatch; simpl.
  rewrite del_argument_middle by assumption.
  destruct (dict_get k function_parameters) as [spec|] eqn:Hspec;
    [|reflexivity].
  rewrite dict_get_middle by assumption.
  pose proof (supported_schema_type _ _ _ Hschema Hspec) as Hty.
  destruct (String.eqb_spec (param_type spec) "string") as [Hs|Hs].
  - rewrite Hs; simpl. destruct (is_str v); reflexivity.
  - simpl in Hty. rewrite Hty; simpl. destruct (is_bool v); reflexivity.
Qed.

(** Over a schema of supported types the loop raises nothing and keeps
    exactly the well-typed declared arguments, in their order. *)
Lemma sanitize_params_filter (function_parameters : dict ParamSpec) :
  supported_schema function_parameters = true ->
  forall (rest done : dict Value),
    NoDup (dict_keys rest) ->
    (forall k, In k (dict_keys rest) -> ~ In k (dict_keys done)) ->
    sanitize_params function_parameters (dict_keys rest) (done ++ rest)
    = Ok (done ++ filter (well_typed function_parameters) rest).
Proof.
  intros Hschema.
  induction rest as [|[k v] rest IH]; intros done Hnd Hfresh.
  - reflexivity.
  - inversion Hnd as [|? ? Hnotin Hnd']; subst.
    assert (Hk : ~ In k (dict_keys done)) by (apply Hfresh; simpl; auto).
    assert (Hrest : forall k', In k' (dict_keys rest) ->
                               ~ In k' (dict_keys done))
      by (intros k' Hin; apply Hfresh; simpl; auto).
    cbn [dict_keys map fst sanitize_params filter].
    rewrite sanitize_param_middle by assumption.
    destruct (well_typed function_parameters (k, v)).
    + replace (done ++ (k, v) :: rest) with ((done ++ [(k, v)]) ++ rest)
        by (rewrite <- app_assoc; reflexivity).
      change (map fst rest) with (dict_keys rest).
      rewrite IH; [now rewrite <- app_assoc | assumption |].
      intros k' Hin. unfold dict_keys. rewrite map_app, in_app_iff.
      simpl. intros [H|[H|[]]]; [now apply (Hrest k') | congruence].
    + now apply IH.
Qed.

Lemma declared_parameters_cases (name : string)
    (function_parameters : dict ParamSpec) :
  declared_parameters name = Some function_parameters ->
  (name = DUMMY_SEARCH_TOOL_NAME \/ name = SEARCH_TOOL_NAME
   \/ name = PHOTO_TOOL_NAME)
  /\ supported_schema function_parameters = true
  /\ (forall k, In k (dict_keys function_parameters) ->
                ~ In k (injected_keys name))
  /\ (forall k spec, dict_get k function_parameters = Some spec ->
                     param_type spec = "string" -> k = QUERY_PARAM_NAME)
  /\ (exists spec, dict_get QUERY_PARAM_NAME function_parameters = Some spec
                   /\ param_type spec = "string").
Proof.
  unfold declared_parameters, TOOLS, DUMMY_SEARCH_TOOL_NAME, SEARCH_TOOL_NAME,
    PHOTO_TOOL_NAME, QUERY_PARAM_NAME, PHOTO_TOOL_WEB_SEARCH_PARAM_NAME,
    PHOTO_TOOL_TRANSLATION_PARAM_NAME; simpl.
  destruct (String.eqb_spec "general_knowledge_search" name) as [<-|H1].
  { intros [= <-]. repeat split; auto.
    - simpl. intros k [<-|[]]. vm_compute. intros [H|[]]; discriminate H.
    - simpl. intros k spec.
      destruct (String.eqb_spec "query" k); congruence.
    - eexists; split; reflexivity. }
  destruct (String.eqb_spec "search" name) as [<-|H2].
  { intros [= <-]. repeat split; auto.
    - simpl. intros k [<-|[]]. vm_compute. intros [H|[]]; discriminate H.
    - simpl. intros k spec.
      destruct (String.eqb_spec "query" k); congruence.
    - eexists; split; reflexivity. }
  destruct (String.eqb_spec "analyze_photo" name) as [<-|H3].
  { intros [= <-]. repeat split; auto.
    - simpl. intros k [<-|[<-|[<-|[]]]]; vm_compute;
        intros H; repeat (destruct H as [H|H]; [discriminate H|]);
        contradiction.
    - simpl. intros k spec.
      destruct (String.eqb_spec "query" k); [congruence|].
      destruct (String.eqb_spec "google_reverse_image_search" k);
        [intros [= <-]; discriminate|].
      destruct (String.eqb_spec "translate" k);
        [intros [= <-]; discriminate | discriminate].
    - eexists; split; reflexivity. }
  discriminate.
Qed.

Section SanitizerFacts.

Variable json_loads : string -> option Value.

(** The sanitizer in closed form, for a catalogued tool and a payload
    that is unparsable or parses to an object. *)
Lemma prepare_tool_arguments_closed (tool_call : ToolCall)
    (user_message : string) (image_bytes : option bytes)
    (location local_time : option string)
    (learned_context : option LearnedContext)
    (function_parameters : dict ParamSpec) (supplied : dict Value) :
  declared_parameters (function_name tool_call) = Some function_parameters ->
  match json_loads (function_arguments tool_call) with
  | Some v => v
  | None => VDict []
  end = VDict supplied ->
  NoDup (dict_keys supplied) ->
  prepare_tool_arguments json_loads tool_call user_message image_bytes
    location local_time learned_context
  = Ok (with_injected (function_name tool_call) user_message image_bytes
          location local_time learned_context
          (filter (well_typed function_parameters) supplied)).
Proof.
  intros Hdecl Hparsed Hnd.
  destruct (declared_parameters_cases _ _ Hdecl) as (_ & Hschema & _).
  unfold prepare_tool_arguments, declared_parameters in *.
  destruct (filter _ TOOLS) as [|description rest]; [discriminate|].
  injection Hdecl as ->.
  rewrite Hparsed.
  pose proof (sanitize_params_filter _ Hschema supplied [] Hnd
                (fun k _ (H : In k []) => H)) as Hloop.
  simpl app in Hloop. rewrite Hloop.
  reflexivity.
Qed.

End SanitizerFacts.

(** What the injection step leaves under each key. *)

Lemma with_injected_location (name user_message : string)
    (image_bytes : option bytes) (location local_time : option string)
    (learned_context : option LearnedContext) (args : dict Value) :
  dict_get "location"
    (with_injected name user_message image_bytes location local_time
       learned_context args)
  = Some (VStr (location_or_unknown location)).
Proof.
  unfold with_injected, inject_photo_arguments, QUERY_PARAM_NAME.
  destruct (name =? PHOTO_TOOL_NAME)%string;
    repeat (rewrite dict_get_set; simpl); reflexivity.
Qed.

Lemma with_injected_query (name user_message : string)
    (image_bytes : option bytes) (location local_time : option string)
    (learned_context : option LearnedContext) (args : dict Value) :
  dict_get QUERY_PARAM_NAME
    (with_injected name user_message image_bytes location local_time
       learned_context args)
  = Some (match dict_get QUERY_PARAM_NAME args with
          | Some v => v
          | None => VStr user_message
          end).
Proof.
  unfold with_injected, inject_photo_arguments, QUERY_PARAM_NAME.
  destruct (name =? PHOTO_TOOL_NAME)%string;
    repeat (rewrite dict_get_set; simpl); reflexivity.
Qed.

Lemma with_injected_other (name user_message : string)
    (image_bytes : option bytes) (location local_time : option string)
    (learned_context : option LearnedContext) (args : dict Value)
    (k : string) :
  ~ In k (injected_keys name) -> k <> QUERY_PARAM_NAME ->
  dict_get k
    (with_injected name user_message image_bytes location local_time
       learned_context args)
  = dict_get k args.
Proof.
  unfold with_injected, inject_photo_arguments, injected_keys,
    QUERY_PARAM_NAME.
  intros Hinj Hq.
  destruct (name =? PHOTO_TOOL_NAME)%string; simpl in Hinj;
    repeat (rewrite dict_get_set_other by (intros <-; tauto));
    reflexivity.
Qed.

Lemma with_injected_keys (name user_message : string)
    (image_bytes : option bytes) (location local_time : option string)
    (learned_context : option LearnedContext) (args : dict Value)
    (k : string) :
  In k (dict_keys
          (with_injected name user_message image_bytes location local_time
             learned_context args)) ->
  In k (injected_keys name) \/ k = QUERY_PARAM_NAME \/ In k (dict_keys args).
Proof.
  unfold with_injected, inject_photo_arguments, injected_keys,
    QUERY_PARAM_NAME.
  destruct (name =? PHOTO_TOOL_NAME)%string; intros Hin;
    repeat (apply dict_keys_set in Hin;
            destruct Hin as [->|Hin]; [simpl; tauto|]);
    tauto.
Qed.

Section SanitizerProperties.

Variable json_loads : string -> option Value.

(** C2 (as amended). For every call of a catalogued tool whose raw
    argument text is unparsable, the sanitizer raises nothing and
    returns the defaults built on an empty argument set: [location],
    [query] set to the user's utterance and, for the photo tool, the
    caller-only values. *)
Theorem sanitizer_unparsable_defaults (tool_call : ToolCall)
    (user_message : string) (image_bytes : option bytes)
    (location local_time : option string)
    (learned_context : option LearnedContext) :
  declared_parameters (function_name tool_call) <> None ->
  json_loads (function_arguments tool_call) = None ->
  prepare_tool_arguments json_loads tool_call user_message image_bytes
    location local_time learned_context
  = Ok (let defaults :=
          [ ("location", VStr (location_or_unknown location));
            (QUERY_PARAM_NAME, VStr user_message) ] in
        if (function_name tool_call =? PHOTO_TOOL_NAME)%string
        then defaults ++
             [ ("image_bytes",
                match image_bytes with Some b => VBytes b | None => VNone end);
               ("vision", VVision);
               ("web_search", VWebSearch);
               ("local_time",
                match local_time with Some t => VStr t | None => VNone end);
               ("learned_context",
                match learned_context with
                | Some lc => VContext lc
                | None => VNone
                end);
               ("token_usage_by_model", VTokenUsageByModel);
               ("capabilities_used", VCapabilitiesUsed) ]
        else defaults).
Proof.
  intros Hknown Hparse.
  destruct (declared_parameters (function_name tool_call))
    as [function_parameters|] eqn:Hdecl; [|congruence].
  rewrite (prepare_tool_arguments_closed json_loads _ _ _ _ _ _
             function_parameters [] Hdecl);
    [| now rewrite Hparse | constructor].
  unfold with_injected.
  destruct (function_name tool_call =? PHOTO_TOOL_NAME)%string; reflexivity.
Qed.

(** C4 (as amended). For every call of a catalogued tool whose argument
    text parses to an object (with distinct keys, as every Python [dict]
    has), the sanitizer returns a dictionary in
    which every key is declared in the tool's schema or is one of the
    injected caller-only keys; the supplied value of a string-typed
    declared parameter (there is only [query]) that is not a string is
    discarded and replaced by the user's utterance; a boolean-typed
    declared parameter whose supplied value is not a boolean is absent;
    [location] is present, ["unknown"] when the ambient location is
    absent or empty; and [query] is present, equal to the supplied
    string if there is one and to the user's utterance otherwise. *)
Theorem sanitizer_object_payload (tool_call : ToolCall)
    (user_message : string) (image_bytes : option bytes)
    (location local_time : option string)
    (learned_context : option LearnedContext)
    (function_parameters : dict ParamSpec) (supplied : dict Value) :
  declared_parameters (function_name tool_call) = Some function_parameters ->
  json_loads (function_arguments tool_call) = Some (VDict supplied) ->
  NoDup (dict_keys supplied) ->
  exists args,
    prepare_tool_arguments json_loads tool_call user_message image_bytes
      location local_time learned_context = Ok args
    /\ (forall k, In k (dict_keys args) ->
          dict_mem k function_parameters = true
          \/ In k (injected_keys (function_name tool_call)))
    /\ (forall k spec v,
          dict_get k function_parameters = Some spec ->
          param_type spec = "string" ->
          dict_get k supplied = Some v -> is_str v = false ->
          k = QUERY_PARAM_NAME
          /\ dict_get k args = Some (VStr user_message))
    /\ (forall k spec v,
          dict_get k function_parameters = Some spec ->
          param_type spec = "boolean" ->
          dict_get k supplied = Some v -> is_bool v = false ->
          dict_get k args = None)
    /\ dict_get "location" args = Some (VStr (location_or_unknown location))
    /\ dict_get QUERY_PARAM_NAME args
       = Some (match dict_get QUERY_PARAM_NAME supplied with
               | Some (VStr q) => VStr q
               | _ => VStr user_message
               end).
Proof.
  intros Hdecl Hparse Hnd.
  destruct (declared_parameters_cases _ _ Hdecl)
    as (_ & _ & Hfresh & Hstring & (qspec & Hq & Hqty)).
  eexists. split.
  { apply (prepare_tool_arguments_closed json_loads _ _ _ _ _ _
             function_parameters supplied Hdecl);
      [now rewrite Hparse | assumption]. }
  assert (Hquery :
            dict_get QUERY_PARAM_NAME
              (filter (well_typed function_parameters) supplied)
            = match dict_get QUERY_PARAM_NAME supplied with
              | Some (VStr q) => Some (VStr q)
              | _ => None
              end).
  { rewrite dict_get_filter by assumption.
    destruct (dict_get QUERY_PARAM_NAME supplied) as [v|]; [|reflexivity].
    unfold well_typed; simpl fst; simpl snd. rewrite Hq, Hqty. simpl.
    destruct v; reflexivity. }
  split; [|split; [|split; [|split]]].
  - intros k Hin. apply with_injected_keys in Hin.
    destruct Hin as [Hin|[->|Hin]]; [now right | |].
    + left. unfold dict_mem. now rewrite Hq.
    + left. apply dict_keys_filter in Hin. destruct Hin as (v & _ & Hwt).
      unfold well_typed in Hwt; simpl in Hwt. unfold dict_mem.
      destruct (dict_get k function_parameters); [reflexivity|discriminate].
  - intros k spec v Hspec Hty Hsup Hv.
    assert (k = QUERY_PARAM_NAME) as -> by (eapply Hstring; eauto).
    split; [reflexivity|].
    rewrite with_injected_query, Hquery, Hsup.
    destruct v; try reflexivity; discriminate.
  - intros k spec v Hspec Hty Hsup Hv.
    rewrite with_injected_other.
    + rewrite dict_get_filter, Hsup by assumption.
      unfold well_typed; simpl fst; simpl snd. rewrite Hspec, Hty. simpl.
      now rewrite Hv.
    + apply Hfresh. apply (in_map fst _ _ (dict_get_In _ _ _ Hspec)).
    + intros ->. rewrite Hq in Hspec. injection Hspec as <-.
      rewrite Hqty in Hty. discriminate.
  - apply with_injected_location.
  - rewrite with_injected_query, Hquery.
    destruct (dict_get QUERY_PARAM_NAME supplied) as [[]|]; reflexivity.
Qed.

End SanitizerProperties.

(** An unparsable payload of the web search tool. *)
Lemma sanitizer_unparsable_defaults_witness :
  prepare_tool_arguments loads_examples
    (mkToolCall "call_1" SEARCH_TOOL_NAME "{oops") "what is the weather"
    None (Some "Paris") None None
  = Ok [ ("location", VStr "Paris"); ("query", VStr "what is the weather") ].
Proof.
  apply (sanitizer_unparsable_defaults loads_examples
           (mkToolCall "call_1" SEARCH_TOOL_NAME "{oops")
           "what is the weather" None (Some "Paris") None None).
  - vm_compute. discriminate.
  - reflexivity.
Defined.

(** C2 (as stated) fails: on the unparsable payload [{oops] the sanitizer
    returns a dictionary with two entries, not the empty one; and for a
    tool that is not catalogued it raises [IndexError] (the dispatcher
    only calls it for catalogued tools). *)
Lemma sanitizer_unparsable_not_empty :
  loads_examples "{oops" = None
  /\ prepare_tool_arguments loads_examples
       (mkToolCall "call_1" SEARCH_TOOL_NAME "{oops") "what is the weather"
       None None None None
     = Ok [ ("location", VStr "unknown");
            ("query", VStr "what is the weather") ]
  /\ prepare_tool_arguments loads_examples
       (mkToolCall "call_1" SEARCH_TOOL_NAME "{oops") "what is the weather"
       None None None None
     <> Ok []
  /\ prepare_tool_arguments loads_examples
       (mkToolCall "call_2" "xyz_tool" "{oops") "what is the weather"
       None None None None
     = Raise IndexError.
Proof.
  split; [reflexivity|].
  split; [reflexivity|].
  split; [vm_compute; discriminate | reflexivity].
Qed.

(** The payload [{"query": "weather in Paris", "foo": "bar"}] for the web
    search tool: [foo] goes, [query] stays, [location] is added. *)
Lemma sanitizer_object_payload_witness :
  exists args,
    prepare_tool_arguments loads_examples
      (mkToolCall "call_1" SEARCH_TOOL_NAME
         ("{" +:+ dq +:+ "query" +:+ dq +:+ ": " +:+ dq
          +:+ "weather in Paris" +:+ dq +:+ ", " +:+ dq +:+ "foo"
          +:+ dq +:+ ": " +:+ dq +:+ "bar" +:+ dq +:+ "}"))
      "what is the weather" None None None None = Ok args
    /\ dict_get "foo" args = None
    /\ dict_get "location" args = Some (VStr "unknown")
    /\ dict_get "query" args = Some (VStr "weather in Paris").
Proof.
  destruct (sanitizer_object_payload loads_examples
              (mkToolCall "call_1" SEARCH_TOOL_NAME
                 ("{" +:+ dq +:+ "query" +:+ dq +:+ ": " +:+ dq
                  +:+ "weather in Paris" +:+ dq +:+ ", " +:+ dq +:+ "foo"
                  +:+ dq +:+ ": " +:+ dq +:+ "bar" +:+ dq +:+ "}"))
              "what is the weather" None None None None
              [ (QUERY_PARAM_NAME, mkParam "string" "search query") ]
              [ ("query", VStr "weather in Paris"); ("foo", VStr "bar") ])
    as (args & Hargs & Hkeys & _ & _ & Hloc & Hquery).
  - reflexivity.
  - reflexivity.
  - repeat constructor; simpl; intuition discriminate.
  - exists args. repeat split; try assumption.
    destruct (dict_get "foo" args) as [v|] eqn:Hfoo; [|reflexivity].
    apply dict_get_In, (in_map fst) in Hfoo.
    destruct (Hkeys _ Hfoo) as [H|[H|[]]]; discriminate H.
Defined.

(** C4 (as stated) fails twice.  On [{"query": 42}] the string-typed
    parameter [query] has a value that is not a string, and the output
    still has the key [query] (with the user's utterance).  On [[]], which
    is parsable JSON, [args.keys()] raises [AttributeError] and there is
    no output. *)
Lemma sanitizer_query_key_not_omitted :
  loads_examples ("{" +:+ dq +:+ "query" +:+ dq +:+ ": 42}")
  = Some (VDict [("query", VInt 42)])
  /\ prepare_tool_arguments loads_examples
       (mkToolCall "call_1" SEARCH_TOOL_NAME
          ("{" +:+ dq +:+ "query" +:+ dq +:+ ": 42}"))
       "what is this" None None None None
     = Ok [ ("location", VStr "unknown"); ("query", VStr "what is this") ]
  /\ loads_examples "[]" = Some (VList [])
  /\ prepare_tool_arguments loads_examples
       (mkToolCall "call_1" SEARCH_TOOL_NAME "[]")
       "what is this" None None None None
     = Raise AttributeError.
Proof. repeat split. Qed.

(** ** The photo tool, the dispatcher and the turn *)

Lemma tool_functions_unknown {World} (vision : Vision World)
    (web_search : WebSearch World) (name : string) :
  ~ In name known_tool_names ->
  tool_functions World vision web_search name = None.
Proof.
  unfold known_tool_names, tool_functions. simpl. intros Hnot.
  destruct (String.eqb_spec name SEARCH_TOOL_NAME); [intuition congruence|].
  destruct (String.eqb_spec name PHOTO_TOOL_NAME); [intuition congruence|].
  destruct (String.eqb_spec name DUMMY_SEARCH_TOOL_NAME);
    [intuition congruence|].
  reflexivity.
Qed.

Section TurnFacts.

Variable World : Type.
Variable json_loads : string -> option Value.
Variable json_dumps : list DebugRecord -> string.
Variable capability_value : Capability -> string.
Variable default_timer : World -> Z.

(** For a name outside the table the dispatcher returns at once. *)
Lemma handle_tool_unknown (tool_call : ToolCall) (user_message : string)
    (image_bytes : option bytes) (location local_time : option string)
    (web_search : WebSearch World) (vision : Vision World)
    (learned_context : option LearnedContext) (st : Store) (w : World) :
  ~ In (function_name tool_call) known_tool_names ->
  handle_tool World json_loads capability_value default_timer tool_call
    user_message image_bytes location local_time web_search vision
    learned_context st w
  = (Ok HALLUCINATED_TOOL_ERROR, st, w).
Proof.
  intros Hunknown. unfold handle_tool.
  now rewrite tool_functions_unknown.
Qed.

(** C5. Whatever the other inputs, the shared store and the state of the
    backends, the photo tool called with reverse image search and
    translation both requested does what it does with translation alone:
    same result, same store (capabilities, token usage), same world
    (backend calls).  When there is a photo, that is: record [VISION],
    ask the vision backend once with the description prompt, return its
    answer; the search backend is not called. *)
Theorem photo_tool_translation_overrides (query : string)
    (vision : Vision World) (web_search : WebSearch World)
    (image_bytes : option bytes) (local_time location : option string)
    (learned_context : option LearnedContext) (st : Store) (w : World) :
  handle_photo_tool World query vision web_search true true image_bytes
    local_time location learned_context st w
  = handle_photo_tool World query vision web_search false true image_bytes
      local_time location learned_context st w
  /\ forall (b : Byte.byte) (rest : bytes),
       handle_photo_tool World query vision web_search true true
         (Some (b :: rest)) local_time location learned_context st w
       = match query_image vision
                 (VISION_PHOTO_DESCRIPTION_SYSTEM_MESSAGE +:+ nl +:+ nl +:+
                  _create_context_system_message local_time location
                    learned_context)%string
                 query (b :: rest) (token_usage_by_model st) w with
         | (answer, usage', w') =>
             (match answer with
              | Ok text => Ok (Text text)
              | Raise e => Raise e
              end,
              mkStore usage' (capabilities_used st ++ [ VISION ])
                (tools_used st),
              w')
         end.
Proof.
  split; [reflexivity|].
  intros b rest. unfold handle_photo_tool, bind, append_capability,
    call_query_image, ret; simpl.
  destruct (query_image vision _ query (b :: rest) (token_usage_by_model st) w)
    as [[[text|e] usage'] w']; reflexivity.
Qed.

(** C10. For a tool call with a name outside the table, the dispatcher
    returns the error string and leaves the shared store as it was: no
    record is appended to [tools_used] (so no hallucinated-tool record),
    no capability is recorded, the token usage is unchanged; the world
    is untouched; and the argument payload is not parsed: the outcome
    is the same for every payload and every behaviour of [json.loads],
    and the sanitizer, had it been called on this call, would have
    raised [IndexError]. *)
Theorem unknown_tool_leaves_accumulators (tool_call : ToolCall)
    (user_message : string) (image_bytes : option bytes)
    (location local_time : option string) (web_search : WebSearch World)
    (vision : Vision World) (learned_context : option LearnedContext)
    (st : Store) (w : World) :
  ~ In (function_name tool_call) known_tool_names ->
  exists st' w',
    handle_tool World json_loads capability_value default_timer tool_call
      user_message image_bytes location local_time web_search vision
      learned_context st w
    = (Ok HALLUCINATED_TOOL_ERROR, st', w')
    /\ tools_used st' = tools_used st
    /\ capabilities_used st' = capabilities_used st
    /\ token_usage_by_model st' = token_usage_by_model st
    /\ w' = w
    /\ (forall (other_loads : string -> option Value) (payload : string),
          handle_tool World other_loads capability_value default_timer
            (mkToolCall (call_id tool_call) (function_name tool_call) payload)
            user_message image_bytes location local_time web_search vision
            learned_context st w
          = (Ok HALLUCINATED_TOOL_ERROR, st', w'))
    /\ prepare_tool_arguments json_loads tool_call user_message image_bytes
         location local_time learned_context
       = Raise IndexError.
Proof.
  intros Hunknown. exists st, w.
  split; [now apply handle_tool_unknown|].
  repeat (split; [reflexivity|]).
  split.
  - intros other_loads payload. unfold handle_tool; simpl.
    now rewrite tool_functions_unknown.
  - unfold prepare_tool_arguments, known_tool_names, TOOLS in *.
    simpl in *.
    destruct (String.eqb_spec DUMMY_SEARCH_TOOL_NAME (function_name tool_call));
      [intuition congruence|].
    destruct (String.eqb_spec SEARCH_TOOL_NAME (function_name tool_call));
      [intuition congruence|].
    destruct (String.eqb_spec PHOTO_TOOL_NAME (function_name tool_call));
      [intuition congruence|].
    reflexivity.
Qed.

End TurnFacts.

(** The history preparation always returns. *)
Lemma prepare_history_total (prompt : string)
    (message_history : option (list Message)) :
  exists history, prepare_history prompt message_history = Some history.
Proof.
  unfold prepare_history. rewrite _prune_history_scan. eauto.
Qed.

Lemma nth_error_tool_messages (calls : list ToolCall) :
  forall (outputs : list string),
    length outputs = length calls ->
    exists messages,
      tool_messages calls outputs = Ok messages
      /\ forall i tool_call tool_output,
           nth_error calls i = Some tool_call ->
           nth_error outputs i = Some tool_output ->
           nth_error messages i
           = Some (ToolMessage (call_id tool_call) (function_name tool_call)
                     tool_output).
Proof.
  induction calls as [|c calls IH]; intros [|o outputs] Hlen;
    try discriminate Hlen.
  - exists []. split; [reflexivity|]. intros [|i]; discriminate.
  - simpl in Hlen. destruct (IH outputs) as (messages & Hm & Hnth); [lia|].
    exists (ToolMessage (call_id c) (function_name c) o :: messages).
    split; [simpl; now rewrite Hm|].
    intros [|i] tc out; simpl.
    + intros [= <-] [= <-]. reflexivity.
    + apply Hnth.
Qed.

Section TurnProperties.

Variable World : Type.
Variable json_loads : string -> option Value.
Variable json_dumps : list DebugRecord -> string.
Variable capability_value : Capability -> string.
Variable default_timer : World -> Z.

(** C6. When the first completion response carries no tool call, the
    turn returns a response whose text is the first completion's message
    content and whose capability list is [[ASSISTANT_KNOWLEDGE]]; no
    other backend call is made. *)
Theorem no_tool_calls_first_content (client : Client World)
    (prompt : string) (image_bytes : option bytes)
    (message_history : option (list Message))
    (location_address local_time model : option string)
    (web_search : WebSearch World) (vision : Vision World) (w w1 : World)
    (history : list Message) (first_response : CompletionResponse) :
  prepare_history prompt message_history = Some history ->
  chat_completions_create client
    (first_request (model_or_default model) history location_address
       local_time) w
  = (Ok first_response, w1) ->
  no_tool_calls (first_choice first_response) = true ->
  exists answer,
    send_to_assistant World json_loads json_dumps capability_value
      default_timer client prompt image_bytes message_history
      location_address local_time model web_search vision w
    = (Ok answer, w1)
    /\ response answer = message_content (first_choice first_response)
    /\ response_capabilities_used answer = [ ASSISTANT_KNOWLEDGE ].
Proof.
  intros Hhistory Hfirst Hnone.
  unfold send_to_assistant. rewrite Hhistory.
  unfold bind at 1. unfold call_completion. rewrite Hfirst.
  unfold after_first_completion, no_tool_calls in *.
  destruct (tool_calls (first_choice first_response)) as [[|c calls]|];
    try discriminate Hnone;
    (eexists; split; [reflexivity | split; reflexivity]).
Qed.

(** The outputs of the fan-out: one per call, and the error string for
    each call with a name outside the table. *)
Lemma gather_tools_outputs (prompt : string) (image_bytes : option bytes)
    (location_address local_time : option string)
    (web_search : WebSearch World) (vision : Vision World)
    (learned_context : option LearnedContext) (calls : list ToolCall) :
  forall (st st' : Store) (w w' : World) (outputs : list string),
    gather_tools World json_loads capability_value default_timer calls
      prompt image_bytes location_address local_time web_search vision
      learned_context st w
    = (Ok outputs, st', w') ->
    length outputs = length calls
    /\ forall i tool_call,
         nth_error calls i = Some tool_call ->
         ~ In (function_name tool_call) known_tool_names ->
         nth_error outputs i = Some HALLUCINATED_TOOL_ERROR.
Proof.
  induction calls as [|c calls IH]; intros st st' w w' outputs Hrun.
  - simpl in Hrun. injection Hrun as <- _ _.
    split; [reflexivity|]. intros [|i]; discriminate.
  - simpl in Hrun. unfold bind at 1 in Hrun.
    destruct (handle_tool World json_loads capability_value default_timer c
                prompt image_bytes location_address local_time web_search
                vision learned_context st w)
      as [[[out|e] st1] w1] eqn:Hc; [|discriminate Hrun].
    unfold bind at 1 in Hrun.
    destruct (gather_tools World json_loads capability_value default_timer
                calls prompt image_bytes location_address local_time
                web_search vision learned_context st1 w1)
      as [[[outs|e] st2] w2] eqn:Hrest; [|discriminate Hrun].
    injection Hrun as <- _ _.
    destruct (IH _ _ _ _ _ Hrest) as [Hlen Hnth].
    split; [simpl; now rewrite Hlen|].
    intros [|i] tc; simpl.
    + intros [= <-] Hunknown.
      rewrite handle_tool_unknown in Hc by assumption.
      now injection Hc as <- _ _.
    + apply Hnth.
Qed.

(** C7. For a tool call whose name is outside the table, the dispatcher
    invokes no handler (the world and the store are as before) and
    returns the hallucination-error string; and the turn continues:
    whenever the fan-out of a tool round containing this call
    completes, the round goes on to the second completion request, in
    which the tool message for this call carries the call's id, its
    name and that string as content. *)
Theorem unknown_tool_error_string (tool_call : ToolCall) :
  ~ In (function_name tool_call) known_tool_names ->
  (forall (user_message : string) (image_bytes : option bytes)
          (location local_time : option string)
          (web_search : WebSearch World) (vision : Vision World)
          (learned_context : option LearnedContext) (st : Store) (w : World),
      handle_tool World json_loads capability_value default_timer tool_call
        user_message image_bytes location local_time web_search vision
        learned_context st w
      = (Ok HALLUCINATED_TOOL_ERROR, st, w))
  /\ (forall (client : Client World) (model prompt : string)
             (image_bytes : option bytes)
             (location_address local_time : option string)
             (web_search : WebSearch World) (vision : Vision World)
             (message_history : list HistoryEntry)
             (first_response_message : CompletionMessage)
             (calls : list ToolCall) (i : nat) (st st' : Store)
             (w w' : World) (outputs : list string),
         nth_error calls i = Some tool_call ->
         gather_tools World json_loads capability_value default_timer calls
           prompt image_bytes location_address local_time web_search vision
           (Some turn_learned_context) st w
         = (Ok outputs, st', w') ->
         exists messages,
           nth_error messages i
           = Some (ToolMessage (call_id tool_call) (function_name tool_call)
                     HALLUCINATED_TOOL_ERROR)
           /\ tool_round World json_loads capability_value default_timer
                client model prompt image_bytes location_address local_time
                web_search vision message_history first_response_message
                calls st w
              = bind
                  (call_completion World client
                     (mkRequest model
                        ((message_history
                          ++ [ ResponseMessage first_response_message ])
                         ++ messages)
                        None None))
                  (fun second_response =>
                     bind (accumulate_usage World model
                             (usage second_response))
                       (fun _ =>
                          ret (message_content
                                 (first_choice second_response))))
                  st' w').
Proof.
  intros Hunknown. split.
  - intros. now apply handle_tool_unknown.
  - intros client model prompt image_bytes location_address local_time
      web_search vision message_history first_response_message calls i
      st st' w w' outputs Hcall Hrun.
    destruct (gather_tools_outputs _ _ _ _ _ _ _ _ _ _ _ _ _ Hrun)
      as [Hlen Herr].
    destruct (nth_error_tool_messages calls outputs Hlen)
      as (messages & Hmessages & Hnth).
    exists messages. split.
    + exact (Hnth i tool_call _ Hcall (Herr i tool_call Hcall Hunknown)).
    + unfold tool_round. unfold bind at 1. rewrite Hrun.
      unfold bind at 1. rewrite Hmessages. reflexivity.
Qed.

End TurnProperties.

(** ** The debug trace of a turn *)

Section TraceInvariant.

Variable World : Type.
Variable json_loads : string -> option Value.
Variable json_dumps : list DebugRecord -> string.
Variable capability_value : Capability -> string.
Variable default_timer : World -> Z.

Lemma same_tools_used_keeps {A} (c : M World A) :
  same_tools_used c -> keeps trace_context_empty c.
Proof.
  intros Hsame st w r st' w' Hrun (trace & Htrace & Hall).
  exists trace. split; [|assumption].
  now rewrite (Hsame _ _ _ _ _ Hrun).
Qed.

Lemma same_tools_used_bind {A B} (c : M World A) (k : A -> M World B) :
  same_tools_used c -> (forall a, same_tools_used (k a)) ->
  same_tools_used (bind c k).
Proof.
  intros Hc Hk st w r st' w' Hrun. unfold bind in Hrun.
  destruct (c st w) as [[[a|e] st1] w1] eqn:Hcrun.
  - rewrite (Hk _ _ _ _ _ _ Hrun). exact (Hc _ _ _ _ _ Hcrun).
  - injection Hrun as _ <- _. exact (Hc _ _ _ _ _ Hcrun).
Qed.

Lemma keeps_bind {A B} (I : Store -> Prop) (Q : A -> Prop) (c : M World A)
    (k : A -> M World B) :
  keeps I c -> returns c Q -> (forall a, Q a -> keeps I (k a)) ->
  keeps I (bind c k).
Proof.
  intros Hc HQ Hk st w r st' w' Hrun HI. unfold bind in Hrun.
  destruct (c st w) as [[[a|e] st1] w1] eqn:Hcrun.
  - apply (Hk a (HQ _ _ _ _ _ Hcrun) _ _ _ _ _ Hrun).
    exact (Hc _ _ _ _ _ Hcrun HI).
  - injection Hrun as _ <- _. exact (Hc _ _ _ _ _ Hcrun HI).
Qed.

Lemma returns_any {A} (c : M World A) : returns c (fun _ => True).
Proof. intros st w a st' w' _. exact I. Qed.

Lemma same_tools_used_ret {A} (a : A) : same_tools_used (World := World) (ret a).
Proof. intros st w r st' w' [= _ <- _]. reflexivity. Qed.

Lemma same_tools_used_raise {A} (e : Exception) :
  same_tools_used (World := World) (A := A) (raise e).
Proof. intros st w r st' w' [= _ <- _]. reflexivity. Qed.

Lemma same_tools_used_lift_result {A} (r : result A) :
  same_tools_used (lift_result World r).
Proof.
  destruct r; [apply same_tools_used_ret | apply same_tools_used_raise].
Qed.

Lemma same_tools_used_read_timer :
  same_tools_used (read_timer World default_timer).
Proof. intros st w r st' w' [= _ <- _]. reflexivity. Qed.

Lemma same_tools_used_append_capability (c : Capability) :
  same_tools_used (append_capability World c).
Proof. intros st w r st' w' [= _ <- _]. reflexivity. Qed.

Lemma same_tools_used_accumulate_usage (model : string)
    (u : CompletionUsage) :
  same_tools_used (accumulate_usage World model u).
Proof. intros st w r st' w' [= _ <- _]. reflexivity. Qed.

Lemma same_tools_used_call_query_image (vision : Vision World)
    (system_message query : string) (image_bytes : bytes) :
  same_tools_used
    (call_query_image World vision system_message query image_bytes).
Proof.
  intros st w r st' w'. unfold call_query_image.
  destruct (query_image _ _ _ _ _ _) as [[r0 usage'] w0].
  intros [= _ <- _]. reflexivity.
Qed.

Lemma same_tools_used_call_search_web (web_search : WebSearch World)
    (arguments : SearchArguments) :
  same_tools_used (call_search_web World web_search arguments).
Proof.
  intros st w r st' w'. unfold call_search_web.
  destruct (search_web _ _ _) as [r0 w0].
  intros [= _ <- _]. reflexivity.
Qed.

Lemma same_tools_used_call_completion (client : Client World)
    (request : CompletionRequest) :
  same_tools_used (call_completion World client request).
Proof.
  intros st w r st' w'. unfold call_completion.
  destruct (chat_completions_create _ _ _) as [r0 w0].
  intros [= _ <- _]. reflexivity.
Qed.

Lemma same_tools_used_handle_photo_tool (query : string)
    (vision : Vision World) (web_search : WebSearch World)
    (google_reverse_image_search translate : bool)
    (image_bytes : option bytes) (local_time location : option string)
    (learned_context : option LearnedContext) :
  same_tools_used
    (handle_photo_tool World query vision web_search
       google_reverse_image_search translate image_bytes local_time
       location learned_context).
Proof.
  unfold handle_photo_tool.
  destruct image_bytes as [image|]; [|apply same_tools_used_ret].
  destruct (length image =? 0); [apply same_tools_used_ret|].
  destruct (google_reverse_image_search && negb translate);
    repeat (apply same_tools_used_bind; [|intros ?]);
    auto using same_tools_used_ret, same_tools_used_append_capability,
      same_tools_used_call_query_image, same_tools_used_call_search_web.
Qed.

(** No handler of the table touches [tools_used]. *)
Lemma same_tools_used_tool_functions (vision : Vision World)
    (web_search : WebSearch World) (name : string)
    (function_to_call : dict Value -> M World ToolOutput)
    (function_args : dict Value) :
  tool_functions World vision web_search name = Some function_to_call ->
  same_tools_used (function_to_call function_args).
Proof.
  unfold tool_functions.
  destruct (name =? SEARCH_TOOL_NAME)%string.
  { intros [= <-]. unfold search_web_kwargs.
    destruct (dict_get QUERY_PARAM_NAME function_args) as [[]|];
      try apply same_tools_used_raise.
    destruct (dict_get "location" function_args) as [[]|];
      try apply same_tools_used_raise.
    apply same_tools_used_bind;
      [apply same_tools_used_call_search_web
      |intros; apply same_tools_used_ret]. }
  destruct (name =? PHOTO_TOOL_NAME)%string.
  { intros [= <-]. unfold handle_photo_tool_kwargs.
    destruct (photo_arguments function_args);
      [apply same_tools_used_handle_photo_tool
      |apply same_tools_used_raise]. }
  destruct (name =? DUMMY_SEARCH_TOOL_NAME)%string; [|discriminate].
  intros [= <-]. unfold handle_general_knowledge_tool_kwargs.
  destruct (dict_get QUERY_PARAM_NAME function_args) as [[]|];
    try apply same_tools_used_raise.
  destruct (dict_get "location" function_args) as [[]|];
    try apply same_tools_used_raise.
  apply same_tools_used_ret.
Qed.

End TraceInvariant.

Lemma dict_get_del_other {V} (k k0 : string) (d : dict V) :
  k0 <> k -> dict_get k (dict_del k0 d) = dict_get k d.
Proof.
  intros Hne. induction d as [|[k' v'] t IH]; simpl; auto.
  destruct (String.eqb_spec k' k0) as [->|].
  - destruct (String.eqb_spec k0 k); [contradiction | reflexivity].
  - simpl. now rewrite IH.
Qed.

(** For the photo tool the sanitizer stores the learned context it is
    given under ["learned_context"], whatever the payload. *)
Lemma prepare_tool_arguments_learned_context
    (json_loads : string -> option Value) (tool_call : ToolCall)
    (user_message : string) (image_bytes : option bytes)
    (location local_time : option string)
    (learned_context : LearnedContext) (args : dict Value) :
  prepare_tool_arguments json_loads tool_call user_message image_bytes
    location local_time (Some learned_context) = Ok args ->
  function_name tool_call = PHOTO_TOOL_NAME ->
  dict_get "learned_context" args = Some (VContext learned_context).
Proof.
  unfold prepare_tool_arguments. intros Hrun Hname.
  destruct (filter _ TOOLS) as [|description others]; [discriminate|].
  destruct (match json_loads (function_arguments tool_call) with
            | Some v => v
            | None => VDict []
            end); try discriminate.
  destruct (sanitize_params _ _ _) as [validated|]; [|discriminate].
  rewrite Hname in Hrun. simpl in Hrun. injection Hrun as <-.
  unfold inject_photo_arguments.
  repeat (rewrite dict_get_set; simpl). reflexivity.
Qed.

Section TraceInvariantTurn.

Variable World : Type.
Variable json_loads : string -> option Value.
Variable json_dumps : list DebugRecord -> string.
Variable capability_value : Capability -> string.
Variable default_timer : World -> Z.

Lemma sanitize_debug_args_context (capabilities : list Capability)
    (k : string) (learned_context : LearnedContext)
    (function_args : dict Value) :
  forall cleaned,
    sanitize_debug_args capability_value capabilities function_args
    = Ok cleaned ->
    dict_get k function_args = Some (VContext learned_context) ->
    dict_get k cleaned = Some (VContext learned_context).
Proof.
  induction function_args as [|[k' v'] t IH]; intros cleaned; simpl.
  - discriminate 2.
  - destruct (sanitize_debug_value capability_value capabilities v')
      as [v''|] eqn:Hv; [|discriminate].
    destruct (sanitize_debug_args capability_value capabilities t)
      as [t'|]; [|discriminate].
    intros [= <-]. simpl.
    destruct (String.eqb k' k); [|now apply IH].
    intros [= ->]. simpl in Hv. congruence.
Qed.

Lemma create_debug_tool_info_object_context (function_name : string)
    (function_args : dict Value) (tool_time : Z)
    (search_result : option string) :
  (function_name = PHOTO_TOOL_NAME ->
   dict_get "learned_context" function_args = Some (VContext [])) ->
  returns
    (create_debug_tool_info_object World capability_value function_name
       function_args tool_time search_result)
    photo_context_empty.
Proof.
  intros Hargs st w record st' w'. unfold create_debug_tool_info_object.
  destruct (sanitize_debug_args _ _ _) as [cleaned|] eqn:Hclean;
    [|discriminate].
  intros [= <- _ _]. simpl. intros Hname.
  repeat (rewrite dict_get_del_other by discriminate).
  eapply sanitize_debug_args_context; eauto.
Qed.

Lemma same_tools_used_create_debug_tool_info_object
    (function_name : string) (function_args : dict Value) (tool_time : Z)
    (search_result : option string) :
  same_tools_used
    (create_debug_tool_info_object World capability_value function_name
       function_args tool_time search_result).
Proof.
  intros st w r st' w'. unfold create_debug_tool_info_object.
  destruct (sanitize_debug_args _ _ _); intros [= _ <- _]; reflexivity.
Qed.

Lemma keeps_append_tool_used (record : DebugRecord) :
  photo_context_empty record ->
  keeps trace_context_empty (append_tool_used World record).
Proof.
  intros Hrecord st w r st' w' [= _ <- _] (trace & Htrace & Hall).
  exists (trace ++ [record]). simpl. rewrite Htrace.
  split; [reflexivity|].
  apply Forall_app. split; [assumption | now constructor].
Qed.

(** The dispatcher, called with the empty learned context, maintains the
    invariant of the debug trace. *)
Lemma keeps_handle_tool (tool_call : ToolCall) (user_message : string)
    (image_bytes : option bytes) (location local_time : option string)
    (web_search : WebSearch World) (vision : Vision World) :
  keeps trace_context_empty
    (handle_tool World json_loads capability_value default_timer tool_call
       user_message image_bytes location local_time web_search vision
       (Some turn_learned_context)).
Proof.
  unfold handle_tool.
  destruct (tool_functions World vision web_search (function_name tool_call))
    as [function_to_call|] eqn:Htable;
    [|apply same_tools_used_keeps, same_tools_used_ret].
  apply keeps_bind with
    (Q := fun function_args =>
            function_name tool_call = PHOTO_TOOL_NAME ->
            dict_get "learned_context" function_args = Some (VContext [])).
  { apply same_tools_used_keeps, same_tools_used_lift_result. }
  { intros st w function_args st' w' Hrun Hname.
    destruct (prepare_tool_arguments _ _ _ _ _ _ _) as [args|] eqn:Hprep;
      [|discriminate Hrun].
    injection Hrun as <- _ _.
    now apply (prepare_tool_arguments_learned_context _ _ _ _ _ _ _ _ Hprep). }
  intros function_args Hargs.
  apply keeps_bind with (Q := fun _ => True);
    [apply same_tools_used_keeps, same_tools_used_read_timer
    |apply returns_any|intros tool_start_time _].
  apply keeps_bind with (Q := fun _ => True);
    [eapply same_tools_used_keeps, same_tools_used_tool_functions; eauto
    |apply returns_any|intros function_response _].
  apply keeps_bind with (Q := fun _ => True);
    [apply same_tools_used_keeps, same_tools_used_read_timer
    |apply returns_any|intros tool_stop_time _].
  apply keeps_bind with (Q := fun _ => True);
    [|apply returns_any|intros _ _].
  { apply same_tools_used_keeps.
    destruct (function_name tool_call =? SEARCH_TOOL_NAME)%string;
      [apply same_tools_used_append_capability|].
    destruct (function_name tool_call =? DUMMY_SEARCH_TOOL_NAME)%string;
      [apply same_tools_used_append_capability|apply same_tools_used_ret]. }
  apply keeps_bind with (Q := photo_context_empty).
  { apply same_tools_used_keeps,
      same_tools_used_create_debug_tool_info_object. }
  { now apply create_debug_tool_info_object_context. }
  intros record Hrecord.
  apply keeps_bind with (Q := fun _ => True);
    [now apply keeps_append_tool_used|apply returns_any|intros _ _].
  apply same_tools_used_keeps, same_tools_used_ret.
Qed.

Lemma keeps_gather_tools (prompt : string) (image_bytes : option bytes)
    (location_address local_time : option string)
    (web_search : WebSearch World) (vision : Vision World)
    (calls : list ToolCall) :
  keeps trace_context_empty
    (gather_tools World json_loads capability_value default_timer calls
       prompt image_bytes location_address local_time web_search vision
       (Some turn_learned_context)).
Proof.
  induction calls as [|c calls IH]; simpl.
  - apply same_tools_used_keeps, same_tools_used_ret.
  - apply keeps_bind with (Q := fun _ => True);
      [apply keeps_handle_tool|apply returns_any|intros tool_output _].
    apply keeps_bind with (Q := fun _ => True);
      [apply IH|apply returns_any|intros tool_outputs _].
    apply same_tools_used_keeps, same_tools_used_ret.
Qed.

Lemma keeps_tool_round (client : Client World) (model prompt : string)
    (image_bytes : option bytes) (location_address local_time : option string)
    (web_search : WebSearch World) (vision : Vision World)
    (message_history : list HistoryEntry)
    (first_response_message : CompletionMessage) (calls : list ToolCall) :
  keeps trace_context_empty
    (tool_round World json_loads capability_value default_timer client
       model prompt image_bytes location_address local_time web_search
       vision message_history first_response_message calls).
Proof.
  unfold tool_round.
  apply keeps_bind with (Q := fun _ => True);
    [apply keeps_gather_tools|apply returns_any|intros tool_outputs _].
  apply keeps_bind with (Q := fun _ => True);
    [apply same_tools_used_keeps, same_tools_used_lift_result
    |apply returns_any|intros messages _].
  apply keeps_bind with (Q := fun _ => True);
    [apply same_tools_used_keeps, same_tools_used_call_completion
    |apply returns_any|intros second_response _].
  apply keeps_bind with (Q := fun _ => True);
    [apply same_tools_used_keeps, same_tools_used_accumulate_usage
    |apply returns_any|intros _ _].
  apply same_tools_used_keeps, same_tools_used_ret.
Qed.

End TraceInvariantTurn.

(** With an empty learned context the block is the prefix and the two
    fixed entries. *)
Lemma context_block_two_entries (local_time location : option string) :
  _create_context_system_message local_time location
    (Some turn_learned_context)
  = (CONTEXT_SYSTEM_MESSAGE_PREFIX
     +:+ "<current_time>" +:+ fixed_current_time local_time
     +:+ "</current_time>" +:+ nl
     +:+ "<location>" +:+ fixed_location location +:+ "</location>")%string.
Proof.
  unfold _create_context_system_message, merged_context, turn_learned_context,
    dict_update, tag.
  cbn [fold_left dict_set context_items map fst snd String.concat String.eqb].
  assert (Happ : forall a b c : string,
             ((a +:+ b) +:+ c = a +:+ b +:+ c)%string).
  { induction a; intros; simpl; [reflexivity | now rewrite IHa]. }
  simpl. rewrite !Happ. reflexivity.
Qed.

Section LearnedContextProperty.

Variable World : Type.
Variable json_loads : string -> option Value.
Variable json_dumps : list DebugRecord -> string.
Variable capability_value : Capability -> string.
Variable default_timer : World -> Z.

(** From the first completion response on, a turn started with an empty
    [tools_used] serializes a trace that satisfies the invariant. *)
Lemma after_first_completion_trace (client : Client World)
    (model prompt : string) (image_bytes : option bytes)
    (location_address local_time : option string)
    (web_search : WebSearch World) (vision : Vision World)
    (message_history : list HistoryEntry)
    (first_response : CompletionResponse) (st st' : Store) (w w' : World)
    (answer : AssistantResponse) :
  tools_used st = [] ->
  after_first_completion World json_loads json_dumps capability_value
    default_timer client model prompt image_bytes location_address
    local_time web_search vision message_history first_response st w
  = (Ok answer, st', w') ->
  exists trace,
    debug_tools answer = json_dumps (ContextRecord [] :: trace)
    /\ Forall photo_context_empty trace.
Proof.
  intros Hempty. unfold after_first_completion.
  unfold bind at 1, accumulate_usage.
  unfold bind at 1, append_tool_used. simpl tools_used. rewrite Hempty.
  simpl app.
  set (st2 := mkStore _ _ [ContextRecord turn_learned_context]).
  assert (Hinv : trace_context_empty st2)
    by (exists []; split; [reflexivity | constructor]).
  set (middle := match tool_calls (first_choice first_response) with
                 | Some (tool_call :: rest) => _
                 | _ => _
                 end).
  assert (Hkeeps : keeps trace_context_empty middle).
  { subst middle.
    destruct (tool_calls (first_choice first_response)) as [[|c calls]|];
      [apply same_tools_used_keeps, same_tools_used_ret
      |apply keeps_tool_round
      |apply same_tools_used_keeps, same_tools_used_ret]. }
  unfold bind.
  destruct (middle st2 w) as [[[final|e] st3] w3] eqn:Hmiddle;
    [|discriminate].
  destruct (Hkeeps _ _ _ _ _ Hmiddle Hinv) as (trace & Htrace & Hall).
  intros [= <- _ _]. exists trace. simpl. now rewrite Htrace.
Qed.


End LearnedContextProperty.

(** ** Runs in the recording world *)

(** The photo tool asked to translate and to search: one vision call with
    the description prompt, [VISION] recorded, no search. *)
Example photo_tool_translation_run :
  handle_photo_tool Trace "translate this" (recording_vision "hola")
    (recording_web_search (mkSearchResult "found" None)) true true
    (Some [ Byte.x01 ]) None None None empty_store []
  = (Ok (Text "hola"),
     mkStore [] [ VISION ] [],
     [ VisionCall
         (VISION_PHOTO_DESCRIPTION_SYSTEM_MESSAGE +:+ nl +:+ nl +:+
          _create_context_system_message None None None)
         "translate this" [ Byte.x01 ] ]).
Proof. reflexivity. Qed.

(** The photo tool asked to search only: the vision answer, stripped of
    its quotation marks, goes to the search backend with the image. *)
Example photo_tool_reverse_search_run :
  handle_photo_tool Trace "how tall is it"
    (recording_vision (dq +:+ "eiffel tower height" +:+ dq))
    (recording_web_search (mkSearchResult "330 m" None)) true false
    (Some [ Byte.x01 ]) None (Some "Paris") None empty_store []
  = (Ok (Search (mkSearchResult "330 m" None)),
     mkStore [] [ REVERSE_IMAGE_SEARCH ] [],
     [ VisionCall
         (VISION_GENERATE_REVERSE_IMAGE_SEARCH_QUERY_FROM_PHOTO_SYSTEM_MESSAGE
          +:+ nl +:+ nl +:+
          _create_context_system_message None (Some "Paris") None)
         "how tall is it" [ Byte.x01 ];
       SearchCall
         (mkSearch "eiffel tower height" (Some true) (Some [ Byte.x01 ])
            (Some "Paris")) ]).
Proof. reflexivity. Qed.

(** A tool call with a name outside the table, in the recording world. *)
Lemma unknown_tool_leaves_accumulators_witness :
  exists st' w',
    handle_tool Trace loads_examples capability_names trace_timer
      (mkToolCall "call_1" "xyz_tool" "{}") "hello" None None None
      (recording_web_search (mkSearchResult "found" None))
      (recording_vision "seen") None empty_store []
    = (Ok HALLUCINATED_TOOL_ERROR, st', w')
    /\ tools_used st' = []
    /\ capabilities_used st' = []
    /\ token_usage_by_model st' = []
    /\ w' = [].
Proof.
  destruct (unknown_tool_leaves_accumulators Trace loads_examples
              capability_names trace_timer
              (mkToolCall "call_1" "xyz_tool" "{}") "hello" None None None
              (recording_web_search (mkSearchResult "found" None))
              (recording_vision "seen") None empty_store [])
    as (st' & w' & Hrun & Htools & Hcaps & Husage & Hworld & _).
  - simpl. intros [H|[H|[H|[]]]]; discriminate H.
  - exists st', w'. repeat split; assumption.
Defined.

(** Scenario A: no image, no history, and a first completion that answers
    without tool calls. *)
Lemma no_tool_calls_first_content_witness :
  exists answer w1,
    send_to_assistant Trace loads_examples dumps_examples capability_names
      trace_timer
      (scripted_client
         [ mkCompletionResponse (mkCompletionMessage (Some "Paris.") None)
             (mkCompletionUsage 50 3 53) ])
      "What's the capital of France?" None None None None None
      (recording_web_search (mkSearchResult "found" None))
      (recording_vision "seen") []
    = (Ok answer, w1)
    /\ response answer = Some "Paris."
    /\ response_capabilities_used answer = [ ASSISTANT_KNOWLEDGE ].
Proof.
  destruct (no_tool_calls_first_content Trace loads_examples dumps_examples
              capability_names trace_timer
              (scripted_client
                 [ mkCompletionResponse
                     (mkCompletionMessage (Some "Paris.") None)
                     (mkCompletionUsage 50 3 53) ])
              "What's the capital of France?" None None None None None
              (recording_web_search (mkSearchResult "found" None))
              (recording_vision "seen") []
              [ CompletionCall
                  (first_request "gpt-3.5-turbo-1106"
                     [ mkMessage SYSTEM SYSTEM_MESSAGE;
                       mkMessage USER "What's the capital of France?" ]
                     None None) ]
              [ mkMessage SYSTEM SYSTEM_MESSAGE;
                mkMessage USER "What's the capital of France?" ]
              (mkCompletionResponse (mkCompletionMessage (Some "Paris.") None)
                 (mkCompletionUsage 50 3 53)))
    as (answer & Hrun & Hresponse & Hcaps).
  - reflexivity.
  - reflexivity.
  - reflexivity.
  - exists answer. eexists. split; [exact Hrun|]. split; assumption.
Defined.

(** A tool round with one hallucinated call, in the recording world. *)
Lemma unknown_tool_error_string_witness :
  handle_tool Trace loads_examples capability_names trace_timer
    (mkToolCall "call_1" "xyz_tool" "{}") "hello" None None None
    (recording_web_search (mkSearchResult "found" None))
    (recording_vision "seen") None empty_store []
  = (Ok HALLUCINATED_TOOL_ERROR, empty_store, [])
  /\ exists messages,
       nth_error messages 0
       = Some (ToolMessage "call_1" "xyz_tool" HALLUCINATED_TOOL_ERROR)
       /\ tool_round Trace loads_examples capability_names trace_timer
            (scripted_client []) "gpt-3.5-turbo-1106" "hello" None None None
            (recording_web_search (mkSearchResult "found" None))
            (recording_vision "seen") []
            (mkCompletionMessage None
               (Some [ mkToolCall "call_1" "xyz_tool" "{}" ]))
            [ mkToolCall "call_1" "xyz_tool" "{}" ] empty_store []
          = bind
              (call_completion Trace (scripted_client [])
                 (mkRequest "gpt-3.5-turbo-1106"
                    (([] ++ [ ResponseMessage
                                (mkCompletionMessage None
                                   (Some [ mkToolCall "call_1" "xyz_tool"
                                             "{}" ])) ])
                     ++ messages)
                    None None))
              (fun second_response =>
                 bind (accumulate_usage Trace "gpt-3.5-turbo-1106"
                         (usage second_response))
                   (fun _ =>
                      ret (message_content (first_choice second_response))))
              empty_store [].
Proof.
  assert (Hunknown : ~ In (function_name (mkToolCall "call_1" "xyz_tool" "{}"))
                          known_tool_names).
  { simpl. intros [H|[H|[H|[]]]]; discriminate H. }
  destruct (unknown_tool_error_string Trace loads_examples capability_names
              trace_timer (mkToolCall "call_1" "xyz_tool" "{}") Hunknown)
    as [Hdispatch Hround].
  split; [apply Hdispatch|].
  apply (Hround (scripted_client []) "gpt-3.5-turbo-1106" "hello" None None
           None (recording_web_search (mkSearchResult "found" None))
           (recording_vision "seen") []
           (mkCompletionMessage None
              (Some [ mkToolCall "call_1" "xyz_tool" "{}" ]))
           [ mkToolCall "call_1" "xyz_tool" "{}" ] 0 empty_store empty_store
           [] [] [ HALLUCINATED_TOOL_ERROR ]);
    reflexivity.
Defined.

(** A whole turn whose first completion asks for a tool that does not
    exist: the second request ends with the tool message carrying the
    error string, and the second completion's text is the answer. *)
Example turn_with_hallucinated_tool :
  let call := mkToolCall "call_1" "xyz_tool" "{}" in
  let run :=
    send_to_assistant Trace loads_examples dumps_examples capability_names
      trace_timer
      (scripted_client
         [ mkCompletionResponse (mkCompletionMessage None (Some [ call ]))
             (mkCompletionUsage 60 10 70);
           mkCompletionResponse
             (mkCompletionMessage (Some "Could you rephrase that?") None)
             (mkCompletionUsage 90 6 96) ])
      "do the thing" None None None None None
      (recording_web_search (mkSearchResult "found" None))
      (recording_vision "seen") [] in
  fst run
  = Ok (mkResponse [ ("gpt-3.5-turbo-1106", mkUsage 150 16 166) ]
          [ ASSISTANT_KNOWLEDGE ] (Some "Could you rephrase that?")
          "[1 record]")
  /\ match snd run with
     | [ CompletionCall _; CompletionCall second ] =>
         last (request_messages second) (ToolMessage "" "" "")
         = ToolMessage "call_1" "xyz_tool" HALLUCINATED_TOOL_ERROR
     | _ => False
     end.
Proof. vm_compute. split; reflexivity. Qed.

(* ================================================================== *)
(** * Part III: further properties                                     *)
(* ================================================================== *)

(** ** More on the history pruner *)

Lemma count_role_filter_length (r : Role) (l : list Message) :
  count_role r l = length (filter (has_role r) l).
Proof. reflexivity. Qed.

(** Within the budgets the scan keeps everything. *)
Lemma scan_within (l : list Message) : forall a u,
  count_role ASSISTANT l <= a -> count_role USER l <= u -> scan l a u = l.
Proof.
  unfold count_role.
  induction l as [|m t IH]; intros a u Ha Hu; simpl; auto.
  simpl in Ha, Hu. unfold has_role in Ha at 1, Hu at 1.
  destruct (role m) eqn:R; simpl in Ha, Hu.
  - f_equal. now apply IH.
  - destruct u as [|u']; [lia|]. f_equal. apply IH; lia.
  - destruct a as [|a']; [lia|]. f_equal. apply IH; lia.
  - f_equal. now apply IH.
Qed.

(** The scan of a concatenation: the second part is scanned with what the
    first part left of the budgets. *)
Lemma scan_app (l1 l2 : list Message) : forall a u,
  scan (l1 ++ l2) a u
  = scan l1 a u
    ++ scan l2 (a - count_role ASSISTANT l1) (u - count_role USER l1).
Proof.
  unfold count_role, has_role.
  induction l1 as [|m t IH]; intros a u; simpl.
  - now rewrite !Nat.sub_0_r.
  - destruct (role m) eqn:R; simpl.
    + now rewrite IH.
    + destruct u as [|u']; simpl; rewrite IH; simpl; reflexivity.
    + destruct a as [|a']; simpl; rewrite IH; simpl; reflexivity.
    + now rewrite IH.
Qed.

Lemma count_role_rev (r : Role) (l : list Message) :
  count_role r (rev l) = count_role r l.
Proof. unfold count_role. now rewrite filter_rev', length_rev. Qed.

(** X1. The pruner returns its input unchanged exactly when the input has
    at most 5 user messages and at most 3 assistant messages. *)
Theorem prune_history_noop_iff (message_history : list Message) :
  _prune_history message_history = Some message_history
  <-> count_role USER message_history <= 5
      /\ count_role ASSISTANT message_history <= 3.
Proof.
  rewrite _prune_history_scan. split.
  - intros [= Heq].
    assert (HU : filter (has_role USER) message_history
                 = most_recent 5 (filter (has_role USER) message_history)).
    { rewrite <- Heq at 1.
      rewrite filter_rev', scan_count_user, filter_rev'.
      apply rev_firstn_rev. }
    assert (HA : filter (has_role ASSISTANT) message_history
                 = most_recent 3 (filter (has_role ASSISTANT) message_history)).
    { rewrite <- Heq at 1.
      rewrite filter_rev', scan_count_assistant, filter_rev'.
      apply rev_firstn_rev. }
    unfold count_role. rewrite HU, HA.
    split; apply length_most_recent.
  - intros [Hu Ha]. f_equal.
    rewrite scan_within, rev_involutive; rewrite ?count_role_rev; auto.
Qed.

(** X2. What the pruner keeps of the recent part of a history does not
    depend on the older part: the result for [older ++ newer] is the
    result for [newer] preceded by a selection of [older]. *)
Theorem prune_history_suffix (older newer : list Message) :
  exists kept pruned_newer,
    _prune_history newer = Some pruned_newer
    /\ _prune_history (older ++ newer) = Some (kept ++ pruned_newer)
    /\ Subseq kept older.
Proof.
  exists (rev (scan (rev older)
                 (3 - count_role ASSISTANT (rev newer))
                 (5 - count_role USER (rev newer)))),
         (rev (scan (rev newer) 3 5)).
  split; [apply _prune_history_scan|].
  split.
  - rewrite _prune_history_scan, rev_app_distr, scan_app, rev_app_distr.
    reflexivity.
  - rewrite <- (rev_involutive older) at 2. apply Subseq_rev, scan_Subseq.
Qed.

(** X3. A message of another role than user or assistant at the head of
    the history stays at the head, and the rest is pruned as if it were
    not there; a message at the end of the history is always kept, at the
    end. *)
Theorem prune_history_ends (m : Message) (message_history : list Message) :
  (other_role m = true ->
   exists pruned,
     _prune_history message_history = Some pruned
     /\ _prune_history (m :: message_history) = Some (m :: pruned))
  /\ exists kept,
       _prune_history (message_history ++ [ m ]) = Some (kept ++ [ m ])
       /\ Subseq kept message_history.
Proof.
  split.
  - intros Hother. exists (rev (scan (rev message_history) 3 5)).
    split; [apply _prune_history_scan|].
    rewrite _prune_history_scan. simpl rev. rewrite scan_app, rev_app_distr.
    f_equal.
    unfold other_role, has_role in Hother. simpl.
    destruct (role m); try discriminate Hother; reflexivity.
  - exists (rev (scan (rev message_history)
                   (3 - count_role ASSISTANT [ m ])
                   (5 - count_role USER [ m ]))).
    split.
    + rewrite _prune_history_scan, rev_app_distr.
      change (rev [ m ]) with ([ m ]).
      rewrite (scan_app [ m ] (rev message_history)), rev_app_distr.
      f_equal. f_equal. simpl. destruct (role m); reflexivity.
    + rewrite <- (rev_involutive message_history) at 2.
      apply Subseq_rev, scan_Subseq.
Qed.

(** The head case on a system message followed by one exchange. *)
Lemma prune_history_ends_witness :
  exists pruned,
    _prune_history [ mkMessage USER "hi"; mkMessage ASSISTANT "hello" ]
    = Some pruned
    /\ _prune_history
         [ mkMessage SYSTEM "sys"; mkMessage USER "hi";
           mkMessage ASSISTANT "hello" ]
       = Some (mkMessage SYSTEM "sys" :: pruned).
Proof.
  destruct (prune_history_ends (mkMessage SYSTEM "sys")
              [ mkMessage USER "hi"; mkMessage ASSISTANT "hello" ])
    as [Hhead _].
  apply Hhead. reflexivity.
Defined.

(** ** The history sent with the first request *)

Lemma prune_history_head_other (m : Message) (l : list Message) :
  other_role m = true ->
  _prune_history (m :: l) = Some (m :: rev (scan (rev l) 3 5)).
Proof.
  intros Hother. rewrite _prune_history_scan. simpl rev.
  rewrite scan_app, rev_app_distr. f_equal.
  unfold other_role, has_role in Hother. simpl.
  destruct (role m); try discriminate Hother; reflexivity.
Qed.

Lemma scan_last_kept (m : Message) (l : list Message) :
  rev (scan (rev (l ++ [ m ])) 3 5)
  = rev (scan (rev l) (3 - count_role ASSISTANT [ m ])
           (5 - count_role USER [ m ]))
    ++ [ m ].
Proof.
  rewrite rev_app_distr. change (rev [ m ]) with ([ m ]).
  rewrite (scan_app [ m ] (rev l)), rev_app_distr.
  f_equal. simpl. destruct (role m); reflexivity.
Qed.

(** X4. The history that [send_to_assistant] prepares always exists, has
    at most 5 user and 3 assistant messages, begins with a system message
    (the client's own when the client's history begins with one, the
    default one otherwise) and ends with the user's prompt; what lies
    between is a selection, in order, of the client's other messages. *)
Theorem prepare_history_shape (prompt : string)
    (message_history : option (list Message)) :
  exists history first kept,
    prepare_history prompt message_history = Some history
    /\ history = first :: kept ++ [ mkMessage USER prompt ]
    /\ role first = SYSTEM
    /\ first = match message_history with
               | Some (m :: _) =>
                   if Role_eqb (role m) SYSTEM then m
                   else mkMessage SYSTEM SYSTEM_MESSAGE
               | _ => mkMessage SYSTEM SYSTEM_MESSAGE
               end
    /\ Subseq kept
         match message_history with
         | Some (m :: rest) =>
             if Role_eqb (role m) SYSTEM then rest else m :: rest
         | _ => []
         end
    /\ count_role USER history <= 5
    /\ count_role ASSISTANT history <= 3.
Proof.
  set (first := match message_history with
                | Some (m :: _) =>
                    if Role_eqb (role m) SYSTEM then m
                    else mkMessage SYSTEM SYSTEM_MESSAGE
                | _ => mkMessage SYSTEM SYSTEM_MESSAGE
                end).
  set (body := match message_history with
               | Some (m :: rest) =>
                   if Role_eqb (role m) SYSTEM then rest else m :: rest
               | _ => []
               end).
  assert (Hfirst : role first = SYSTEM).
  { subst first. destruct message_history as [[|m rest]|]; try reflexivity.
    destruct (role m) eqn:R; simpl; auto. }
  assert (Hinput :
            prepare_history prompt message_history
            = _prune_history (first :: body ++ [ mkMessage USER prompt ])).
  { unfold prepare_history. subst first body.
    destruct message_history as [[|m rest]|]; try reflexivity.
    destruct (Role_eqb (role m) SYSTEM); reflexivity. }
  set (kept := rev (scan (rev body)
                      (3 - count_role ASSISTANT [ mkMessage USER prompt ])
                      (5 - count_role USER [ mkMessage USER prompt ]))).
  exists (first :: kept ++ [ mkMessage USER prompt ]), first, kept.
  assert (Hrun : prepare_history prompt message_history
                 = Some (first :: kept ++ [ mkMessage USER prompt ])).
  { rewrite Hinput, prune_history_head_other, scan_last_kept.
    - reflexivity.
    - unfold other_role, has_role. now rewrite Hfirst. }
  split; [exact Hrun|].
  split; [reflexivity|].
  split; [exact Hfirst|].
  split; [reflexivity|].
  split.
  { subst kept. rewrite <- (rev_involutive body) at 2.
    apply Subseq_rev, scan_Subseq. }
  rewrite Hinput, _prune_history_scan in Hrun. injection Hrun as Hrun.
  rewrite <- Hrun. unfold count_role.
  rewrite !filter_rev', scan_count_user, scan_count_assistant, !length_rev,
    !length_firstn.
  split; apply Nat.le_min_l.
Qed.

(** ** More on the context formatter *)

Lemma dict_set_fresh {V} (k : string) (v : V) (d : dict V) :
  ~ In k (dict_keys d) -> dict_set k v d = d ++ [ (k, v) ].
Proof.
  induction d as [|[k' v'] t IH]; simpl; intros Hnot; [reflexivity|].
  destruct (String.eqb_spec k' k); [tauto | f_equal; apply IH; tauto].
Qed.

Lemma dict_keys_set_same {V} (k : string) (v : V) (d : dict V) :
  In k (dict_keys d) -> dict_keys (dict_set k v d) = dict_keys d.
Proof.
  induction d as [|[k' v'] t IH]; simpl; [tauto|].
  intros Hin. destruct (String.eqb_spec k' k) as [->|Hne]; [reflexivity|].
  simpl. f_equal. apply IH. destruct Hin; [contradiction | assumption].
Qed.

Lemma dict_set_NoDup {V} (k : string) (v : V) (d : dict V) :
  NoDup (dict_keys d) -> NoDup (dict_keys (dict_set k v d)).
Proof.
  intros Hnd. destruct (in_dec string_dec k (dict_keys d)) as [Hin|Hnot].
  - now rewrite dict_keys_set_same.
  - rewrite dict_set_fresh by assumption. unfold dict_keys.
    rewrite map_app. simpl. apply NoDup_app; [assumption | repeat constructor; intros [] |].
    intros x Hx [<-|[]]. contradiction.
Qed.

Lemma dict_update_NoDup {V} (e d : dict V) :
  NoDup (dict_keys d) -> NoDup (dict_keys (dict_update d e)).
Proof.
  unfold dict_update. revert d.
  induction e as [|[k v] t IH]; intros d Hnd; simpl; auto.
  apply IH. now apply dict_set_NoDup.
Qed.

(** Entries under new, distinct keys are appended in their order. *)
Lemma dict_update_fresh {V} (e : dict V) : forall d,
  NoDup (dict_keys e) ->
  (forall k, In k (dict_keys e) -> ~ In k (dict_keys d)) ->
  dict_update d e = d ++ e.
Proof.
  unfold dict_update.
  induction e as [|[k v] t IH]; intros d Hnd Hfresh; simpl.
  - now rewrite app_nil_r.
  - inversion Hnd as [|? ? Hnotin Hnd']; subst.
    rewrite dict_set_fresh by (apply Hfresh; simpl; auto).
    rewrite IH; [now rewrite <- app_assoc | assumption |].
    intros k' Hin. unfold dict_keys. rewrite map_app, in_app_iff. simpl.
    intros [H|[H|[]]]; [apply (Hfresh k'); simpl; auto | congruence].
Qed.

Lemma dict_get_update_present {V} (k : string) (v : V) (e : dict V) :
  forall d,
    NoDup (dict_keys e) -> dict_get k e = Some v ->
    dict_get k (dict_update d e) = Some v.
Proof.
  induction e as [|[k0 v0] t IH]; intros d Hnd; simpl; [discriminate|].
  inversion Hnd as [|? ? Hnotin Hnd']; subst.
  destruct (String.eqb_spec k0 k) as [->|Hne].
  - intros [= ->].
    change (dict_get k (dict_update (dict_set k v d) t) = Some v).
    rewrite dict_get_update_absent by assumption. apply dict_get_set_same.
  - intros Hget. apply (IH (dict_set k0 v0 d) Hnd' Hget).
Qed.

Lemma context_items_app (d e : dict (option string)) :
  context_items (d ++ e) = context_items d ++ context_items e.
Proof.
  induction d as [|[k [v|]] t IH]; simpl; auto. now rewrite IH.
Qed.

Lemma context_items_keys (k : string) (d : dict (option string)) :
  In k (dict_keys (context_items d)) -> In k (dict_keys d).
Proof.
  induction d as [|[k' [v|]] t IH]; simpl; auto. intros [H|H]; auto.
Qed.

(** In a dictionary with distinct keys, the tag of a key carries the
    key's value, and there is no tag for a [None] value. *)
Lemma dict_get_context_items_NoDup (k : string) (d : dict (option string)) :
  NoDup (dict_keys d) ->
  dict_get k (context_items d)
  = match dict_get k d with Some v => v | None => None end.
Proof.
  induction d as [|[k' [v|]] t IH]; simpl; intros Hnd; auto;
    inversion Hnd as [|? ? Hnotin Hnd']; subst.
  - destruct (String.eqb k' k); auto.
  - destruct (String.eqb_spec k' k) as [->|]; auto.
    apply dict_get_absent. intros Hin. apply Hnotin.
    now apply context_items_keys.
Qed.

(** X5. For a learned context with distinct keys, none of them
    ["current_time"] or ["location"], the block is the prefix followed by
    the two fixed tags and then one tag per learned entry whose value is
    not [None], in the learned context's order, joined by newlines. *)
Theorem context_block_learned_appended (local_time location : option string)
    (learned_context : LearnedContext) :
  NoDup (dict_keys learned_context) ->
  ~ In "current_time" (dict_keys learned_context) ->
  ~ In "location" (dict_keys learned_context) ->
  _create_context_system_message local_time location (Some learned_context)
  = (CONTEXT_SYSTEM_MESSAGE_PREFIX
     +:+ String.concat nl
           (tag ("current_time", fixed_current_time local_time)
            :: tag ("location", fixed_location location)
            :: map tag (context_items learned_context)))%string.
Proof.
  intros Hnd Htime Hlocation.
  unfold _create_context_system_message, merged_context.
  change (dict_set "location" (Some (fixed_location location))
            (dict_set "current_time" (Some (fixed_current_time local_time))
               []))
    with [ ("current_time", Some (fixed_current_time local_time));
           ("location", Some (fixed_location location)) ].
  rewrite dict_update_fresh; [reflexivity | assumption |].
  intros k Hin [<-|[<-|[]]]; contradiction.
Qed.

Lemma context_block_learned_appended_witness :
  _create_context_system_message (Some "09:00") None
    (Some [ ("UserName", Some "Ada"); ("DOB", None); ("Food", Some "tea") ])
  = ("## Additional context about the user:<current_time>09:00</current_time>"
     +:+ nl +:+ "<location>" +:+ LOCATION_DISCLAIMER +:+ "</location>"
     +:+ nl +:+ "<UserName>Ada</UserName>"
     +:+ nl +:+ "<Food>tea</Food>")%string.
Proof.
  eapply eq_trans.
  - apply (context_block_learned_appended (Some "09:00") None
             [ ("UserName", Some "Ada"); ("DOB", None); ("Food", Some "tea") ]).
    + repeat constructor; simpl; intuition discriminate.
    + simpl. intuition discriminate.
    + simpl. intuition discriminate.
  - reflexivity.
Defined.



(** ** Learned context extraction *)

(** The backwards loop, stopped at two messages, collects the first
    missing ones of the reversed user messages. *)
Lemma collect_user_messages_firstn (message_history : list Message) :
  forall (remaining : nat) (messages : list Message),
    remaining <= length message_history ->
    collect_user_messages message_history remaining messages
    = messages
      ++ firstn (2 - length messages)
           (filter (has_role USER) (rev (firstn remaining message_history))).
Proof.
  induction remaining as [|i IH]; intros messages Hle.
  - simpl. rewrite firstn_nil. now rewrite app_nil_r.
  - cbn [collect_user_messages].
    destruct (Nat.leb_spec 2 (length messages)) as [Hfull|Hroom].
    { replace (2 - length messages) with 0 by lia. simpl.
      now rewrite app_nil_r. }
    destruct (nth_error message_history i) as [m|] eqn:Hnth.
    + assert (Hfirstn : firstn (S i) message_history
                        = firstn i message_history ++ [ m ]).
      { clear - Hnth. revert i Hnth.
        induction message_history as [|x t IHl]; intros [|i] Hnth;
          simpl in *; try discriminate.
        - now injection Hnth as ->.
        - f_equal. now apply IHl. }
      rewrite Hfirstn, rev_app_distr. cbn [rev app filter].
      rewrite IH by lia. unfold has_role at 2.
      destruct (Role_eqb (role m) USER); [|reflexivity].
      rewrite <- app_assoc, length_app. cbn [length].
      remember (length messages) as n eqn:Hn.
      destruct n as [|[|n]]; [reflexivity | reflexivity | lia].
    + apply nth_error_None in Hnth. lia.
Qed.

(** X7. The messages sent for the extraction are the extraction system
    message followed by the last two user messages of the history (all of
    them if there are fewer), in their original order. *)
Theorem extraction_messages_last_two (message_history : list Message) :
  extraction_messages message_history
  = mkMessage SYSTEM LEARNED_CONTEXT_EXTRACTION_SYSTEM_MESSAGE
    :: most_recent 2 (filter (has_role USER) message_history).
Proof.
  unfold extraction_messages.
  rewrite collect_user_messages_firstn by lia.
  rewrite firstn_all, rev_app_distr. cbn [rev app length].
  f_equal. rewrite filter_rev'.
  change (2 - 0) with 2. apply rev_firstn_rev.
Qed.

Lemma split_char_length (c : ascii) (s : string) :
  length (split_char c s) = S (count_char c s).
Proof.
  induction s as [|a t IH]; simpl; [reflexivity|].
  destruct (Ascii.eqb a c); simpl; [now rewrite IH|].
  destruct (split_char c t); simpl in *; [discriminate | assumption].
Qed.

Lemma split_char_parts (c : ascii) (s : string) :
  Forall (fun part => count_char c part = 0) (split_char c s).
Proof.
  induction s as [|a t IH]; simpl; [repeat constructor|].
  destruct (Ascii.eqb a c) eqn:E; [constructor; auto|].
  destruct (split_char c t) as [|head rest]; [repeat constructor; simpl; now rewrite E|].
  inversion IH; subst. constructor; [simpl; rewrite E; assumption | assumption].
Qed.

(** Splitting [key=value] at the only separator gives back the two. *)
Lemma split_char_join (c : ascii) (key value : string) :
  count_char c key = 0 -> count_char c value = 0 ->
  split_char c (key +:+ String c value) = [ key; value ].
Proof.
  intros Hkey Hvalue.
  assert (Hone : forall s, count_char c s = 0 -> split_char c s = [ s ]).
  { induction s as [|a t IH]; simpl; [reflexivity|].
    destruct (Ascii.eqb a c); [discriminate|].
    intros H. now rewrite IH. }
  induction key as [|a t IH]; simpl in *.
  - rewrite Ascii.eqb_refl. now rewrite Hone.
  - destruct (Ascii.eqb a c); [discriminate|]. now rewrite IH.
Qed.

Lemma learned_key_closed (key : string) :
  dict_mem key LEARNED_CONTEXT_KEY_DESCRIPTIONS = true ->
  In key [ "UserName"; "DOB"; "Food" ].
Proof.
  unfold dict_mem, LEARNED_CONTEXT_KEY_DESCRIPTIONS. simpl.
  destruct (String.eqb_spec "UserName" key); [auto|].
  destruct (String.eqb_spec "DOB" key); [auto|].
  destruct (String.eqb_spec "Food" key); [auto 6 | discriminate].
Qed.

(** What every learned context built by the parser satisfies. *)
Lemma parse_learned_context_invariant (lines : list string) :
  forall (learned_context : LearnedContext),
    (NoDup (dict_keys learned_context)
     /\ (forall k, In k (dict_keys learned_context) ->
                   In k [ "UserName"; "DOB"; "Food" ])
     /\ (forall k v, dict_get k learned_context = Some v ->
                     exists s, v = Some s /\ count_char "="%char s = 0)) ->
    let parsed := fold_left parse_learned_line lines learned_context in
    NoDup (dict_keys parsed)
    /\ (forall k, In k (dict_keys parsed) -> In k [ "UserName"; "DOB"; "Food" ])
    /\ (forall k v, dict_get k parsed = Some v ->
                    exists s, v = Some s /\ count_char "="%char s = 0).
Proof.
  induction lines as [|line lines IH]; intros lc Hinv; [exact Hinv|].
  simpl. apply IH. destruct Hinv as (Hnd & Hkeys & Hvalues).
  unfold parse_learned_line.
  pose proof (split_char_parts "="%char line) as Hparts.
  destruct (split_char "="%char line) as [|key [|value [|]]];
    try (repeat split; assumption).
  destruct (dict_mem key LEARNED_CONTEXT_KEY_DESCRIPTIONS) eqn:Hmem;
    [|repeat split; assumption].
  split; [now apply dict_set_NoDup|]. split.
  - intros k Hin. apply dict_keys_set in Hin.
    destruct Hin as [->|Hin]; [now apply learned_key_closed | auto].
  - intros k v. rewrite dict_get_set.
    destruct (String.eqb key k); [|apply Hvalues].
    intros [= <-]. exists value. split; [reflexivity|].
    inversion Hparts as [|? ? _ Hrest]; subst.
    now inversion Hrest.
Qed.


(** X9. A line counts only if it holds exactly one ["="]: any other line
    (["END"], a value that itself contains ["="]) leaves the learned
    context as it is; a line [key=value] with a key of the closed set and
    no other ["="] sets that key to the value; and with a key outside the
    closed set it changes nothing. *)
Theorem parse_learned_line_format (learned_context : LearnedContext)
    (line key value : string) :
  (count_char "="%char line <> 1 ->
   parse_learned_line learned_context line = learned_context)
  /\ (count_char "="%char key = 0 -> count_char "="%char value = 0 ->
      parse_learned_line learned_context (key +:+ "=" +:+ value)
      = if dict_mem key LEARNED_CONTEXT_KEY_DESCRIPTIONS
        then dict_set key (Some value) learned_context
        else learned_context).
Proof.
  split.
  - intros Hcount. unfold parse_learned_line.
    pose proof (split_char_length "="%char line) as Hlen.
    destruct (split_char "="%char line) as [|a [|b [|]]]; try reflexivity.
    simpl in Hlen. lia.
  - intros Hkey Hvalue. unfold parse_learned_line.
    change (key +:+ "=" +:+ value)%string
      with (key +:+ String "="%char value)%string.
    now rewrite split_char_join.
Qed.

Lemma parse_learned_line_format_witness :
  parse_learned_line [ ("Food", Some "tea") ] "Food=a=b"
  = [ ("Food", Some "tea") ]
  /\ parse_learned_line [ ("Food", Some "tea") ] "UserName=Ada"
     = [ ("Food", Some "tea"); ("UserName", Some "Ada") ].
Proof.
  destruct (parse_learned_line_format [ ("Food", Some "tea") ] "Food=a=b"
              "UserName" "Ada") as [Hignored Hset].
  split.
  - apply Hignored. simpl. discriminate.
  - apply Hset; reflexivity.
Defined.

(** ** More on the tool argument sanitizer *)

Lemma well_typed_plain (function_parameters : dict ParamSpec)
    (kv : string * Value) :
  supported_schema function_parameters = true ->
  well_typed function_parameters kv = true ->
  plain_value (snd kv) = true.
Proof.
  intros Hschema. unfold well_typed.
  destruct (dict_get (fst kv) function_parameters) as [spec|] eqn:Hspec;
    [|discriminate].
  pose proof (supported_schema_type _ _ _ Hschema Hspec) as Hty.
  destruct (param_type spec =? "string")%string.
  - destruct (snd kv); simpl; congruence.
  - simpl in Hty. rewrite Hty. destruct (snd kv); simpl; congruence.
Qed.

Lemma declared_parameters_photo :
  declared_parameters PHOTO_TOOL_NAME
  = Some [ (QUERY_PARAM_NAME,
            mkParam "string"
              "User's query to answer, describing what they want answered, expressed as a command that NEVER refers to the photo or image itself");
           (PHOTO_TOOL_WEB_SEARCH_PARAM_NAME,
            mkParam "boolean"
              "True ONLY if user wants to look up facts about contents of photo online (simply identifying what is in the photo does not count), otherwise always false");
           (PHOTO_TOOL_TRANSLATION_PARAM_NAME,
            mkParam "boolean"
              "Translation of something in user's view required") ].
Proof. reflexivity. Qed.

Section SanitizerMore.

Variable json_loads : string -> option Value.

(** The keyword arguments built for the photo tool always bind, and to
    what: the validated query and flags, and the caller's own values. *)
Lemma photo_arguments_prepared (tool_call : ToolCall) (user_message : string)
    (image_bytes : option bytes) (location local_time : option string)
    (learned_context : option LearnedContext) (supplied : dict Value) :
  function_name tool_call = PHOTO_TOOL_NAME ->
  match json_loads (function_arguments tool_call) with
  | Some v => v
  | None => VDict []
  end = VDict supplied ->
  NoDup (dict_keys supplied) ->
  exists function_args,
    prepare_tool_arguments json_loads tool_call user_message image_bytes
      location local_time learned_context = Ok function_args
    /\ (forall k l, dict_get k function_args <> Some (VList l))
    /\ photo_arguments function_args
       = Some (mkPhoto
                 (match dict_get QUERY_PARAM_NAME supplied with
                  | Some (VStr q) => q
                  | _ => user_message
                  end)
                 (match dict_get PHOTO_TOOL_WEB_SEARCH_PARAM_NAME supplied with
                  | Some (VBool b) => b
                  | _ => false
                  end)
                 (match dict_get PHOTO_TOOL_TRANSLATION_PARAM_NAME supplied with
                  | Some (VBool b) => b
                  | _ => false
                  end)
                 image_bytes local_time (Some (location_or_unknown location))
                 learned_context).
Proof.
  intros Hname Hparsed Hnd.
  pose proof declared_parameters_photo as Hdecl. rewrite <- Hname in Hdecl.
  destruct (declared_parameters_cases _ _ Hdecl) as (_ & Hschema & _).
  eexists. split.
  { apply (prepare_tool_arguments_closed json_loads _ _ _ _ _ _ _ supplied
             Hdecl Hparsed Hnd). }
  set (schema := [ (QUERY_PARAM_NAME, _); _; _ ]) in *.
  set (validated := filter (well_typed schema) supplied).
  assert (Hvalidated : forall k,
             dict_get k validated
             = match dict_get k supplied with
               | Some v => if well_typed schema (k, v) then Some v else None
               | None => None
               end)
    by (intros k; now apply dict_get_filter).
  assert (Hplain : forall k v, dict_get k validated = Some v ->
                               plain_value v = true).
  { intros k v Hget. apply dict_get_In in Hget.
    apply filter_In in Hget. destruct Hget as [_ Hwt].
    exact (well_typed_plain schema (k, v) Hschema Hwt). }
  rewrite Hname. unfold with_injected, inject_photo_arguments.
  rewrite String.eqb_refl.
  split.
  - intros k l. repeat rewrite dict_get_set.
    repeat match goal with
           | |- context [String.eqb ?a k] => destruct (String.eqb a k)
           end;
      try (destruct image_bytes; discriminate);
      try (destruct local_time; discriminate);
      try (destruct learned_context; discriminate);
      try discriminate.
    + destruct (dict_get QUERY_PARAM_NAME validated) as [v|] eqn:Hq;
        [|discriminate].
      intros [= ->]. apply Hplain in Hq. discriminate.
    + intros Hget. apply Hplain in Hget. discriminate.
  - unfold photo_arguments.
    repeat (rewrite dict_get_set; simpl).
    rewrite !Hvalidated.
    unfold QUERY_PARAM_NAME, PHOTO_TOOL_WEB_SEARCH_PARAM_NAME,
      PHOTO_TOOL_TRANSLATION_PARAM_NAME, well_typed, schema; simpl.
    destruct (dict_get "query" supplied) as [[]|];
      destruct (dict_get "google_reverse_image_search" supplied) as [[]|];
      destruct (dict_get "translate" supplied) as [[]|];
      destruct image_bytes; destruct local_time; destruct learned_context;
      reflexivity.
Qed.

(** X10. For the photo tool, when the payload is unparsable or parses to
    an object, the keyword arguments the sanitizer builds always bind to
    the tool's parameters: the query is the supplied string or else the
    user's utterance, each flag is the supplied boolean or else [False],
    and image, local time and learned context are the caller's values,
    whatever the payload says; the location is never [None]:
    ["unknown"] stands for an absent or empty one. *)
Theorem photo_tool_keyword_arguments (tool_call : ToolCall)
    (user_message : string) (image_bytes : option bytes)
    (location local_time : option string)
    (learned_context : option LearnedContext) (supplied : dict Value) :
  function_name tool_call = PHOTO_TOOL_NAME ->
  match json_loads (function_arguments tool_call) with
  | Some v => v
  | None => VDict []
  end = VDict supplied ->
  NoDup (dict_keys supplied) ->
  exists function_args,
    prepare_tool_arguments json_loads tool_call user_message image_bytes
      location local_time learned_context = Ok function_args
    /\ photo_arguments function_args
       = Some (mkPhoto
                 (match dict_get QUERY_PARAM_NAME supplied with
                  | Some (VStr q) => q
                  | _ => user_message
                  end)
                 (match dict_get PHOTO_TOOL_WEB_SEARCH_PARAM_NAME supplied with
                  | Some (VBool b) => b
                  | _ => false
                  end)
                 (match dict_get PHOTO_TOOL_TRANSLATION_PARAM_NAME supplied with
                  | Some (VBool b) => b
                  | _ => false
                  end)
                 image_bytes local_time (Some (location_or_unknown location))
                 learned_context).
Proof.
  intros Hname Hparsed Hnd.
  destruct (photo_arguments_prepared tool_call user_message image_bytes
              location local_time learned_context supplied Hname Hparsed Hnd)
    as (function_args & Hprep & _ & Hbind).
  eauto.
Qed.

End SanitizerMore.

(** ** Debug records *)

Lemma dict_del_keys_incl {V} (k k0 : string) (d : dict V) :
  In k (dict_keys (dict_del k0 d)) -> In k (dict_keys d).
Proof.
  induction d as [|[k' v'] t IH]; simpl; auto.
  destruct (String.eqb k' k0); simpl; intuition.
Qed.

Lemma dict_del_NoDup {V} (k0 : string) (d : dict V) :
  NoDup (dict_keys d) -> NoDup (dict_keys (dict_del k0 d)).
Proof.
  induction d as [|[k' v'] t IH]; simpl; auto.
  intros Hnd. inversion Hnd as [|? ? Hnotin Hnd']; subst.
  destruct (String.eqb k' k0); [assumption|].
  simpl. constructor; [|auto].
  intros Hin. apply Hnotin. eapply dict_del_keys_incl; eauto.
Qed.

Lemma dict_get_del {V} (k k0 : string) (d : dict V) :
  NoDup (dict_keys d) ->
  dict_get k (dict_del k0 d)
  = if String.eqb k0 k then None else dict_get k d.
Proof.
  intros Hnd. destruct (String.eqb_spec k0 k) as [->|Hne];
    [|now apply dict_get_del_other].
  induction d as [|[k' v'] t IH]; simpl; auto.
  inversion Hnd as [|? ? Hnotin Hnd']; subst.
  destruct (String.eqb_spec k' k) as [->|Hne].
  - now apply dict_get_absent.
  - simpl. destruct (String.eqb_spec k' k); [contradiction | auto].
Qed.

Lemma dict_del_absent {V} (k0 : string) (d : dict V) :
  ~ In k0 (dict_keys d) -> dict_del k0 d = d.
Proof.
  induction d as [|[k' v'] t IH]; simpl; auto.
  intros Hnot. destruct (String.eqb_spec k' k0); [tauto|].
  f_equal. apply IH. tauto.
Qed.

Section DebugRecords.

Variable World : Type.
Variable capability_value : Capability -> string.

Lemma sanitize_debug_args_keys (capabilities : list Capability)
    (function_args : dict Value) :
  forall cleaned,
    sanitize_debug_args capability_value capabilities function_args
    = Ok cleaned ->
    dict_keys cleaned = dict_keys function_args.
Proof.
  induction function_args as [|[k v] t IH]; intros cleaned; simpl.
  - now intros [= <-].
  - destruct (sanitize_debug_value capability_value capabilities v);
      [|discriminate].
    destruct (sanitize_debug_args capability_value capabilities t);
      [|discriminate].
    intros [= <-]. simpl. f_equal. now apply IH.
Qed.

(** Each value of the cleaned arguments is the loop's image of the value
    under the same key. *)
Lemma sanitize_debug_args_get (capabilities : list Capability) (k : string)
    (function_args : dict Value) :
  forall cleaned,
    sanitize_debug_args capability_value capabilities function_args
    = Ok cleaned ->
    match dict_get k function_args with
    | Some v =>
        exists v',
          sanitize_debug_value capability_value capabilities v = Ok v'
          /\ dict_get k cleaned = Some v'
    | None => dict_get k cleaned = None
    end.
Proof.
  induction function_args as [|[k' v] t IH]; intros cleaned; simpl.
  - now intros [= <-].
  - destruct (sanitize_debug_value capability_value capabilities v)
      as [v'|] eqn:Hv; [|discriminate].
    destruct (sanitize_debug_args capability_value capabilities t)
      as [t'|]; [|discriminate].
    intros [= <-]. simpl.
    destruct (String.eqb k' k); [eauto | now apply IH].
Qed.

Lemma sanitize_debug_value_no_bytes (capabilities : list Capability)
    (v v' : Value) :
  sanitize_debug_value capability_value capabilities v = Ok v' ->
  forall b, v' <> VBytes b.
Proof.
  destruct v; simpl; try (intros [= <-]; discriminate).
  destruct (forallb is_str l); [intros [= <-]|]; discriminate.
Qed.

Lemma sanitize_debug_value_plain (capabilities : list Capability) (v : Value) :
  plain_value v = true ->
  sanitize_debug_value capability_value capabilities v = Ok v.
Proof. destruct v; simpl; try discriminate; reflexivity. Qed.

(** Without list values among the arguments the loop raises nothing. *)
Lemma sanitize_debug_args_total (capabilities : list Capability)
    (function_args : dict Value) :
  (forall k l, ~ In (k, VList l) function_args) ->
  exists cleaned,
    sanitize_debug_args capability_value capabilities function_args
    = Ok cleaned.
Proof.
  induction function_args as [|[k v] t IH]; intros Hlist; simpl; eauto.
  destruct IH as [t' Ht'].
  { intros k' l Hin. apply (Hlist k' l). now right. }
  rewrite Ht'.
  destruct v; simpl; eauto.
  exfalso. apply (Hlist k l). now left.
Qed.

(** X11. The debug record of a tool call never carries binary data or a
    service handle: for arguments with distinct keys, the record built
    has no key [vision], [web_search], [token_usage_by_model] or
    [prompt], none of its values is a byte string (each one is replaced
    by ["<bytes>"]), every other plain argument is kept as it is, and
    the search result is recorded only when it is a non-empty string;
    building the record changes neither the store nor the world. *)
Theorem debug_record_redacted (function_name : string)
    (function_args : dict Value) (tool_time : Z)
    (search_result : option string) (st st' : Store) (w w' : World)
    (record : DebugRecord) :
  NoDup (dict_keys function_args) ->
  create_debug_tool_info_object World capability_value function_name
    function_args tool_time search_result st w
  = (Ok record, st', w') ->
  st' = st /\ w' = w
  /\ exists tool_args,
       record = ToolRecord function_name tool_args tool_time
                  (if truthy search_result then search_result else None)
       /\ (forall k, In k stripped_debug_keys -> dict_get k tool_args = None)
       /\ (forall k v, dict_get k tool_args = Some v ->
                       forall b, v <> VBytes b)
       /\ (forall k b, ~ In k stripped_debug_keys ->
                       dict_get k function_args = Some (VBytes b) ->
                       dict_get k tool_args = Some (VStr "<bytes>"))
       /\ (forall k v, ~ In k stripped_debug_keys ->
                       dict_get k function_args = Some v ->
                       plain_value v = true ->
                       dict_get k tool_args = Some v).
Proof.
  intros Hnd. unfold create_debug_tool_info_object.
  destruct (sanitize_debug_args capability_value (capabilities_used st)
              function_args) as [cleaned|] eqn:Hclean; [|discriminate].
  intros [= <- <- <-]. split; [reflexivity|]. split; [reflexivity|].
  eexists. split; [reflexivity|].
  assert (Hnd' : NoDup (dict_keys cleaned))
    by (now rewrite (sanitize_debug_args_keys _ _ _ Hclean)).
  assert (Hget : forall k,
             dict_get k
               (dict_del "prompt"
                  (dict_del "token_usage_by_model"
                     (dict_del "web_search" (dict_del "vision" cleaned))))
             = if existsb (String.eqb k) stripped_debug_keys then None
               else dict_get k cleaned).
  { intros k.
    rewrite !dict_get_del by (repeat apply dict_del_NoDup; assumption).
    unfold stripped_debug_keys. simpl.
    rewrite (String.eqb_sym k "vision"), (String.eqb_sym k "web_search"),
      (String.eqb_sym k "token_usage_by_model"), (String.eqb_sym k "prompt").
    destruct (String.eqb "prompt" k), (String.eqb "token_usage_by_model" k),
      (String.eqb "web_search" k), (String.eqb "vision" k); reflexivity. }
  assert (Hnot : forall k, ~ In k stripped_debug_keys ->
                           existsb (String.eqb k) stripped_debug_keys = false).
  { intros k Hk. destruct (existsb _ _) eqn:E; [|reflexivity].
    apply existsb_exists in E. destruct E as (x & Hx & Heq).
    apply String.eqb_eq in Heq. subst x. contradiction. }
  split; [|split; [|split]].
  - intros k Hin. rewrite Hget.
    replace (existsb (String.eqb k) stripped_debug_keys) with true;
      [reflexivity|].
    symmetry. apply existsb_exists. exists k. split; [assumption|].
    apply String.eqb_refl.
  - intros k v. rewrite Hget.
    destruct (existsb _ _); [discriminate|].
    intros Hk. pose proof (sanitize_debug_args_get _ k _ _ Hclean) as Himage.
    destruct (dict_get k function_args) as [v0|]; [|congruence].
    destruct Himage as (v' & Hv' & Hk'). rewrite Hk' in Hk.
    injection Hk as <-. eapply sanitize_debug_value_no_bytes; eauto.
  - intros k b Hk Hargs. rewrite Hget, (Hnot k Hk).
    pose proof (sanitize_debug_args_get _ k _ _ Hclean) as Himage.
    rewrite Hargs in Himage. destruct Himage as (v' & Hv' & Hk').
    simpl in Hv'. congruence.
  - intros k v Hk Hargs Hplain. rewrite Hget, (Hnot k Hk).
    pose proof (sanitize_debug_args_get _ k _ _ Hclean) as Himage.
    rewrite Hargs in Himage. destruct Himage as (v' & Hv' & Hk').
    rewrite sanitize_debug_value_plain in Hv' by assumption. congruence.
Qed.

End DebugRecords.

(** The record of a photo tool call with an image and both handles. *)
Lemma debug_record_redacted_witness :
  exists tool_args,
    create_debug_tool_info_object Trace capability_names PHOTO_TOOL_NAME
      [ ("query", VStr "what is this"); ("image_bytes", VBytes [ Byte.x01 ]);
        ("vision", VVision); ("web_search", VWebSearch) ]
      12 None empty_store []
    = (Ok (ToolRecord PHOTO_TOOL_NAME tool_args 12 None), empty_store, [])
    /\ dict_get "vision" tool_args = None
    /\ dict_get "image_bytes" tool_args = Some (VStr "<bytes>")
    /\ dict_get "query" tool_args = Some (VStr "what is this").
Proof.
  destruct (debug_record_redacted Trace capability_names PHOTO_TOOL_NAME
              [ ("query", VStr "what is this");
                ("image_bytes", VBytes [ Byte.x01 ]);
                ("vision", VVision); ("web_search", VWebSearch) ]
              12 None empty_store empty_store [] []
              (ToolRecord PHOTO_TOOL_NAME
                 [ ("query", VStr "what is this");
                   ("image_bytes", VStr "<bytes>") ] 12 None))
    as (_ & _ & tool_args & Hrecord & Hstripped & _ & Hbytes & Hplain).
  - repeat constructor; simpl; intuition discriminate.
  - reflexivity.
  - exists tool_args.
    split; [simpl in Hrecord; injection Hrecord as <-; reflexivity|].
    split; [apply Hstripped; simpl; auto|].
    split.
    + apply (Hbytes "image_bytes" [ Byte.x01 ]); [|reflexivity].
      simpl. intuition discriminate.
    + apply Hplain; [|reflexivity|reflexivity].
      simpl. intuition discriminate.
Defined.

(** ** The dispatcher on catalogued tools *)

Lemma NoDup_filter_keys {V} (f : string * V -> bool) (d : dict V) :
  NoDup (dict_keys d) -> NoDup (dict_keys (filter f d)).
Proof.
  induction d as [|[k v] t IH]; simpl; auto.
  intros Hnd. inversion Hnd as [|? ? Hnotin Hnd']; subst.
  destruct (f (k, v)); simpl; auto.
  constructor; auto. intros Hin. apply Hnotin.
  apply dict_keys_filter in Hin. destruct Hin as (v' & Hin & _).
  apply (in_map fst) in Hin. exact Hin.
Qed.

Lemma with_injected_NoDup (name user_message : string)
    (image_bytes : option bytes) (location local_time : option string)
    (learned_context : option LearnedContext) (args : dict Value) :
  NoDup (dict_keys args) ->
  NoDup (dict_keys
           (with_injected name user_message image_bytes location local_time
              learned_context args)).
Proof.
  intros Hnd. unfold with_injected, inject_photo_arguments.
  destruct (name =? PHOTO_TOOL_NAME)%string;
    repeat apply dict_set_NoDup; assumption.
Qed.

Lemma dict_In_get {V} (k : string) (v : V) (d : dict V) :
  NoDup (dict_keys d) -> In (k, v) d -> dict_get k d = Some v.
Proof.
  induction d as [|[k' v'] t IH]; simpl; [tauto|].
  intros Hnd. inversion Hnd as [|? ? Hnotin Hnd']; subst.
  intros [[= -> ->]|Hin].
  - now rewrite String.eqb_refl.
  - destruct (String.eqb_spec k' k) as [->|]; [|auto].
    exfalso. apply Hnotin. apply (in_map fst) in Hin. exact Hin.
Qed.

Lemma Forall_dict_set {V} (P : string * V -> Prop) (k : string) (v : V)
    (d : dict V) :
  (forall k', P (k', v)) -> Forall P d -> Forall P (dict_set k v d).
Proof.
  intros Hv. induction d as [|[k' v'] t IH]; simpl; intros Hall.
  - repeat constructor. apply Hv.
  - inversion Hall; subst.
    destruct (String.eqb k' k); constructor; auto.
Qed.

Lemma declared_parameters_non_photo (name : string)
    (function_parameters : dict ParamSpec) :
  declared_parameters name = Some function_parameters ->
  name <> PHOTO_TOOL_NAME ->
  function_parameters = [ (QUERY_PARAM_NAME, mkParam "string" "search query") ].
Proof.
  unfold declared_parameters, TOOLS, DUMMY_SEARCH_TOOL_NAME, SEARCH_TOOL_NAME,
    PHOTO_TOOL_NAME; simpl.
  destruct (String.eqb_spec "general_knowledge_search" name);
    [now intros [= <-]|].
  destruct (String.eqb_spec "search" name); [now intros [= <-]|].
  destruct (String.eqb_spec "analyze_photo" name); [congruence|discriminate].
Qed.

Section DispatcherMore.

Variable World : Type.
Variable json_loads : string -> option Value.
Variable json_dumps : list DebugRecord -> string.
Variable capability_value : Capability -> string.
Variable default_timer : World -> Z.

Lemma sanitize_debug_args_plain (capabilities : list Capability)
    (function_args : dict Value) :
  Forall (fun kv => plain_value (snd kv) = true) function_args ->
  sanitize_debug_args capability_value capabilities function_args
  = Ok function_args.
Proof.
  induction function_args as [|[k v] t IH]; [reflexivity|].
  intros Hall. inversion Hall as [|? ? Hv Ht]; subst. simpl in *.
  rewrite sanitize_debug_value_plain by assumption.
  now rewrite IH.
Qed.

(** The arguments built for the search tool and for the general
    knowledge tool: two strings, which the debug record shows as they
    are. *)
Lemma non_photo_arguments_prepared (tool_call : ToolCall)
    (user_message : string) (image_bytes : option bytes)
    (location local_time : option string)
    (learned_context : option LearnedContext)
    (function_parameters : dict ParamSpec) (supplied : dict Value) :
  declared_parameters (function_name tool_call) = Some function_parameters ->
  function_name tool_call <> PHOTO_TOOL_NAME ->
  match json_loads (function_arguments tool_call) with
  | Some v => v
  | None => VDict []
  end = VDict supplied ->
  NoDup (dict_keys supplied) ->
  exists function_args,
    prepare_tool_arguments json_loads tool_call user_message image_bytes
      location local_time learned_context = Ok function_args
    /\ dict_get QUERY_PARAM_NAME function_args
       = Some (VStr (match dict_get QUERY_PARAM_NAME supplied with
                     | Some (VStr q) => q
                     | _ => user_message
                     end))
    /\ dict_get "location" function_args
       = Some (VStr (location_or_unknown location))
    /\ forall (function_name : string) (tool_time : Z)
              (search_result : option string) (st : Store) (w : World),
         create_debug_tool_info_object World capability_value function_name
           function_args tool_time search_result st w
         = (Ok (ToolRecord function_name function_args tool_time
                  (if truthy search_result then search_result else None)),
            st, w).
Proof.
  intros Hdecl Hname Hparsed Hnd.
  pose proof (declared_parameters_non_photo _ _ Hdecl Hname) as ->.
  destruct (declared_parameters_cases _ _ Hdecl) as (_ & Hschema & _).
  set (schema := [ (QUERY_PARAM_NAME, mkParam "string" "search query") ]) in *.
  set (validated := filter (well_typed schema) supplied).
  assert (Hquery : dict_get QUERY_PARAM_NAME validated
                   = match dict_get QUERY_PARAM_NAME supplied with
                     | Some (VStr q) => Some (VStr q)
                     | _ => None
                     end).
  { unfold validated. rewrite dict_get_filter by assumption.
    destruct (dict_get QUERY_PARAM_NAME supplied) as [[]|]; reflexivity. }
  assert (Hkeys : forall k, In k (dict_keys validated) -> k = QUERY_PARAM_NAME).
  { intros k Hin. apply dict_keys_filter in Hin.
    destruct Hin as (v & _ & Hwt). unfold well_typed, schema in Hwt.
    simpl in Hwt. destruct (String.eqb_spec QUERY_PARAM_NAME k);
      [congruence | discriminate]. }
  assert (Hplain : Forall (fun kv => plain_value (snd kv) = true) validated).
  { apply Forall_forall. intros kv Hin. apply filter_In in Hin.
    exact (well_typed_plain schema kv Hschema (proj2 Hin)). }
  eexists. split.
  { apply (prepare_tool_arguments_closed json_loads _ _ _ _ _ _ _ supplied
             Hdecl Hparsed Hnd). }
  fold validated.
  split.
  { rewrite with_injected_query, Hquery.
    destruct (dict_get QUERY_PARAM_NAME supplied) as [[]|]; reflexivity. }
  split; [apply with_injected_location|].
  intros name tool_time search_result st w.
  unfold create_debug_tool_info_object.
  set (function_args := with_injected _ _ _ _ _ _ validated).
  assert (Hargs_plain :
            Forall (fun kv => plain_value (snd kv) = true) function_args).
  { subst function_args. unfold with_injected.
    destruct (String.eqb_spec (function_name tool_call) PHOTO_TOOL_NAME);
      [contradiction|].
    apply Forall_dict_set.
    - intros k'. cbn [snd].
      destruct (dict_get QUERY_PARAM_NAME
                  (dict_set "location" (VStr (location_or_unknown location))
                     validated)) as [v|] eqn:Hv; [|reflexivity].
      apply dict_get_In in Hv.
      assert (Hall : Forall (fun kv => plain_value (snd kv) = true)
                       (dict_set "location"
                          (VStr (location_or_unknown location)) validated))
        by (apply Forall_dict_set; [reflexivity | assumption]).
      rewrite Forall_forall in Hall. exact (Hall _ Hv).
    - apply Forall_dict_set; [reflexivity | assumption]. }
  clear Hplain.
  assert (Hclean : forall capabilities,
             sanitize_debug_args capability_value capabilities function_args
             = Ok function_args).
  { intros capabilities. now apply sanitize_debug_args_plain. }
  assert (Hnot : forall k, In k stripped_debug_keys ->
                           ~ In k (dict_keys function_args)).
  { intros k Hk Hin. subst function_args.
    apply with_injected_keys in Hin. unfold injected_keys in Hin.
    destruct (String.eqb_spec (function_name tool_call) PHOTO_TOOL_NAME);
      [contradiction|].
    destruct Hin as [[<-|[]]|[->|Hin]];
      [| |apply Hkeys in Hin; subst k];
      simpl in Hk; intuition discriminate. }
  rewrite Hclean.
  rewrite (dict_del_absent "vision") by (apply Hnot; simpl; auto).
  rewrite (dict_del_absent "web_search") by (apply Hnot; simpl; auto).
  rewrite (dict_del_absent "token_usage_by_model")
    by (apply Hnot; simpl; auto).
  rewrite (dict_del_absent "prompt") by (apply Hnot; simpl; auto 6).
  reflexivity.
Qed.

(** X12. The dispatcher on the web search tool, for a payload that is
    unparsable or parses to an object: the search backend is called once,
    with the supplied string query (the user's utterance if there is
    none) and the location (["unknown"] if absent), without photo.  If
    it answers, the dispatcher returns the result's summary, records
    [WEB_SEARCH] and appends one debug record carrying the tool name, the
    arguments, the elapsed time and the provider metadata when not empty;
    if it raises, the exception goes through and the store is as
    before. *)
Theorem dispatch_web_search (tool_call : ToolCall) (user_message : string)
    (image_bytes : option bytes) (location local_time : option string)
    (web_search : WebSearch World) (vision : Vision World)
    (learned_context : option LearnedContext) (supplied : dict Value)
    (st : Store) (w w' : World) (outcome : result WebSearchResult) :
  function_name tool_call = SEARCH_TOOL_NAME ->
  match json_loads (function_arguments tool_call) with
  | Some v => v
  | None => VDict []
  end = VDict supplied ->
  NoDup (dict_keys supplied) ->
  search_web web_search
    (mkSearch
       (match dict_get QUERY_PARAM_NAME supplied with
        | Some (VStr q) => q
        | _ => user_message
        end)
       None None (Some (location_or_unknown location))) w
  = (outcome, w') ->
  exists function_args,
    prepare_tool_arguments json_loads tool_call user_message image_bytes
      location local_time learned_context = Ok function_args
    /\ handle_tool World json_loads capability_value default_timer tool_call
         user_message image_bytes location local_time web_search vision
         learned_context st w
       = match outcome with
         | Ok found =>
             (Ok (summary found),
              mkStore (token_usage_by_model st)
                (capabilities_used st ++ [ WEB_SEARCH ])
                (tools_used st
                 ++ [ ToolRecord SEARCH_TOOL_NAME function_args
                        (default_timer w' - default_timer w)
                        (if truthy (search_provider_metadata found)
                         then search_provider_metadata found
                         else None) ]),
              w')
         | Raise e => (Raise e, st, w')
         end.
Proof.
  intros Hname Hparsed Hnd Hsearch.
  assert (Hdecl : declared_parameters (function_name tool_call)
                  = Some [ (QUERY_PARAM_NAME, mkParam "string" "search query") ])
    by (rewrite Hname; reflexivity).
  destruct (non_photo_arguments_prepared tool_call user_message image_bytes
              location local_time learned_context _ supplied Hdecl)
    as (function_args & Hprep & Hquery & Hlocation & Hdebug);
    [rewrite Hname; discriminate | assumption | assumption |].
  exists function_args. split; [exact Hprep|].
  unfold handle_tool. rewrite Hname.
  change (tool_functions World vision web_search SEARCH_TOOL_NAME)
    with (Some (search_web_kwargs World web_search)).
  cbv beta iota. rewrite Hprep.
  unfold bind at 1. unfold lift_result, ret at 1.
  unfold bind at 1. unfold read_timer at 1.
  unfold bind at 1. unfold search_web_kwargs.
  rewrite Hquery, Hlocation.
  unfold bind at 1. unfold call_search_web. rewrite Hsearch.
  destruct outcome as [found|e]; [|reflexivity].
  unfold ret at 1.
  unfold bind at 1. unfold read_timer at 1.
  change (SEARCH_TOOL_NAME =? SEARCH_TOOL_NAME)%string with true.
  unfold bind at 1. unfold append_capability at 1.
  unfold bind at 1. rewrite Hdebug.
  reflexivity.
Qed.


End DispatcherMore.

Section DispatcherEdges.

Variable World : Type.
Variable json_loads : string -> option Value.
Variable json_dumps : list DebugRecord -> string.
Variable capability_value : Capability -> string.
Variable default_timer : World -> Z.


(** X15. A payload that parses, but not to an object, aborts the turn:
    for a catalogued tool the sanitizer raises [AttributeError], the
    dispatcher lets it through before any backend call or append, and a
    tool round made of such a call ends there, without the second
    completion request. *)
Theorem non_object_payload_aborts (tool_call : ToolCall) (parsed : Value) :
  In (function_name tool_call) known_tool_names ->
  json_loads (function_arguments tool_call) = Some parsed ->
  (forall d, parsed <> VDict d) ->
  (forall user_message image_bytes location local_time learned_context,
      prepare_tool_arguments json_loads tool_call user_message image_bytes
        location local_time learned_context
      = Raise AttributeError)
  /\ (forall user_message image_bytes location local_time
             (web_search : WebSearch World) (vision : Vision World)
             learned_context st w,
         handle_tool World json_loads capability_value default_timer
           tool_call user_message image_bytes location local_time web_search
           vision learned_context st w
         = (Raise AttributeError, st, w))
  /\ (forall (client : Client World) model prompt image_bytes
             location_address local_time (web_search : WebSearch World)
             (vision : Vision World) message_history first_response_message
             st w,
         tool_round World json_loads capability_value default_timer client
           model prompt image_bytes location_address local_time web_search
           vision message_history first_response_message [ tool_call ]
           st w
         = (Raise AttributeError, st, w)).
Proof.
  intros Hknown Hparse Hshape.
  assert (Hprep : forall user_message image_bytes location local_time
                         learned_context,
             prepare_tool_arguments json_loads tool_call user_message
               image_bytes location local_time learned_context
             = Raise AttributeError).
  { intros. unfold prepare_tool_arguments. rewrite Hparse.
    assert (Hfound : exists description others,
               filter (fun description =>
                         (tool_name description =? function_name tool_call)%string)
                      TOOLS
               = description :: others).
    { unfold known_tool_names in Hknown. simpl in Hknown.
      destruct Hknown as [<-|[<-|[<-|[]]]]; simpl; eauto. }
    destruct Hfound as (description & others & ->).
    destruct parsed; try reflexivity.
    exfalso. eapply Hshape; reflexivity. }
  assert (Htable : forall (vision : Vision World) (web_search : WebSearch World),
             exists function_to_call,
               tool_functions World vision web_search (function_name tool_call)
               = Some function_to_call).
  { intros. unfold known_tool_names in Hknown. simpl in Hknown.
    destruct Hknown as [<-|[<-|[<-|[]]]]; eexists; reflexivity. }
  assert (Hdispatch : forall user_message image_bytes location local_time
                             (web_search : WebSearch World)
                             (vision : Vision World) learned_context st w,
             handle_tool World json_loads capability_value default_timer
               tool_call user_message image_bytes location local_time
               web_search vision learned_context st w
             = (Raise AttributeError, st, w)).
  { intros. unfold handle_tool.
    destruct (Htable vision web_search) as [function_to_call ->].
    rewrite Hprep. reflexivity. }
  split; [exact Hprep|]. split; [exact Hdispatch|].
  intros. unfold tool_round. unfold bind at 1.
  cbn [gather_tools]. unfold bind at 1. rewrite Hdispatch. reflexivity.
Qed.

(** X16. Whatever the flags and the backends' answers, the photo tool
    never touches [tools_used]; with an image it records exactly one
    capability, before calling any backend ([REVERSE_IMAGE_SEARCH] when
    reverse image search is asked without translation, [VISION]
    otherwise); without an image it records none, returns the no-photo
    error and leaves store and world as they were. *)
Theorem photo_tool_capability (query : string) (vision : Vision World)
    (web_search : WebSearch World)
    (google_reverse_image_search translate : bool)
    (image_bytes : option bytes) (local_time location : option string)
    (learned_context : option LearnedContext) (st : Store) (w : World) :
  match handle_photo_tool World query vision web_search
          google_reverse_image_search translate image_bytes local_time
          location learned_context st w with
  | (r, st', w') =>
      tools_used st' = tools_used st
      /\ match image_bytes with
         | Some (_ :: _) =>
             capabilities_used st'
             = capabilities_used st
               ++ [ if google_reverse_image_search && negb translate
                    then REVERSE_IMAGE_SEARCH
                    else VISION ]
         | _ => r = Ok (Text NO_PHOTO_ERROR) /\ st' = st /\ w' = w
         end
  end.
Proof.
  destruct image_bytes as [[|b rest]|]; try (simpl; auto; fail).
  unfold handle_photo_tool. cbn [length Nat.eqb].
  destruct (google_reverse_image_search && negb translate).
  - unfold bind, append_capability, call_query_image, call_search_web, ret.
    cbn [token_usage_by_model capabilities_used tools_used].
    destruct (query_image vision _ query (b :: rest) (token_usage_by_model st) w)
      as [[[text|e] usage'] w1]; [|split; reflexivity].
    destruct (search_web web_search _ w1) as [[found|e] w2];
      split; reflexivity.
  - unfold bind, append_capability, call_query_image, ret.
    cbn [token_usage_by_model capabilities_used tools_used].
    destruct (query_image vision _ query (b :: rest) (token_usage_by_model st) w)
      as [[[text|e] usage'] w1]; split; reflexivity.
Qed.

End DispatcherEdges.

(** ** The whole turn *)

Lemma tool_messages_combine (calls : list ToolCall) :
  forall (outputs : list string),
    length outputs = length calls ->
    tool_messages calls outputs
    = Ok (map tool_message_for (combine calls outputs)).
Proof.
  induction calls as [|c calls IH]; intros [|o outputs] Hlen;
    try discriminate Hlen; [reflexivity|].
  simpl in *. rewrite IH by lia. reflexivity.
Qed.

Lemma known_call_table {World} (vision : Vision World)
    (web_search : WebSearch World) (tool_call : ToolCall) :
  match tool_functions World vision web_search (function_name tool_call) with
  | Some _ =>
      known_call tool_call = true
      /\ In (function_name tool_call) known_tool_names
  | None => known_call tool_call = false
  end.
Proof.
  unfold tool_functions, known_call, known_tool_names. simpl.
  destruct (String.eqb_spec (function_name tool_call) SEARCH_TOOL_NAME);
    [auto|].
  destruct (String.eqb_spec (function_name tool_call) PHOTO_TOOL_NAME);
    [auto|].
  destruct (String.eqb_spec (function_name tool_call) DUMMY_SEARCH_TOOL_NAME);
    [auto 6|reflexivity].
Qed.

Section TurnMore.

Variable World : Type.
Variable json_loads : string -> option Value.
Variable json_dumps : list DebugRecord -> string.
Variable capability_value : Capability -> string.
Variable default_timer : World -> Z.

(** What one dispatch adds to [tools_used]: one record of the tool when
    the call is in the table and the dispatch returns, nothing
    otherwise. *)
Lemma handle_tool_records (tool_call : ToolCall) (user_message : string)
    (image_bytes : option bytes) (location local_time : option string)
    (web_search : WebSearch World) (vision : Vision World)
    (learned_context : option LearnedContext) (st st' : Store) (w w' : World)
    (r : result string) :
  handle_tool World json_loads capability_value default_timer tool_call
    user_message image_bytes location local_time web_search vision
    learned_context st w
  = (r, st', w') ->
  exists records,
    tools_used st' = tools_used st ++ records
    /\ Forall (tool_record_of known_tool_names) records
    /\ match r with
       | Ok _ => length records = if known_call tool_call then 1 else 0
       | Raise _ => records = []
       end.
Proof.
  unfold handle_tool.
  pose proof (known_call_table vision web_search tool_call) as Htable.
  destruct (tool_functions World vision web_search (function_name tool_call))
    as [function_to_call|] eqn:Hfun.
  2:{ intros [= <- <- <-]. exists []. rewrite app_nil_r, Htable.
      repeat split; constructor. }
  destruct Htable as [Hknown Hin]. rewrite Hknown.
  unfold bind, lift_result, ret, raise, read_timer.
  destruct (prepare_tool_arguments json_loads tool_call user_message
              image_bytes location local_time learned_context)
    as [function_args|e].
  2:{ intros [= <- <- <-]. exists []. rewrite app_nil_r.
      repeat split; constructor. }
  destruct (function_to_call function_args st w)
    as [[[function_response|e] st1] w1] eqn:Hcall;
    pose proof (same_tools_used_tool_functions World vision web_search _ _
                  function_args Hfun _ _ _ _ _ Hcall) as Hsame.
  2:{ intros [= <- <- <-]. exists []. rewrite app_nil_r.
      repeat split; [assumption | constructor]. }
  set (recorded :=
         if (function_name tool_call =? SEARCH_TOOL_NAME)%string
         then append_capability World WEB_SEARCH
         else if (function_name tool_call =? DUMMY_SEARCH_TOOL_NAME)%string
              then append_capability World ASSISTANT_KNOWLEDGE
              else fun st w => (Ok tt, st, w)).
  assert (Hrecorded : exists st2,
             recorded st1 w1 = (Ok tt, st2, w1)
             /\ tools_used st2 = tools_used st1).
  { subst recorded.
    destruct (function_name tool_call =? SEARCH_TOOL_NAME)%string;
      [eexists; split; reflexivity|].
    destruct (function_name tool_call =? DUMMY_SEARCH_TOOL_NAME)%string;
      eexists; split; reflexivity. }
  destruct Hrecorded as (st2 & -> & Hst2).
  unfold create_debug_tool_info_object, append_tool_used.
  destruct (sanitize_debug_args capability_value (capabilities_used st2)
              function_args) as [cleaned|e].
  - intros [= <- <- <-]. eexists. simpl tools_used.
    rewrite Hst2, Hsame. split; [reflexivity|].
    split; [|reflexivity].
    constructor; [exact Hin | constructor].
  - intros [= <- <- <-]. exists []. rewrite app_nil_r, Hst2.
    repeat split; [assumption | constructor].
Qed.

(** What the fan-out adds to [tools_used]. *)
Lemma gather_tools_records (prompt : string) (image_bytes : option bytes)
    (location_address local_time : option string)
    (web_search : WebSearch World) (vision : Vision World)
    (learned_context : option LearnedContext) (calls : list ToolCall) :
  forall (st st' : Store) (w w' : World) (r : result (list string)),
    gather_tools World json_loads capability_value default_timer calls
      prompt image_bytes location_address local_time web_search vision
      learned_context st w
    = (r, st', w') ->
    exists records,
      tools_used st' = tools_used st ++ records
      /\ Forall (tool_record_of known_tool_names) records
      /\ match r with
         | Ok _ => length records = length (filter known_call calls)
         | Raise _ => True
         end.
Proof.
  induction calls as [|c calls IH]; intros st st' w w' r Hrun.
  - simpl in Hrun. injection Hrun as <- <- <-. exists [].
    rewrite app_nil_r. repeat split; constructor.
  - simpl in Hrun. unfold bind at 1 in Hrun.
    destruct (handle_tool World json_loads capability_value default_timer c
                prompt image_bytes location_address local_time web_search
                vision learned_context st w)
      as [[[out|e] st1] w1] eqn:Hc;
      destruct (handle_tool_records _ _ _ _ _ _ _ _ _ _ _ _ _ Hc)
        as (records1 & Htools1 & Hall1 & Hcount1).
    2:{ injection Hrun as <- <- <-. exists records1. auto. }
    unfold bind at 1 in Hrun.
    destruct (gather_tools World json_loads capability_value default_timer
                calls prompt image_bytes location_address local_time
                web_search vision learned_context st1 w1)
      as [[[outs|e] st2] w2] eqn:Hrest;
      destruct (IH _ _ _ _ _ Hrest) as (records2 & Htools2 & Hall2 & Hcount2);
      injection Hrun as <- <- <-;
      exists (records1 ++ records2);
      (split; [rewrite Htools2, Htools1; now rewrite app_assoc|]);
      (split; [now apply Forall_app|]); [|exact I].
    rewrite length_app, Hcount1, Hcount2. simpl.
    destruct (known_call c); reflexivity.
Qed.

(** X17. When the fan-out of a tool round completes, the round goes on
    to the second completion request, whose messages are the history so
    far, the first response's message and then one tool message per
    requested call, in the order of the calls, each with its call's id
    and name and that call's output. *)
Theorem tool_round_messages_in_order (client : Client World)
    (model prompt : string) (image_bytes : option bytes)
    (location_address local_time : option string)
    (web_search : WebSearch World) (vision : Vision World)
    (message_history : list HistoryEntry)
    (first_response_message : CompletionMessage) (calls : list ToolCall)
    (st st' : Store) (w w' : World) (outputs : list string) :
  gather_tools World json_loads capability_value default_timer calls prompt
    image_bytes location_address local_time web_search vision
    (Some turn_learned_context) st w
  = (Ok outputs, st', w') ->
  length outputs = length calls
  /\ tool_round World json_loads capability_value default_timer client model
       prompt image_bytes location_address local_time web_search vision
       message_history first_response_message calls st w
     = bind
         (call_completion World client
            (mkRequest model
               ((message_history ++ [ ResponseMessage first_response_message ])
                ++ map tool_message_for (combine calls outputs))
               None None))
         (fun second_response =>
            bind (accumulate_usage World model (usage second_response))
              (fun _ => ret (message_content (first_choice second_response))))
         st' w'.
Proof.
  intros Hrun.
  destruct (gather_tools_outputs World json_loads capability_value
              default_timer _ _ _ _ _ _ _ _ _ _ _ _ _ Hrun) as [Hlen _].
  split; [exact Hlen|].
  unfold tool_round. unfold bind at 1. rewrite Hrun.
  unfold bind at 1. rewrite tool_messages_combine by assumption.
  reflexivity.
Qed.

End TurnMore.

Section TurnOutcome.

Variable World : Type.
Variable json_loads : string -> option Value.
Variable json_dumps : list DebugRecord -> string.
Variable capability_value : Capability -> string.
Variable default_timer : World -> Z.

(** What a turn that returns, run from the first completion response on
    with an empty [tools_used], puts in its response. *)
Lemma after_first_completion_outcome (client : Client World)
    (model prompt : string) (image_bytes : option bytes)
    (location_address local_time : option string)
    (web_search : WebSearch World) (vision : Vision World)
    (message_history : list HistoryEntry)
    (first_response : CompletionResponse) (st st' : Store) (w w' : World)
    (answer : AssistantResponse) :
  tools_used st = [] ->
  after_first_completion World json_loads json_dumps capability_value
    default_timer client model prompt image_bytes location_address
    local_time web_search vision message_history first_response st w
  = (Ok answer, st', w') ->
  response_capabilities_used answer <> []
  /\ exists records,
       debug_tools answer = json_dumps (ContextRecord [] :: records)
       /\ Forall (tool_record_of known_tool_names) records
       /\ length records
          = length (filter known_call
                      (requested_calls (first_choice first_response))).
Proof.
  intros Hempty. unfold after_first_completion.
  unfold bind at 1, accumulate_usage.
  unfold bind at 1, append_tool_used. simpl tools_used. rewrite Hempty.
  simpl app.
  set (st2 := mkStore _ _ [ContextRecord turn_learned_context]).
  set (middle := match tool_calls (first_choice first_response) with
                 | Some (tool_call :: rest) => _
                 | _ => _
                 end).
  assert (Hmiddle : forall final st3 w3,
             middle st2 w = (Ok final, st3, w3) ->
             exists records,
               tools_used st3 = ContextRecord [] :: records
               /\ Forall (tool_record_of known_tool_names) records
               /\ length records
                  = length (filter known_call
                              (requested_calls (first_choice first_response)))).
  { subst middle. unfold requested_calls.
    destruct (tool_calls (first_choice first_response)) as [[|c calls]|];
      try (intros final st3 w3 [= _ <- _]; exists [];
           repeat split; constructor).
    intros final st3 w3. unfold tool_round. unfold bind at 1.
    destruct (gather_tools World json_loads capability_value default_timer
                (c :: calls) prompt image_bytes location_address local_time
                web_search vision (Some turn_learned_context) st2 w)
      as [[[outputs|e] st4] w4] eqn:Hgather; [|discriminate].
    destruct (gather_tools_records World json_loads capability_value
                default_timer _ _ _ _ _ _ _ _ _ _ _ _ _ Hgather)
      as (records & Htools & Hall & Hcount).
    unfold bind, lift_result, ret, raise, call_completion, accumulate_usage.
    destruct (tool_messages (c :: calls) outputs); [|discriminate].
    destruct (chat_completions_create client _ w4) as [[second|e] w5];
      [|discriminate].
    intros [= _ <- _]. exists records. simpl tools_used.
    rewrite Htools. repeat split; assumption. }
  unfold bind.
  destruct (middle st2 w) as [[[final|e] st3] w3] eqn:Hrun; [|discriminate].
  destruct (Hmiddle _ _ _ eq_refl) as (records & Htools & Hall & Hcount).
  intros [= <- _ _]. simpl. split.
  - destruct (length (capabilities_used st3) =? 0) eqn:Hlen.
    + intros Heq. apply app_eq_nil in Heq. destruct Heq as [_ Heq].
      discriminate Heq.
    + intros Heq. rewrite Heq in Hlen. discriminate Hlen.
  - exists records. rewrite Htools. auto.
Qed.

(** X18. Every turn that returns a response lists at least one
    capability in it. *)
Theorem turn_lists_a_capability (client : Client World) (prompt : string)
    (image_bytes : option bytes) (message_history : option (list Message))
    (location_address local_time model : option string)
    (web_search : WebSearch World) (vision : Vision World) (w w' : World)
    (answer : AssistantResponse) :
  send_to_assistant World json_loads json_dumps capability_value
    default_timer client prompt image_bytes message_history location_address
    local_time model web_search vision w
  = (Ok answer, w') ->
  response_capabilities_used answer <> [].
Proof.
  unfold send_to_assistant.
  destruct (prepare_history prompt message_history) as [history|];
    [|discriminate].
  unfold bind at 1. unfold call_completion.
  destruct (chat_completions_create client _ w) as [[first_response|e] w1];
    [|discriminate].
  destruct (after_first_completion _ _ _ _ _ _ _ _ _ _ _ _ _ _ _ _ _)
    as [[r st'] w''] eqn:Hafter.
  intros [= -> ->].
  now destruct (after_first_completion_outcome _ _ _ _ _ _ _ _ _ _ _ _ _ _
                  _ (eq_refl : tools_used empty_store = []) Hafter).
Qed.

(** X19. The debug trace serialized by a turn that returns opens with the
    record of the (empty) learned context and then holds records of
    catalogued tools only, one for each tool call of the first response
    whose name is in the dispatcher's table; a call under any other name
    leaves no record. *)
Theorem turn_debug_trace (client : Client World) (prompt : string)
    (image_bytes : option bytes) (message_history : option (list Message))
    (location_address local_time model : option string)
    (web_search : WebSearch World) (vision : Vision World) (w w1 w' : World)
    (history : list Message) (first_response : CompletionResponse)
    (answer : AssistantResponse) :
  prepare_history prompt message_history = Some history ->
  chat_completions_create client
    (first_request (model_or_default model) history location_address
       local_time) w
  = (Ok first_response, w1) ->
  send_to_assistant World json_loads json_dumps capability_value
    default_timer client prompt image_bytes message_history location_address
    local_time model web_search vision w
  = (Ok answer, w') ->
  exists records,
    debug_tools answer = json_dumps (ContextRecord [] :: records)
    /\ Forall (tool_record_of known_tool_names) records
    /\ length records
       = length (filter known_call
                   (requested_calls (first_choice first_response))).
Proof.
  intros Hhistory Hfirst. unfold send_to_assistant. rewrite Hhistory.
  unfold bind at 1. unfold call_completion. rewrite Hfirst.
  destruct (after_first_completion _ _ _ _ _ _ _ _ _ _ _ _ _ _ _ _ _)
    as [[r st'] w''] eqn:Hafter.
  intros [= -> ->].
  now destruct (after_first_completion_outcome _ _ _ _ _ _ _ _ _ _ _ _ _ _
                  _ (eq_refl : tools_used empty_store = []) Hafter).
Qed.

(** X20. Called by the dispatcher, that is for a name of its table, the
    sanitizer always finds the tool's description and never meets an
    unsupported parameter type: with payload objects of distinct keys,
    the only exception it raises is [AttributeError], and only for a
    payload that parses to something else than an object. *)
Theorem dispatched_sanitizer_failure (tool_call : ToolCall)
    (user_message : string) (image_bytes : option bytes)
    (location local_time : option string)
    (learned_context : option LearnedContext) (e : Exception) :
  In (function_name tool_call) known_tool_names ->
  (forall d, json_loads (function_arguments tool_call) = Some (VDict d) ->
             NoDup (dict_keys d)) ->
  prepare_tool_arguments json_loads tool_call user_message image_bytes
    location local_time learned_context
  = Raise e ->
  e = AttributeError
  /\ exists parsed,
       json_loads (function_arguments tool_call) = Some parsed
       /\ forall d, parsed <> VDict d.
Proof.
  intros Hknown Hkeys Hraise.
  assert (Hdecl : exists function_parameters,
             declared_parameters (function_name tool_call)
             = Some function_parameters).
  { unfold known_tool_names in Hknown. simpl in Hknown.
    destruct Hknown as [<-|[<-|[<-|[]]]]; eexists; reflexivity. }
  destruct Hdecl as [function_parameters Hdecl].
  destruct (json_loads (function_arguments tool_call)) as [parsed|] eqn:Hparse.
  - destruct parsed;
      try (split;
           [|eexists; split; [reflexivity | discriminate]];
           unfold prepare_tool_arguments, declared_parameters in *;
           rewrite Hparse in Hraise;
           destruct (filter _ TOOLS); [discriminate Hdecl|];
           congruence).
    rewrite (prepare_tool_arguments_closed json_loads _ _ _ _ _ _
               function_parameters d Hdecl) in Hraise;
      [discriminate | now rewrite Hparse | now apply Hkeys].
  - rewrite (prepare_tool_arguments_closed json_loads _ _ _ _ _ _
               function_parameters [] Hdecl) in Hraise;
      [discriminate | now rewrite Hparse | constructor].
Qed.

End TurnOutcome.

(** ** Runs of the further properties in the recording world *)

(** The photo tool called with [{"translate": "true"}]: the flag is not a
    boolean and falls back to [False]. *)
Lemma photo_tool_keyword_arguments_witness :
  exists function_args,
    prepare_tool_arguments loads_examples
      (mkToolCall "call_1" PHOTO_TOOL_NAME translate_payload)
      "what does it say" (Some [ Byte.x01 ]) None (Some "09:00") (Some [])
    = Ok function_args
    /\ photo_arguments function_args
       = Some (mkPhoto "what does it say" false false (Some [ Byte.x01 ])
                 (Some "09:00") (Some "unknown") (Some [])).
Proof.
  apply (photo_tool_keyword_arguments loads_examples
           (mkToolCall "call_1" PHOTO_TOOL_NAME translate_payload)
           "what does it say" (Some [ Byte.x01 ]) None (Some "09:00")
           (Some []) [ ("translate", VStr "true") ]).
  - reflexivity.
  - reflexivity.
  - repeat constructor; simpl; intuition.
Defined.

(** Scenario B at the dispatcher: one web search. *)
Lemma dispatch_web_search_witness :
  exists function_args,
    prepare_tool_arguments loads_examples
      (mkToolCall "call_1" SEARCH_TOOL_NAME weather_payload)
      "what is the weather" None None None None
    = Ok function_args
    /\ handle_tool Trace loads_examples capability_names trace_timer
         (mkToolCall "call_1" SEARCH_TOOL_NAME weather_payload)
         "what is the weather" None None None
         (recording_web_search (mkSearchResult "Sunny, 21 degrees" (Some "serp")))
         (recording_vision "seen") None empty_store []
       = (Ok "Sunny, 21 degrees",
          mkStore [] [ WEB_SEARCH ]
            [ ToolRecord SEARCH_TOOL_NAME function_args 1 (Some "serp") ],
          [ SearchCall
              (mkSearch "weather in Paris" None None (Some "unknown")) ]).
Proof.
  apply (dispatch_web_search Trace loads_examples capability_names
           trace_timer
           (mkToolCall "call_1" SEARCH_TOOL_NAME weather_payload)
           "what is the weather" None None None
           (recording_web_search
              (mkSearchResult "Sunny, 21 degrees" (Some "serp")))
           (recording_vision "seen") None
           [ ("query", VStr "weather in Paris"); ("foo", VStr "bar") ]
           empty_store []
           [ SearchCall
               (mkSearch "weather in Paris" None None (Some "unknown")) ]
           (Ok (mkSearchResult "Sunny, 21 degrees" (Some "serp")))).
  - reflexivity.
  - reflexivity.
  - repeat constructor; simpl; intuition discriminate.
  - reflexivity.
Defined.



(** The payload [[]] for the web search tool. *)
Lemma non_object_payload_aborts_witness :
  handle_tool Trace loads_examples capability_names trace_timer
    (mkToolCall "call_1" SEARCH_TOOL_NAME "[]") "what is the weather" None
    None None (recording_web_search (mkSearchResult "found" None))
    (recording_vision "seen") None empty_store []
  = (Raise AttributeError, empty_store, []).
Proof.
  destruct (non_object_payload_aborts Trace loads_examples capability_names
              trace_timer (mkToolCall "call_1" SEARCH_TOOL_NAME "[]")
              (VList []))
    as (_ & Hdispatch & _).
  - simpl. auto.
  - reflexivity.
  - discriminate.
  - apply Hdispatch.
Defined.

Lemma dispatched_sanitizer_failure_witness :
  prepare_tool_arguments loads_examples
    (mkToolCall "call_1" SEARCH_TOOL_NAME "[]") "what is the weather" None
    None None None
  = Raise AttributeError
  /\ exists parsed,
       loads_examples "[]" = Some parsed /\ forall d, parsed <> VDict d.
Proof.
  destruct (dispatched_sanitizer_failure loads_examples
              (mkToolCall "call_1" SEARCH_TOOL_NAME "[]")
              "what is the weather" None None None None AttributeError)
    as [_ Hparsed].
  - simpl. auto.
  - intros d. discriminate.
  - reflexivity.
  - split; [reflexivity | exact Hparsed].
Defined.

Lemma tool_round_messages_in_order_witness :
  tool_round Trace loads_examples capability_names trace_timer
    (scripted_client []) "gpt-3.5-turbo-1106" "hello" None None None
    (recording_web_search (mkSearchResult "found" None))
    (recording_vision "seen") []
    (mkCompletionMessage None
       (Some [ mkToolCall "call_1" "xyz_tool" "{}";
               mkToolCall "call_2" DUMMY_SEARCH_TOOL_NAME "{}" ]))
    [ mkToolCall "call_1" "xyz_tool" "{}";
      mkToolCall "call_2" DUMMY_SEARCH_TOOL_NAME "{}" ]
    empty_store []
  = bind
      (call_completion Trace (scripted_client [])
         (mkRequest "gpt-3.5-turbo-1106"
            [ ResponseMessage
                (mkCompletionMessage None
                   (Some [ mkToolCall "call_1" "xyz_tool" "{}";
                           mkToolCall "call_2" DUMMY_SEARCH_TOOL_NAME "{}" ]));
              ToolMessage "call_1" "xyz_tool" HALLUCINATED_TOOL_ERROR;
              ToolMessage "call_2" DUMMY_SEARCH_TOOL_NAME "" ]
            None None))
      (fun second_response =>
         bind (accumulate_usage Trace "gpt-3.5-turbo-1106"
                 (usage second_response))
           (fun _ => ret (message_content (first_choice second_response))))
      (mkStore [] [ ASSISTANT_KNOWLEDGE ]
         [ ToolRecord DUMMY_SEARCH_TOOL_NAME
             [ ("location", VStr "unknown"); ("query", VStr "hello") ] 0
             None ])
      [].
Proof.
  destruct (tool_round_messages_in_order Trace loads_examples
              capability_names trace_timer (scripted_client [])
              "gpt-3.5-turbo-1106" "hello" None None None
              (recording_web_search (mkSearchResult "found" None))
              (recording_vision "seen") []
              (mkCompletionMessage None
                 (Some [ mkToolCall "call_1" "xyz_tool" "{}";
                         mkToolCall "call_2" DUMMY_SEARCH_TOOL_NAME "{}" ]))
              [ mkToolCall "call_1" "xyz_tool" "{}";
                mkToolCall "call_2" DUMMY_SEARCH_TOOL_NAME "{}" ]
              empty_store
              (mkStore [] [ ASSISTANT_KNOWLEDGE ]
                 [ ToolRecord DUMMY_SEARCH_TOOL_NAME
                     [ ("location", VStr "unknown"); ("query", VStr "hello") ]
                     0 None ])
              [] [] [ HALLUCINATED_TOOL_ERROR; "" ])
    as [_ Hround].
  - reflexivity.
  - exact Hround.
Defined.

(** Scenario B as a whole turn. *)
Lemma turn_lists_a_capability_witness :
  exists answer w',
    send_to_assistant Trace loads_examples dumps_examples capability_names
      trace_timer (scripted_client weather_script) "what is the weather" None
      None None None None
      (recording_web_search (mkSearchResult "Sunny, 21 degrees" None))
      (recording_vision "seen") []
    = (Ok answer, w')
    /\ response answer = Some "It is sunny."
    /\ response_capabilities_used answer <> [].
Proof.
  destruct (send_to_assistant Trace loads_examples dumps_examples
              capability_names trace_timer (scripted_client weather_script)
              "what is the weather" None None None None None
              (recording_web_search (mkSearchResult "Sunny, 21 degrees" None))
              (recording_vision "seen") [])
    as [[answer|e] w'] eqn:Hrun; [|vm_compute in Hrun; discriminate Hrun].
  exists answer, w'. split; [reflexivity|]. split.
  - vm_compute in Hrun. now injection Hrun as <- _.
  - exact (turn_lists_a_capability Trace loads_examples dumps_examples
             capability_names trace_timer _ _ _ _ _ _ _ _ _ _ _ _ Hrun).
Defined.

Lemma turn_debug_trace_witness :
  exists answer w' records,
    send_to_assistant Trace loads_examples dumps_examples capability_names
      trace_timer (scripted_client weather_script) "what is the weather" None
      None None None None
      (recording_web_search (mkSearchResult "Sunny, 21 degrees" None))
      (recording_vision "seen") []
    = (Ok answer, w')
    /\ debug_tools answer = dumps_examples (ContextRecord [] :: records)
    /\ Forall (tool_record_of known_tool_names) records
    /\ length records = 1.
Proof.
  destruct (send_to_assistant Trace loads_examples dumps_examples
              capability_names trace_timer (scripted_client weather_script)
              "what is the weather" None None None None None
              (recording_web_search (mkSearchResult "Sunny, 21 degrees" None))
              (recording_vision "seen") [])
    as [[answer|e] w'] eqn:Hrun; [|vm_compute in Hrun; discriminate Hrun].
  destruct (turn_debug_trace Trace loads_examples dumps_examples
              capability_names trace_timer (scripted_client weather_script)
              "what is the weather" None None None None None
              (recording_web_search (mkSearchResult "Sunny, 21 degrees" None))
              (recording_vision "seen") []
              [ CompletionCall
                  (first_request "gpt-3.5-turbo-1106"
                     [ mkMessage SYSTEM SYSTEM_MESSAGE;
                       mkMessage USER "what is the weather" ]
                     None None) ]
              w'
              [ mkMessage SYSTEM SYSTEM_MESSAGE;
                mkMessage USER "what is the weather" ]
              (mkCompletionResponse
                 (mkCompletionMessage None
                    (Some [ mkToolCall "call_1" SEARCH_TOOL_NAME
                              weather_payload ]))
                 (mkCompletionUsage 60 10 70))
              answer)
    as (records & Hdump & Hall & Hcount).
  - reflexivity.
  - reflexivity.
  - exact Hrun.
  - exists answer, w', records. repeat split; assumption.
Defined.
